(** * raspi_iccmax_FF: PMBus / VRM tool over I2C

    A shallow embedding of [raspi_iccmax_FF.py].  The program talks to
    the bus through two smbus2 calls only ([bus.i2c_rdwr(wr)] and
    [bus.i2c_rdwr(wr, rd)]), prints progress lines and sleeps.  The
    embedding threads a bus state that records every transaction in
    order, collects the printed lines, and propagates the one kind of
    exception the program can let escape ([ValueError]). *)

From Stdlib Require Import ZArith List String Ascii Bool Lia.
From Stdlib Require Decimal Hexadecimal DecimalString.
Import ListNotations.

Open Scope string_scope.
Open Scope list_scope.
Open Scope Z_scope.

(** ** Constants of the module *)

Definition BUS_ID : Z := 1.
Definition RETRY_RW : Z := 4.
Definition RETRY_SCAN : Z := 2.

(** ** Text formatting *)

(** The line feed written as [\n] inside the Python string literals. *)
Definition LF : string := String (ascii_of_nat 10) EmptyString.

(** Upper-case hexadecimal digits of a natural number, most significant
    first, as Python's [X] presentation type writes them. *)
Fixpoint upper_hex (u : Hexadecimal.uint) : string :=
  match u with
  | Hexadecimal.Nil => EmptyString
  | Hexadecimal.D0 u => String "0" (upper_hex u)
  | Hexadecimal.D1 u => String "1" (upper_hex u)
  | Hexadecimal.D2 u => String "2" (upper_hex u)
  | Hexadecimal.D3 u => String "3" (upper_hex u)
  | Hexadecimal.D4 u => String "4" (upper_hex u)
  | Hexadecimal.D5 u => String "5" (upper_hex u)
  | Hexadecimal.D6 u => String "6" (upper_hex u)
  | Hexadecimal.D7 u => String "7" (upper_hex u)
  | Hexadecimal.D8 u => String "8" (upper_hex u)
  | Hexadecimal.D9 u => String "9" (upper_hex u)
  | Hexadecimal.Da u => String "A" (upper_hex u)
  | Hexadecimal.Db u => String "B" (upper_hex u)
  | Hexadecimal.Dc u => String "C" (upper_hex u)
  | Hexadecimal.Dd u => String "D" (upper_hex u)
  | Hexadecimal.De u => String "E" (upper_hex u)
  | Hexadecimal.Df u => String "F" (upper_hex u)
  end.

(** [format(z, "02X")]: sign, then the magnitude in upper-case
    hexadecimal, zero-padded so that the whole field is two characters
    wide at least. *)
Definition fmt_02X (z : Z) : string :=
  let digits := upper_hex (N.to_hex_uint (Z.abs_N z)) in
  if z <? 0 then ("-" ++ digits)%string
  else if (String.length digits <? 2)%nat then ("0" ++ digits)%string
  else digits.

(** [str(z)] for an integer, as [f"{tries}"] renders it. *)
Definition fmt_int (z : Z) : string :=
  DecimalString.NilZero.string_of_int (Z.to_int z).

(** ** The transport

    Everything behind [SMBus.i2c_rdwr]: the kernel driver, the wires and
    the chips.  [i2c_write w addr data] is [bus.i2c_rdwr(wr)] with one
    write message; it tells whether the call returned ([true]) or raised
    ([false]).  [i2c_write_read w addr reg n] is [bus.i2c_rdwr(wr, rd)]:
    a one-byte write of [reg] followed by an [n]-byte read; [Some d] is
    the content of the read buffer, [None] an exception. *)
Record I2C : Type := {
  world : Type;
  i2c_write : world -> Z -> list Z -> world * bool;
  i2c_write_read : world -> Z -> Z -> nat -> world * option (list Z)
}.

(** smbus2 allocates the read buffer with [n] bytes, so a reply has
    exactly [n] elements, each a byte. *)
Definition i2c_wf (T : I2C) : Prop :=
  forall w addr reg n w' d,
    i2c_write_read T w addr reg n = (w', Some d) ->
    List.length d = n /\ Forall (fun x => 0 <= x <= 255) d.

(** What the program did to the outside world, in the order it did it. *)
Inductive Event : Type :=
| TxWrite (addr : Z) (data : list Z) (ok : bool)
| TxRead (addr : Z) (reg : Z) (n : nat) (reply : option (list Z))
| Sleep (seconds : Z).

(** Exceptions that are not caught inside the module. *)
Inductive exn : Type :=
| ValueError.

Inductive outcome (A : Type) : Type :=
| Returns (a : A)
| Raises (e : exn).
Arguments Returns {A} a.
Arguments Raises {A} e.

Section Tool.

Context (T : I2C).

(** Python's [int(s, 16)]: [Some v] when [s] reads as a base-16
    integer, [None] when [int] raises. *)
Context (int16 : string -> option Z).

Record Bus : Type := mkBus {
  dev : world T;
  log : list Event
}.

(** A computation runs on a bus, ends by returning or raising, leaves
    a bus behind and has printed some lines (the arguments of its
    [print] calls, oldest first). *)
Definition M (A : Type) : Type := Bus -> outcome A * Bus * list string.

Definition ret {A} (a : A) : M A := fun b => (Returns a, b, []).

Definition bind {A B} (m : M A) (f : A -> M B) : M B :=
  fun b =>
    match m b with
    | (Returns a, b1, o1) =>
        match f a b1 with
        | (r, b2, o2) => (r, b2, o1 ++ o2)
        end
    | (Raises e, b1, o1) => (Raises e, b1, o1)
    end.

Definition raise {A} (e : exn) : M A := fun b => (Raises e, b, []).

Definition print (s : string) : M unit := fun b => (Returns tt, b, [s]).

Definition sleep (seconds : Z) : M unit :=
  fun b => (Returns tt, mkBus (dev b) (log b ++ [Sleep seconds]), []).

Notation "x <- m ;; k" := (bind m (fun x => k))
  (at level 100, m at next level, right associativity).
Notation "' pat <- m ;; k" := (bind m (fun x => match x with pat => k end))
  (at level 100, pat pattern, m at next level, right associativity).
Notation "m ;;; k" := (bind m (fun _ => k))
  (at level 100, right associativity).

(** A Python [bytes] value: a list of integers of [range(256)].
    [bytes(l)] raises [ValueError] on any other element. *)
Definition is_byte (x : Z) : bool := (0 <=? x) && (x <? 256).

Definition bytes_ok (l : list Z) : bool := forallb is_byte l.

(** ** Basic I2C helpers *)

(** [write_block]: one write transaction; 0 when it went through, -1
    when smbus2 raised. *)
Definition write_block (addr7 : Z) (data : list Z) : M Z :=
  fun b =>
    let '(w, ok) := i2c_write T (dev b) addr7 data in
    (Returns (if ok then 0 else -1),
     mkBus w (log b ++ [TxWrite addr7 data ok]), []).

(** [read_block]: write the register number, read [nbytes] bytes back,
    in one combined transaction.  [bytes([reg])] is built inside the
    [try], so a register outside [range(256)] gives -1 without a
    transaction. *)
Definition read_block (addr7 reg : Z) (nbytes : nat) : M (Z * list Z) :=
  fun b =>
    if bytes_ok [reg] then
      let '(w, r) := i2c_write_read T (dev b) addr7 reg nbytes in
      (Returns (match r with Some d => (0, d) | None => (-1, []) end),
       mkBus w (log b ++ [TxRead addr7 reg nbytes r]), [])
    else (Returns (-1, []), b, []).

(** [bytes([0x00, page])], evaluated at the call site, outside any
    [try]. *)
Definition page_select (page : Z) : M (list Z) :=
  if bytes_ok [0; page] then ret [0; page] else raise ValueError.

(** The [while tries < RETRY_RW] loop of [vrm_write_block].  [left] is
    the loop variant [RETRY_RW - tries]: the loop runs while it is
    positive and every iteration that does not return lowers it by
    one. *)
Fixpoint vrm_write_loop (left : nat) (addr7 page : Z) (payload : list Z)
  : M Z :=
  match left with
  | O => ret (-1)
  | S left' =>
      let tries := RETRY_RW - Z.of_nat left in
      (if 0 <? tries then print (" try #" ++ fmt_int tries) else ret tt) ;;;
      rc <- (if 0 <=? page
             then (sel <- page_select page ;; write_block addr7 sel)
             else ret 0) ;;
      rc <- (if rc =? 0 then write_block addr7 payload else ret rc) ;;
      if rc =? 0 then ret 0
      else vrm_write_loop left' addr7 page payload
  end.

Definition vrm_write_block (addr7 page : Z) (payload : list Z) : M Z :=
  vrm_write_loop (Z.to_nat RETRY_RW) addr7 page payload.

(** The [while tries < RETRY_RW] loop of [vrm_read_block], on the same
    variant. *)
Fixpoint vrm_read_loop (left : nat) (addr7 page reg : Z) (nbytes : nat)
  : M (Z * list Z) :=
  match left with
  | O => ret (-1, [])
  | S left' =>
      let tries := RETRY_RW - Z.of_nat left in
      (if 0 <? tries then print (" retry#" ++ fmt_int tries) else ret tt) ;;;
      rc <- (if 0 <=? page
             then (sel <- page_select page ;; write_block addr7 sel)
             else ret 0) ;;
      if rc =? 0 then
        ' (rc, data) <- read_block addr7 reg nbytes ;;
        if rc =? 0 then ret (0, data)
        else vrm_read_loop left' addr7 page reg nbytes
      else vrm_read_loop left' addr7 page reg nbytes
  end.

Definition vrm_read_block (addr7 page reg : Z) (nbytes : nat)
  : M (Z * list Z) :=
  vrm_read_loop (Z.to_nat RETRY_RW) addr7 page reg nbytes.

(** The [while tries < RETRY_SCAN] loop of [scan_read_block]; it prints
    nothing between attempts. *)
Fixpoint scan_read_loop (left : nat) (addr7 page reg : Z) (nbytes : nat)
  : M (Z * list Z) :=
  match left with
  | O => ret (-1, [])
  | S left' =>
      rc <- (if 0 <=? page
             then (sel <- page_select page ;; write_block addr7 sel)
             else ret 0) ;;
      if rc =? 0 then
        ' (rc, data) <- read_block addr7 reg nbytes ;;
        if rc =? 0 then ret (0, data)
        else scan_read_loop left' addr7 page reg nbytes
      else scan_read_loop left' addr7 page reg nbytes
  end.

Definition scan_read_block (addr7 page reg : Z) (nbytes : nat)
  : M (Z * list Z) :=
  scan_read_loop (Z.to_nat RETRY_SCAN) addr7 page reg nbytes.

(** ** Device-specific procedures *)

(** [d[i]] on a reply.  Replies of a well-formed transport have the
    length that was asked for ([i2c_wf]) and the program only indexes
    below it, so the default is never returned. *)
Definition item (d : list Z) (i : nat) : Z := nth i d 0.

(** A value handed to a [:02X] replacement field. *)
Inductive pyval : Type :=
| PyStr (s : string)
| PyInt (z : Z).

(** [format(v, "02X")]: the [X] presentation type is defined for
    integers; on a string it raises
    [ValueError: Unknown format code 'X' for object of type 'str']. *)
Definition format_02X (v : pyval) : M string :=
  match v with
  | PyInt z => ret (fmt_02X z)
  | PyStr _ => raise ValueError
  end.

(** The remaining-attempts counter of a PXE1610C, from the two bytes of
    page 0x50 register 0x82.  The source repeats these two lines at each
    of the three places that decode it:
    [tmp = (att[1] << 2) & 0xFF; remain = (tmp | (att[0] >> 6)) & 0xFF]. *)
Definition remain (att : list Z) : Z :=
  let tmp := Z.land (Z.shiftl (item att 1) 2) 0xFF in
  Z.land (Z.lor tmp (Z.shiftr (item att 0) 6)) 0xFF.

Definition pxe1610_set_icc_max (addr7 : Z) : M Z :=
  ' (rc, b00_fd) <- vrm_read_block addr7 0x00 0xFD 1 ;;
  field <- format_02X (if negb (rc =? 0) then PyStr "??"
                       else PyInt (item b00_fd 0)) ;;
  print ("ReadBlock( Page00,cmdFD,1)=" ++ field
         ++ (if rc =? 0 then LF else " =Error")) ;;;
  if (rc =? 0) && (item b00_fd 0 =? 0xB3) then
    ' (rc, b4f_1a) <- vrm_read_block addr7 0x4F 0x1A 1 ;;
    print ("ReadBlock( Page4F,cmd1A,1)="
           ++ (if rc =? 0 then fmt_02X (item b4f_1a 0) ++ LF
               else "Error")) ;;;
    if (rc =? 0) && (item b4f_1a 0 =? 0x00) then
      ' (rc, b4f_32) <- vrm_read_block addr7 0x4F 0x32 2 ;;
      print ("ReadBlock( Page4F,cmd32,2)="
             ++ (if rc =? 0
                 then fmt_02X (item b4f_32 0) ++ fmt_02X (item b4f_32 1) ++ LF
                 else "Error")) ;;;
      if (rc =? 0) && (item b4f_32 0 =? 0x15) && (item b4f_32 1 =? 0x04)
      then
        print ("PXE1610C found: starting modd" ++ LF) ;;;
        (* SMB password, page 0x3F *)
        rc <- vrm_write_block addr7 0x3F [0x27; 0x7C; 0xB3] ;;
        print ("set smb_password=" ++ (if rc =? 0 then "OK" else "Error")) ;;;
        if negb (rc =? 0) then ret (-1) else
        (* ICC_MAX, page 0x20 register 0x73 *)
        ' (rc, icc) <- vrm_read_block addr7 0x20 0x73 2 ;;
        if rc =? 0 then
          print ("ICC_MAX=" ++ fmt_02X (item icc 0) ++ fmt_02X (item icc 1)
                 ++ LF) ;;;
          if item icc 0 =? 0xFF then
            print (" ICC_MAX is 255A - modification skipped." ++ LF) ;;;
            ret 0
          else
            (* remaining attempts, page 0x50 register 0x82 *)
            ' (rc, att) <- vrm_read_block addr7 0x50 0x82 2 ;;
            (if rc =? 0
             then print (" old remaining attempts= " ++ fmt_02X (remain att))
             else print "read attempts=Error") ;;;
            (* ICC_MAX = 0xFF00 *)
            rc <- vrm_write_block addr7 0x20 [0x73; 0xFF; 0x00] ;;
            print ("Write ICC_MAX=" ++ (if rc =? 0 then "OK" else "Error")) ;;;
            if negb (rc =? 0) then ret (-1) else
            (* NVM password *)
            rc <- vrm_write_block addr7 0x3F [0x29; 0xD7; 0xEF] ;;
            print ("set nvm_password="
                   ++ (if rc =? 0 then "OK" else "Error")) ;;;
            if negb (rc =? 0) then ret (-1) else
            (* upload trigger *)
            rc <- vrm_write_block addr7 0x3F [0x34] ;;
            print ("upload_cfg_send_byte="
                   ++ (if rc =? 0 then "OK" else "Error")) ;;;
            sleep 1 ;;;
            (* clear the NVM password *)
            rc <- vrm_write_block addr7 0x3F [0x29; 0x00; 0x00] ;;
            print ("clear nvm_password="
                   ++ (if rc =? 0 then "OK" else "Error")) ;;;
            if negb (rc =? 0) then ret (-1) else
            (* remaining attempts again *)
            ' (rc, att2) <- vrm_read_block addr7 0x50 0x82 2 ;;
            (if rc =? 0
             then print (" new remaining attempts= " ++ fmt_02X (remain att2))
             else ret tt) ;;;
            if rc =? 0 then
              print ("PXE1610C modd successful" ++ LF) ;;; ret 0
            else
              print ("PXE1610C modd error" ++ LF) ;;; ret (-1)
        else
          print ("Read ICC_MAX=Error" ++ LF) ;;; ret (-1)
      else
        print ("PXE1610C not found" ++ LF) ;;; ret (-1)
    else
      print ("PXE1610C not found" ++ LF) ;;; ret (-1)
  else
    print ("Device detection error" ++ LF) ;;; ret (-1).

Definition mp2955a_set_icc_max (addr7 : Z) : M Z :=
  ' (rc, bf) <- vrm_read_block addr7 0x00 0xBF 2 ;;
  print ("ReadBlock( Page00,cmdBF,2)="
         ++ (if rc =? 0 then fmt_02X (item bf 1) ++ fmt_02X (item bf 0) ++ LF
             else "Error" ++ LF)) ;;;
  if negb (rc =? 0) then
    print ("Device detection error" ++ LF) ;;; ret (-1)
  else
  if (item bf 0 =? 0x55) && (item bf 1 =? 0x25) then
    print ("MP2955A found: starting modd" ++ LF) ;;;
    (* ICC_MAX, register 0xEF *)
    ' (rc, v) <- vrm_read_block addr7 0x00 0xEF 1 ;;
    print ("ReadBlock( Page00,cmdEF,1) "
           ++ (if rc =? 0 then "ICC_MAX=" ++ fmt_02X (item v 0) ++ LF
               else "=Error" ++ LF)) ;;;
    if negb (rc =? 0) then ret (-1) else
    if item v 0 =? 0xFF then
      print (" ICC_MAX already 255A - modification skipped." ++ LF) ;;;
      ret 0
    else
      rc <- vrm_write_block addr7 0x00 [0xEF; 0xFF] ;;
      print ("WriteBlock( Page00,cmdEF,FF)="
             ++ (if rc =? 0 then "OK" else "Error")) ;;;
      if negb (rc =? 0) then ret (-1) else
      (* read back *)
      ' (rc, v2) <- vrm_read_block addr7 0x00 0xEF 1 ;;
      print ("ReadBlock( Page00,cmdEF,1) "
             ++ (if rc =? 0 then "ICC_MAX=" ++ fmt_02X (item v2 0) ++ LF
                 else "Error" ++ LF)) ;;;
      (* store *)
      rc <- vrm_write_block addr7 0x00 [0x15] ;;
      print ("WriteBlock( Page00,cmd15)="
             ++ (if rc =? 0 then "OK" else "Error")) ;;;
      sleep 1 ;;;
      if rc =? 0 then
        print ("MP2955A modd successful" ++ LF) ;;; ret 0
      else
        print ("MP2955A modd error" ++ LF) ;;; ret (-1)
  else
    print ("PXE1610C not found" ++ LF) ;;; ret (-1).

Definition tps53679_set_icc_max (addr7 : Z) : M Z :=
  ' (rc, ad) <- vrm_read_block addr7 0x00 0xAD 2 ;;
  print ("ReadBlock( Page00,cmdAD,2)="
         ++ (if rc =? 0 then fmt_02X (item ad 0) ++ fmt_02X (item ad 1) ++ LF
             else "Error")) ;;;
  if negb (rc =? 0) then
    print ("Device detection error" ++ LF) ;;; ret (-1)
  else
  if (item ad 0 =? 0x01) && ((item ad 1 =? 0x79) || (item ad 1 =? 0x78)) then
    print (if item ad 1 =? 0x79 then "TPS53679 found: starting modd"
           else "TPS53678 found: starting modd") ;;;
    (* ICC_MAX, register 0xDA, low byte first *)
    ' (rc, da) <- vrm_read_block addr7 0x00 0xDA 2 ;;
    print ("ReadBlock( Page00,cmdDA,2) "
           ++ (if rc =? 0
               then fmt_02X (item da 0) ++ fmt_02X (item da 1) ++ LF
               else "Error")) ;;;
    if negb (rc =? 0) then ret (-1) else
    if item da 0 =? 0xFF then
      print (" ICC_MAX already 255A - modification skipped." ++ LF) ;;;
      ret 0
    else
      rc <- vrm_write_block addr7 0x00 [0xDA; 0xFF; 0x00] ;;
      print ("WriteBlock( Page00,cmdDA,FF 00)="
             ++ (if rc =? 0 then "OK" else "Error")) ;;;
      if negb (rc =? 0) then ret (-1) else
      (* read back *)
      ' (rc, da2) <- vrm_read_block addr7 0x00 0xDA 2 ;;
      print ("ReadBlock( Page00,cmdDA,2)="
             ++ (if rc =? 0
                 then fmt_02X (item da2 0) ++ fmt_02X (item da2 1) ++ LF
                 else "Error")) ;;;
      (* store *)
      rc <- vrm_write_block addr7 0x00 [0x11] ;;
      print ("WriteBlock( Page00,cmd11)="
             ++ (if rc =? 0 then "OK" else "Error")) ;;;
      sleep 1 ;;;
      if rc =? 0 then
        print ("TPS53678/TPS53679 modd successful" ++ LF) ;;; ret 0
      else
        print ("TPS53678/TPS53679 modd error" ++ LF) ;;; ret (-1)
  else
    print ("TPS53679 not found" ++ LF) ;;; ret (-1).

(** ** Scanning *)

(** One iteration of the [while a <= end_addr] loop of [scan_pmbus],
    up to (not including) the final [a += 1]; each [continue] of the
    source is preceded by the same increment. *)
Definition scan_addr (a : Z) : M unit :=
  print ("scanning at addr: " ++ fmt_02X a) ;;;
  (* presence probe: one byte of register 0x00 *)
  ' (rc, _) <- read_block a 0x00 1 ;;
  let present := rc =? 0 in
  if present then
    print (" found device at addr: " ++ fmt_02X a) ;;;
    (* ISL69127 *)
    ' (rc, ad5) <- scan_read_block a 0x00 0xAD 5 ;;
    if (rc =? 0) && (List.length ad5 =? 5)%nat && (item ad5 4 =? 0x49)
       && (item ad5 3 =? 0xD2) && (item ad5 2 =? 0x23)
       && (item ad5 1 =? 0x00)
    then print ("probably ISL69127 found at addr: " ++ fmt_02X a)
    else
    (* TPS53678/9 *)
    ' (rc, ad2) <- scan_read_block a 0x00 0xAD 2 ;;
    if (rc =? 0) && (item ad2 0 =? 0x01) && (item ad2 1 =? 0x79)
    then print ("probably TPS53679 found at addr: " ++ fmt_02X a)
    else
    if (rc =? 0) && (item ad2 0 =? 0x01) && (item ad2 1 =? 0x78)
    then print ("probably TPS53678 found at addr: " ++ fmt_02X a)
    else
    (* MP2955A *)
    ' (rc, bf) <- scan_read_block a 0x00 0xBF 2 ;;
    if (rc =? 0) && (item bf 0 =? 0x55) && (item bf 1 =? 0x25)
    then print ("probably MP2955A found at addr: " ++ fmt_02X a)
    else
    (* Primarion / PXE1610C *)
    ' (rc, fd) <- scan_read_block a 0x00 0xFD 1 ;;
    if (rc =? 0) && (item fd 0 =? 0xB3) then
      ' (rc, ia) <- scan_read_block a 0x4F 0x1A 1 ;;
      if (rc =? 0) && (item ia 0 =? 0x00) then
        print ("Primarion family controller found at addr: "
               ++ fmt_02X a) ;;;
        ' (rc, x32) <- scan_read_block a 0x4F 0x32 2 ;;
        if (rc =? 0) && (item x32 0 =? 0x15) && (item x32 1 =? 0x04) then
          print ("PXE1610C found at addr: " ++ fmt_02X a) ;;;
          ' (rc, x82) <- scan_read_block a 0x50 0x82 2 ;;
          (if rc =? 0
           then print (" remaining attempts= " ++ fmt_02X (remain x82))
           else ret tt) ;;;
          ' (rc, icc) <- scan_read_block a 0x20 0x73 2 ;;
          (if rc =? 0
           then print (" ICC_MAX= " ++ fmt_02X (item icc 0))
           else ret tt)
        else ret tt
      else ret tt
    else ret tt
  else ret tt.

(** The loop of [scan_pmbus] on its variant [end_addr + 1 - a]. *)
Fixpoint scan_loop (left : nat) (a : Z) : M unit :=
  match left with
  | O => ret tt
  | S left' => scan_addr a ;;; scan_loop left' (a + 1)
  end.

Definition scan_pmbus (start_addr end_addr : Z) : M Z :=
  scan_loop (Z.to_nat (end_addr + 1 - start_addr)) start_addr ;;;
  ret 0.

(** ** Command line *)

Definition _parse_hex7 (s : string) : M Z :=
  match int16 s with
  | None => print "Error parsing addr" ;;; ret (-1)
  | Some v =>
      if (0x7F <? v) || (v <? 0)
      then print "addr out of range" ;;; ret (-1)
      else ret v
  end.

Definition _parse_hex7_second (s : string) : M Z :=
  match int16 s with
  | None => print "Error parsing addr" ;;; ret (-1)
  | Some v =>
      if (0x7F <? v) || (v <? 0)
      then print "second addr out of range" ;;; ret (-1)
      else ret v
  end.

Definition _print_usage : M unit :=
  print "Usage examples:" ;;;
  print "  python3 vrm_pmbus_pi.py -scan 10 77" ;;;
  print "  python3 vrm_pmbus_pi.py -PXE1610C 58 [5C]" ;;;
  print "  python3 vrm_pmbus_pi.py -MP2955A 60 [61]" ;;;
  print "  python3 vrm_pmbus_pi.py -TPS53679 70 [71]".

(** [argv[i]], used only below [len(argv)]. *)
Definition arg (argv : list string) (i : nat) : string := nth i argv "".

(** [main] on [sys.argv[1:]], inside [with SMBus(BUS_ID) as bus]: the
    bus is the one the computation runs on. *)
Definition main (argv : list string) : M unit :=
  if (List.length argv =? 0)%nat then _print_usage else
  let cmd := arg argv 0 in
  if (cmd =? "-scan")%string then
    if (List.length argv <? 3)%nat then _print_usage else
    a1 <- _parse_hex7 (arg argv 1) ;;
    if a1 <? 0 then ret tt else
    a2 <- _parse_hex7_second (arg argv 2) ;;
    if a2 <? 0 then ret tt else
    scan_pmbus a1 a2 ;;; ret tt
  else if (cmd =? "-PXE1610C")%string || (cmd =? "-MP2955A")%string
          || (cmd =? "-TPS53679")%string || (cmd =? "-TPS53678")%string
  then
    if (List.length argv <? 2)%nat then _print_usage else
    a1 <- _parse_hex7 (arg argv 1) ;;
    if a1 <? 0 then ret tt else
    a2 <- (if (3 <=? List.length argv)%nat
           then (v <- _parse_hex7_second (arg argv 2) ;; ret (Some v))
           else ret None) ;;
    if match a2 with Some v => v <? 0 | None => false end then ret tt else
    (* once or twice *)
    if (cmd =? "-PXE1610C")%string then
      pxe1610_set_icc_max a1 ;;;
      match a2 with
      | Some v => pxe1610_set_icc_max v ;;; ret tt
      | None => ret tt
      end
    else if (cmd =? "-MP2955A")%string then
      mp2955a_set_icc_max a1 ;;;
      match a2 with
      | Some v => mp2955a_set_icc_max v ;;; ret tt
      | None => ret tt
      end
    else if (cmd =? "-TPS53679")%string || (cmd =? "-TPS53678")%string then
      tps53679_set_icc_max a1 ;;;
      match a2 with
      | Some v => tps53679_set_icc_max v ;;; ret tt
      | None => ret tt
      end
    else ret tt
  else
    print "Argument error, expected -scan, -MP2955A, -PXE1610C, -TPS53679 or -TPS53678" ;;;
    _print_usage.

(** ** The three procedures as one family-indexed operation *)

Inductive Family : Type :=
| PXE1610C
| MP2955A
| TPS5367x.

(** The dispatch of [main] on its command word. *)
Definition set_icc_max (fam : Family) : Z -> M Z :=
  match fam with
  | PXE1610C => pxe1610_set_icc_max
  | MP2955A => mp2955a_set_icc_max
  | TPS5367x => tps53679_set_icc_max
  end.

(** The family a command word of [main] stands for. *)
Definition command_family (cmd : string) : option Family :=
  if (cmd =? "-PXE1610C")%string then Some PXE1610C
  else if (cmd =? "-MP2955A")%string then Some MP2955A
  else if (cmd =? "-TPS53679")%string || (cmd =? "-TPS53678")%string
  then Some TPS5367x
  else None.

(** ** The stage machine of the specification

    The specification describes each procedure as a sequence of stages
    (detect, unlock, read current value, write, commit, verify), each a
    paged read or a paged write, and gives failure rules for them.  The
    definitions below follow those words; the theorems compare the
    procedures above with them. *)

(** What a successful read decides. *)
Inductive Verdict : Type :=
| Proceed
| Stop (rc : Z).

Inductive Op : Type :=
| OpRead (page reg : Z) (nbytes : nat) (judge : list Z -> Verdict)
| OpWrite (page : Z) (payload : list Z).

(** What the failure of a stage means: the procedure ends with Error,
    the procedure goes on as if nothing had happened, or nothing is
    said. *)
Inductive OnFailure : Type :=
| Fatal
| BestEffort
| Unspecified.

Record Stage : Type := mkStage {
  st_op : Op;
  st_fail : OnFailure;
  st_settle : bool
}.

Definition perform (a : Z) (o : Op) : M (Z * list Z) :=
  match o with
  | OpRead page reg n _ => vrm_read_block a page reg n
  | OpWrite page payload =>
      rc <- vrm_write_block a page payload ;; ret (rc, [])
  end.

Definition judge_of (o : Op) (d : list Z) : Verdict :=
  match o with
  | OpRead _ _ _ judge => judge d
  | OpWrite _ _ => Proceed
  end.

(** The fixed settle delay after a commit trigger. *)
Definition settle (s : Stage) (b : Bus) : Bus :=
  if st_settle s then mkBus (dev b) (log b ++ [Sleep 1]) else b.

(** The stage machine: [Some rc] is the result the specification gives,
    [None] stands for a run it says nothing about. *)
Fixpoint run_script (a : Z) (script : list Stage) : M (option Z) :=
  match script with
  | [] => ret (Some 0)
  | s :: rest =>
      r <- perform a (st_op s) ;;
      (if st_settle s then sleep 1 else ret tt) ;;;
      if fst r =? 0 then
        match judge_of (st_op s) (snd r) with
        | Proceed => run_script a rest
        | Stop rc => ret (Some rc)
        end
      else
        match st_fail s with
        | Fatal => ret (Some (-1))
        | BestEffort => run_script a rest
        | Unspecified => ret None
        end
  end.

(** The stage [s], having returned [r], lets the procedure go on. *)
Definition proceeds (s : Stage) (r : Z * list Z) : bool :=
  if fst r =? 0 then
    match judge_of (st_op s) (snd r) with
    | Proceed => true
    | Stop _ => false
    end
  else
    match st_fail s with
    | BestEffort => true
    | _ => false
    end.

(** Starting on [b], the stages of [pre] have all been performed and
    let the procedure go on, and have left the bus [b']. *)
Fixpoint reaches (a : Z) (pre : list Stage) (b b' : Bus) : Prop :=
  match pre with
  | [] => b' = b
  | s :: rest =>
      exists r b1 out,
        perform a (st_op s) b = (Returns r, b1, out) /\
        proceeds s r = true /\
        reaches a rest (settle s b1) b'
  end.

(** A procedure run agrees with a run of the stage machine: same
    result and same bus wherever the machine gives a result. *)
Definition refines (actual : outcome Z * Bus * list string)
  (machine : outcome (option Z) * Bus * list string) : Prop :=
  match machine with
  | (Returns (Some rc), b', _) => fst actual = (Returns rc, b')
  | (Returns None, _, _) => True
  | (Raises e, b', _) => fst actual = (Raises e, b')
  end.

End Tool.

Arguments mkBus {T} dev log.
Arguments dev {T} b.
Arguments log {T} b.
Arguments ret {T A} a b.
Arguments bind {T A B} m f b.
Arguments raise {T A} e b.
Arguments print {T} s b.
Arguments sleep {T} seconds b.
Arguments settle {T} s b.
Arguments refines {T} actual machine.

Arguments set_icc_max T fam addr7 b : rename.

(** ** The stages of each family, from section 4.3 of the specification

    Pages are the ones the procedures pass to the paged operations. *)

Definition stage (o : Op) (f : OnFailure) : Stage := mkStage o f false.

(** A stage followed by the one-second settle delay. *)
Definition settled_stage (o : Op) (f : OnFailure) : Stage := mkStage o f true.

Definition when (c : bool) : Verdict := if c then Proceed else Stop (-1).

Definition identify (fam : Family) : list Stage :=
  match fam with
  | PXE1610C =>
      [ stage (OpRead 0x00 0xFD 1 (fun d => when (item d 0 =? 0xB3)))
              Unspecified;
        stage (OpRead 0x4F 0x1A 1 (fun d => when (item d 0 =? 0x00))) Fatal;
        stage (OpRead 0x4F 0x32 2
                 (fun d => when ((item d 0 =? 0x15) && (item d 1 =? 0x04))))
              Fatal ]
  | MP2955A =>
      [ stage (OpRead 0x00 0xBF 2
                 (fun d => when ((item d 0 =? 0x55) && (item d 1 =? 0x25))))
              Fatal ]
  | TPS5367x =>
      [ stage (OpRead 0x00 0xAD 2
                 (fun d => when ((item d 0 =? 0x01)
                                 && ((item d 1 =? 0x79) || (item d 1 =? 0x78)))))
              Fatal ]
  end.

(** Writes that come before the ICC_MAX read. *)
Definition unlock (fam : Family) : list Stage :=
  match fam with
  | PXE1610C => [ stage (OpWrite 0x3F [0x27; 0x7C; 0xB3]) Fatal ]
  | _ => []
  end.

(** Already at the maximum: Skipped, which the procedures return as 0. *)
Definition at_max (d : list Z) : Verdict :=
  if item d 0 =? 0xFF then Stop 0 else Proceed.

Definition read_current (fam : Family) : Stage :=
  match fam with
  | PXE1610C => stage (OpRead 0x20 0x73 2 at_max) Fatal
  | MP2955A => stage (OpRead 0x00 0xEF 1 at_max) Fatal
  | TPS5367x => stage (OpRead 0x00 0xDA 2 at_max) Fatal
  end.

Definition modify (fam : Family) : list Stage :=
  match fam with
  | PXE1610C =>
      [ stage (OpRead 0x50 0x82 2 (fun _ => Proceed)) BestEffort;
        stage (OpWrite 0x20 [0x73; 0xFF; 0x00]) Fatal;
        stage (OpWrite 0x3F [0x29; 0xD7; 0xEF]) Fatal;
        settled_stage (OpWrite 0x3F [0x34]) Unspecified;
        stage (OpWrite 0x3F [0x29; 0x00; 0x00]) Fatal;
        stage (OpRead 0x50 0x82 2 (fun _ => Proceed)) Unspecified ]
  | MP2955A =>
      [ stage (OpWrite 0x00 [0xEF; 0xFF]) Fatal;
        stage (OpRead 0x00 0xEF 1 (fun _ => Proceed)) BestEffort;
        settled_stage (OpWrite 0x00 [0x15]) Fatal ]
  | TPS5367x =>
      [ stage (OpWrite 0x00 [0xDA; 0xFF; 0x00]) Fatal;
        stage (OpRead 0x00 0xDA 2 (fun _ => Proceed)) BestEffort;
        settled_stage (OpWrite 0x00 [0x11]) Fatal ]
  end.

Definition script (fam : Family) : list Stage :=
  identify fam ++ unlock fam ++ read_current fam :: modify fam.

(** ** The stages with the failure rules the procedures apply

    The same stages, each with what its procedure does when the stage
    fails.  They differ from the stages above in two places of the
    PXE1610C procedure: the result of the upload trigger is printed and
    overwritten, so a failed trigger does not stop the procedure, and
    the result of the last remaining-attempts read is the result of the
    procedure.  The first PXE1610C identification read stays outside
    the three rules: its failure ends in an exception. *)
Definition modify_as_coded (fam : Family) : list Stage :=
  match fam with
  | PXE1610C =>
      [ stage (OpRead 0x50 0x82 2 (fun _ => Proceed)) BestEffort;
        stage (OpWrite 0x20 [0x73; 0xFF; 0x00]) Fatal;
        stage (OpWrite 0x3F [0x29; 0xD7; 0xEF]) Fatal;
        settled_stage (OpWrite 0x3F [0x34]) BestEffort;
        stage (OpWrite 0x3F [0x29; 0x00; 0x00]) Fatal;
        stage (OpRead 0x50 0x82 2 (fun _ => Proceed)) Fatal ]
  | _ => modify fam
  end.

Definition coded_script (fam : Family) : list Stage :=
  identify fam ++ unlock fam ++ read_current fam :: modify_as_coded fam.

(** A stage whose failure falls under one of the two rules, on a page
    and a register that fit in a byte. *)
Definition ruled (s : Stage) : Prop :=
  st_fail s <> Unspecified /\
  match st_op s with
  | OpRead page reg _ _ => page <= 255 /\ 0 <= reg <= 255
  | OpWrite page _ => page <= 255
  end.

(** The line each procedure prints when it skips the modification. *)
Definition skip_line (fam : Family) : string :=
  match fam with
  | PXE1610C => " ICC_MAX is 255A - modification skipped." ++ LF
  | _ => " ICC_MAX already 255A - modification skipped." ++ LF
  end.

(** ** Vocabulary for scan reports *)

(** The families the scanner tells apart, in its order of priority. *)
Inductive Reported : Type :=
| RepISL69127
| RepTPS5367x
| RepMP2955A
| RepPrimarion.

(** The family a printed line announces, if it announces one.  A
    PXE1610C is announced on two lines, both of the Primarion family. *)
Definition family_of_line (line : string) : option Reported :=
  if prefix "probably ISL69127 found" line then Some RepISL69127
  else if prefix "probably TPS5367" line then Some RepTPS5367x
  else if prefix "probably MP2955A found" line then Some RepMP2955A
  else if prefix "Primarion family controller found" line
          || prefix "PXE1610C found" line
  then Some RepPrimarion
  else None.

Definition reports (out : list string) (f : Reported) : Prop :=
  exists line, In line out /\ family_of_line line = Some f.

Definition reports_only (out : list string) (f : Reported) : Prop :=
  forall g, reports out g <-> g = f.

Definition reports_none (out : list string) : Prop :=
  forall g, ~ reports out g.

(** The signatures of section 4.2 of the specification, on the reply
    bytes. *)
Definition isl69127_sig (d : list Z) : bool :=
  (List.length d =? 5)%nat && (item d 1 =? 0x00) && (item d 2 =? 0x23)
  && (item d 3 =? 0xD2) && (item d 4 =? 0x49).

Definition tps5367x_sig (d : list Z) : bool :=
  (item d 0 =? 0x01) && ((item d 1 =? 0x79) || (item d 1 =? 0x78)).

Definition mp2955a_sig (d : list Z) : bool :=
  (item d 0 =? 0x55) && (item d 1 =? 0x25).

(** ** Vocabulary for transaction logs *)

(** The page-select transaction of one pass through a retry loop:
    present when the page is not the negative sentinel. *)
Definition sel_events (a page : Z) (ok : bool) : list Event :=
  if 0 <=? page then [TxWrite a [0; page] ok] else [].

(** The payload transaction of a paged write, by result. *)
Definition write_op (a : Z) (payload : list Z) (ok : bool) (e : Event)
  : Prop :=
  e = TxWrite a payload ok.

(** The payload transaction of a paged read, by result. *)
Definition read_op (a reg : Z) (n : nat) (ok : bool) (e : Event) : Prop :=
  if ok then exists d, e = TxRead a reg n (Some d)
  else e = TxRead a reg n None.

(** One pass through a retry loop that did not succeed: the page-select
    failed, or it went through and the payload transaction failed. *)
Definition attempt_failed (a page : Z) (is_op : bool -> Event -> Prop)
  (att : list Event) : Prop :=
  (0 <= page /\ att = [TxWrite a [0; page] false]) \/
  (exists e, is_op false e /\ att = sel_events a page true ++ [e]).

(** One pass that succeeded. *)
Definition attempt_ok (a page : Z) (is_op : bool -> Event -> Prop)
  (att : list Event) : Prop :=
  exists e, is_op true e /\ att = sel_events a page true ++ [e].

(** The passes of a retry loop with [budget] passes at its disposal
    that ended with result [rc]: either it succeeded on its last pass,
    within the budget and after failed passes only, or it used the whole
    budget on failed passes. *)
Definition retried (a page : Z) (is_op : bool -> Event -> Prop)
  (budget : nat) (rc : Z) (atts : list (list Event)) : Prop :=
  (rc = 0 /\ (List.length atts <= budget)%nat /\
   exists init final, atts = init ++ [final] /\
     Forall (attempt_failed a page is_op) init /\
     attempt_ok a page is_op final) \/
  (rc = -1 /\ List.length atts = budget /\
   Forall (attempt_failed a page is_op) atts).

(** Every pass of a paged retry loop is a failed or a successful pass,
    and a pass whose page-select went through and whose payload
    transaction failed is followed, while the budget lasts, by a pass
    that starts with the page-select again. *)
Definition restarts (a page : Z) (is_op : bool -> Event -> Prop)
  (budget : nat) (atts : list (list Event)) : Prop :=
  Forall (fun att => attempt_failed a page is_op att \/
                     attempt_ok a page is_op att) atts /\
  forall k e,
    nth_error atts k = Some [TxWrite a [0; page] true; e] ->
    is_op false e ->
    (S k < budget)%nat ->
    exists ok rest,
      nth_error atts (S k) = Some (TxWrite a [0; page] ok :: rest).

(** The write transactions of a log all carry data accepted by [W]. *)
Definition writes_only (W : list Z -> Prop) (evs : list Event) : Prop :=
  Forall (fun e => match e with
                   | TxWrite _ d _ => W d
                   | _ => True
                   end) evs.

(** The writes the scanner may issue: a page-select of one of the four
    pages it reads from. *)
Definition scan_select (d : list Z) : Prop :=
  exists p, In p [0x00; 0x4F; 0x50; 0x20] /\ d = [0; p].

(** A log that starts with a page-select of [page] at address [a]. *)
Definition starts_with_select (a page : Z) (evs : list Event) : Prop :=
  exists ok rest, evs = TxWrite a [0; page] ok :: rest.

Definition is_page_select (d : list Z) : Prop := exists p, d = [0; p].

(** A log in which every register access goes through page [page]: it
    is made of failed page-selects, of successful page-selects each
    followed at once by a read or by a write of a payload accepted by
    [W], and of settle delays. *)
Inductive paged_log (a page : Z) (W : list Z -> Prop) : list Event -> Prop :=
| paged_nil : paged_log a page W []
| paged_sel_failed rest :
    paged_log a page W rest ->
    paged_log a page W (TxWrite a [0; page] false :: rest)
| paged_read reg n r rest :
    paged_log a page W rest ->
    paged_log a page W
      (TxWrite a [0; page] true :: TxRead a reg n r :: rest)
| paged_write d ok rest :
    W d ->
    paged_log a page W rest ->
    paged_log a page W
      (TxWrite a [0; page] true :: TxWrite a d ok :: rest)
| paged_sleep secs rest :
    paged_log a page W rest ->
    paged_log a page W (Sleep secs :: rest).

(** The writes a procedure has issued when it reads ICC_MAX:
    page-selects and, for the PXE1610C, the SMB password. *)
Definition before_icc_read (fam : Family) (d : list Z) : Prop :=
  is_page_select d \/ (fam = PXE1610C /\ d = [0x27; 0x7C; 0xB3]).

(** A stage whose writes are all accepted by [W]. *)
Definition stage_within (W : list Z -> Prop) (s : Stage) : Prop :=
  match st_op s with
  | OpRead page reg _ _ => page <= 255 /\ 0 <= reg <= 255 /\ W [0; page]
  | OpWrite page payload => page <= 255 /\ W [0; page] /\ W payload
  end.

(** The payloads the MP2955A procedure writes: the new ICC_MAX and the
    store command. *)
Definition mp2955a_payload (d : list Z) : Prop :=
  d = [0xEF; 0xFF] \/ d = [0x15].

(** The payloads the TPS53679/TPS53678 procedure writes. *)
Definition tps53679_payload (d : list Z) : Prop :=
  d = [0xDA; 0xFF; 0x00] \/ d = [0x11].

(** The bus a run leaves behind, and the lines it printed. *)
Definition bus_of {T A} (x : outcome A * Bus T * list string) : Bus T :=
  snd (fst x).

Definition result_of {T A} (x : outcome A * Bus T * list string)
  : outcome A :=
  fst (fst x).

Definition lines_of {T A} (x : outcome A * Bus T * list string)
  : list string :=
  snd x.

(** Whatever the bus, the run of [m] adds to the log a list of
    transactions that satisfies [P]. *)
Definition emits {T A} (P : list Event -> Prop) (m : M T A) : Prop :=
  forall b, exists evs,
    log (bus_of (m b)) = log b ++ evs /\ P evs.

(** ** Vocabulary for results and addresses *)

(** Whatever the bus, the run of [m] returns (it does not raise) a
    value that satisfies [S]. *)
Definition always_returns {T A} (S : A -> Prop) (m : M T A) : Prop :=
  forall b, exists x, result_of (m b) = Returns x /\ S x.

(** The transactions of a log all go to addresses accepted by [P]. *)
Definition addressed (P : Z -> Prop) (evs : list Event) : Prop :=
  Forall (fun e => match e with
                   | TxWrite a _ _ => P a
                   | TxRead a _ _ _ => P a
                   | Sleep _ => True
                   end) evs.

(** A result code of the module: 0 or -1. *)
Definition is_rc (rc : Z) : Prop := rc = 0 \/ rc = -1.

(** ** Vocabulary for the command line *)

(** [s] reads as a 7-bit address: [int(s, 16)] succeeds with a value
    of 0..0x7F. *)
Definition valid_addr (int16 : string -> option Z) (s : string) : bool :=
  match int16 s with
  | Some v => (0 <=? v) && (v <=? 0x7F)
  | None => false
  end.

(** An argument list [main] acts upon: [-scan] with two valid
    addresses, or a family command with one valid address and, if a
    third argument is present, a valid second one. *)
Definition well_formed_invocation (int16 : string -> option Z)
  (argv : list string) : bool :=
  match argv with
  | cmd :: s1 :: rest =>
      if (cmd =? "-scan")%string then
        match rest with
        | s2 :: _ => valid_addr int16 s1 && valid_addr int16 s2
        | [] => false
        end
      else
        match command_family cmd with
        | Some _ =>
            valid_addr int16 s1 &&
            match rest with
            | s2 :: _ => valid_addr int16 s2
            | [] => true
            end
        | None => false
        end
  | _ => false
  end.

(** What an address parser of [main] returns: [-1] for a rejected
    argument, a 7-bit address otherwise. *)
Definition seven_bit_or_none (x : Z) : Prop := x = -1 \/ 0 <= x <= 127.

(** ** Vocabulary for what a run has done *)

(** Whatever the bus, [m] returns a value, and that value, the
    transactions the run adds to the log and the lines it prints
    satisfy [Q]. *)
Definition yields {T A} (Q : A -> list Event -> list string -> Prop)
  (m : M T A) : Prop :=
  forall b, exists x evs,
    result_of (m b) = Returns x /\
    log (bus_of (m b)) = log b ++ evs /\
    Q x evs (lines_of (m b)).

(** Whatever the bus, the outcome of [m], the transactions the run adds
    to the log and the lines it prints satisfy [Q]. *)
Definition post {T A}
  (Q : outcome A -> list Event -> list string -> Prop) (m : M T A) : Prop :=
  forall b, exists evs,
    log (bus_of (m b)) = log b ++ evs /\
    Q (result_of (m b)) evs (lines_of (m b)).




(** The payload writes a procedure checks before it reports success.
    The upload trigger [0x34] of the PXE1610C is not among them: its
    result is printed and overwritten. *)
Definition required_writes (fam : Family) : list (list Z) :=
  match fam with
  | PXE1610C =>
      [ [0x27; 0x7C; 0xB3]; [0x73; 0xFF; 0x00];
        [0x29; 0xD7; 0xEF]; [0x29; 0x00; 0x00] ]
  | MP2955A => [ [0xEF; 0xFF]; [0x15] ]
  | TPS5367x => [ [0xDA; 0xFF; 0x00]; [0x11] ]
  end.

(** ** Vocabulary for the presence probes of a scan *)

(** The addresses a log shows a presence probe for (a read of one byte
    of register 0x00), in the order of the log. *)
Definition probed (evs : list Event) : list Z :=
  flat_map (fun e =>
              match e with
              | TxRead a reg n _ =>
                  if (reg =? 0) && (n =? 1)%nat then [a] else []
              | _ => []
              end) evs.

(** [count] consecutive addresses from [a] upwards. *)
Fixpoint addresses_from (a : Z) (count : nat) : list Z :=
  match count with
  | O => []
  | S k => a :: addresses_from (a + 1) k
  end.

(** The addresses [start_addr], [start_addr + 1], ..., [end_addr]. *)
Definition addresses (start_addr end_addr : Z) : list Z :=
  addresses_from start_addr (Z.to_nat (end_addr + 1 - start_addr)).

(** A log made of page-selects of [page] at [a] and of nothing else. *)
Definition selects_only (a page : Z) (evs : list Event) : Prop :=
  Forall (fun e => exists ok, e = TxWrite a [0; page] ok) evs.

(** ** Simulated transports

    Concrete buses on which the program can be run: one where nothing
    answers, and simulated chips of the three families. *)

(** No device acknowledges anything: every transaction raises. *)
Definition dead_bus : I2C := {|
  world := unit;
  i2c_write := fun w _ _ => (w, false);
  i2c_write_read := fun w _ _ _ => (w, None)
|}.

(** A paged chip at one bus address.  Its state is the PAGE register
    and the number of transactions the bus has carried so far.
    [regs page reg] is the content of a register; [bad_write k data]
    tells whether the payload write [data], arriving as transaction
    number [k], goes unacknowledged, [bad_read k page reg] the same for
    reads.  A read of [n] bytes returns the first [n] bytes of the
    register, padded with zeros.  Other addresses do not answer. *)
Definition chip (chip_addr : Z) (regs : Z -> Z -> list Z)
  (bad_write : nat -> list Z -> bool) (bad_read : nat -> Z -> Z -> bool)
  : I2C := {|
  world := Z * nat;
  i2c_write := fun w a data =>
    let '(page, k) := w in
    if a =? chip_addr then
      match data with
      | [0; p] => ((p, S k), true)
      | _ => ((page, S k), negb (bad_write k data))
      end
    else ((page, S k), false);
  i2c_write_read := fun w a reg n =>
    let '(page, k) := w in
    if (a =? chip_addr) && negb (bad_read k page reg)
    then ((page, S k), Some (firstn n (regs page reg ++ repeat 0 n)))
    else ((page, S k), None)
|}.

Definition no_write : nat -> list Z -> bool := fun _ _ => false.
Definition no_read : nat -> Z -> Z -> bool := fun _ _ _ => false.

(** Register file of a PXE1610C whose ICC_MAX is [icc] and whose
    attempts counter reads [0xC0, 0x01] (seven attempts left). *)
Definition pxe1610_regs (icc : Z) (page reg : Z) : list Z :=
  if (page =? 0x00) && (reg =? 0xFD) then [0xB3]
  else if (page =? 0x4F) && (reg =? 0x1A) then [0x00]
  else if (page =? 0x4F) && (reg =? 0x32) then [0x15; 0x04]
  else if (page =? 0x20) && (reg =? 0x73) then [icc; 0x00]
  else if (page =? 0x50) && (reg =? 0x82) then [0xC0; 0x01]
  else [].

(** Register file of an MP2955A whose ICC_MAX is [icc]. *)
Definition mp2955a_regs (icc : Z) (page reg : Z) : list Z :=
  if reg =? 0xBF then [0x55; 0x25]
  else if reg =? 0xEF then [icc]
  else [].

(** Register file of a TPS53679 whose ICC_MAX is [icc]. *)
Definition tps53679_regs (icc : Z) (page reg : Z) : list Z :=
  if reg =? 0xAD then [0x01; 0x79]
  else if reg =? 0xDA then [icc; 0x00]
  else [].

(** A bus at power-up: page 0 selected, nothing carried or logged
    yet. *)
Definition fresh (T : I2C) (w : world T) : Bus T := mkBus w [].

Definition dead : Bus dead_bus := fresh dead_bus tt.

(** A PXE1610C at 0x58, a MP2955A at 0x60 and a TPS53679 at 0x70 that
    acknowledge everything, with ICC_MAX at [icc]. *)
Definition pxe_chip (icc : Z) : I2C :=
  chip 0x58 (pxe1610_regs icc) no_write no_read.

Definition mp_chip (icc : Z) : I2C :=
  chip 0x60 (mp2955a_regs icc) no_write no_read.

Definition tps_chip (icc : Z) : I2C :=
  chip 0x70 (tps53679_regs icc) no_write no_read.

(** A PXE1610C that does not acknowledge the upload trigger. *)
Definition pxe_chip_no_trigger : I2C :=
  chip 0x58 (pxe1610_regs 0x64)
    (fun _ d => match d with [0x34] => true | _ => false end) no_read.

(** A PXE1610C whose attempts counter can be read once (transaction
    11 of the procedure) and not any more afterwards. *)
Definition pxe_chip_counter_once : I2C :=
  chip 0x58 (pxe1610_regs 0x64) no_write
    (fun k _ reg => (reg =? 0x82) && (12 <=? k)%nat).

(** A MP2955A whose ICC_MAX register can be read before it is written
    (transaction 3 of the procedure) and not read back afterwards. *)
Definition mp_chip_no_readback : I2C :=
  chip 0x60 (mp2955a_regs 0x64) no_write
    (fun k _ reg => (reg =? 0xEF) && (4 <=? k)%nat).

(** A bus with one PXE1610C, at 0x5C; nothing answers at 0x58. *)
Definition pxe_chip_at_5C : I2C :=
  chip 0x5C (pxe1610_regs 0x64) no_write no_read.

(** A PXE1610C that loses the first payload transaction it is sent
    (transaction 1, right after the first page-select), be it a write
    or a read, and acknowledges everything after it. *)
Definition pxe_chip_first_payload_lost : I2C :=
  chip 0x58 (pxe1610_regs 0x64)
    (fun k _ => (k <? 2)%nat) (fun k _ _ => (k <? 2)%nat).

(** A PXE1610C that acknowledges neither the upload trigger nor the
    clearing of the NVM password. *)
Definition pxe_chip_no_trigger_no_clear : I2C :=
  chip 0x58 (pxe1610_regs 0x64)
    (fun _ d => match d with
                | [0x34] => true
                | [0x29; 0x00; 0x00] => true
                | _ => false
                end) no_read.

(** Power-up state of a simulated chip: page 0, no transaction yet. *)
Definition power_up : Z * nat := (0, 0%nat).

(** [int(s, 16)] on the handful of arguments used in the examples. *)
Definition int16_demo (s : string) : option Z :=
  if (s =? "58")%string then Some 0x58
  else if (s =? "5C")%string then Some 0x5C
  else if (s =? "60")%string then Some 0x60
  else if (s =? "61")%string then Some 0x61
  else if (s =? "70")%string then Some 0x70
  else if (s =? "71")%string then Some 0x71
  else None.

(** * Facts *)

Section Facts.

Context (T : I2C).

(** ** The monad *)

Lemma bind_returns {A B} (m : M T A) (f : A -> M T B) b a b1 o1 :
  m b = (Returns a, b1, o1) ->
  bind m f b =
  (result_of (f a b1), bus_of (f a b1), o1 ++ lines_of (f a b1)).
Proof.
  intros E. unfold bind. rewrite E.
  destruct (f a b1) as [[r b2] o2]. reflexivity.
Qed.

Lemma bind_raises {A B} (m : M T A) (f : A -> M T B) b e b1 o1 :
  m b = (Raises e, b1, o1) ->
  bind m f b = (Raises e, b1, o1).
Proof. intros E. unfold bind. rewrite E. reflexivity. Qed.

Lemma page_select_byte page :
  0 <= page <= 255 -> page_select T page = ret [0; page].
Proof.
  intros H. unfold page_select, bytes_ok, is_byte. simpl.
  replace (0 <=? page) with true by (symmetry; apply Z.leb_le; lia).
  replace (page <? 256) with true by (symmetry; apply Z.ltb_lt; lia).
  reflexivity.
Qed.

(** ** Retry loops *)

Lemma retried_exhausted a page is_op : retried a page is_op 0 (-1) [].
Proof. right. repeat split. constructor. Qed.

Lemma retried_first_ok a page is_op n att :
  attempt_ok a page is_op att -> retried a page is_op (S n) 0 [att].
Proof.
  intros H. left. split; [reflexivity|]. split; [simpl; lia|].
  exists [], att. repeat split; auto.
Qed.

Lemma retried_after_failure a page is_op n rc att atts :
  attempt_failed a page is_op att ->
  retried a page is_op n rc atts ->
  retried a page is_op (S n) rc (att :: atts).
Proof.
  intros Hf [(Hrc & Hlen & init & final & -> & Hinit & Hok)
            | (Hrc & Hlen & Hall)].
  - left. split; [assumption|]. split; [simpl in *; lia|].
    exists (att :: init), final. repeat split; auto.
  - right. split; [assumption|]. split; [simpl; lia|].
    constructor; assumption.
Qed.

Lemma sel_events_paged a page ok :
  0 <= page -> sel_events a page ok = [TxWrite a [0; page] ok].
Proof.
  intros H. unfold sel_events.
  replace (0 <=? page) with true by (symmetry; apply Z.leb_le; lia).
  reflexivity.
Qed.

Lemma sel_events_unpaged a page ok : page < 0 -> sel_events a page ok = [].
Proof.
  intros H. unfold sel_events.
  replace (0 <=? page) with false by (symmetry; apply Z.leb_gt; lia).
  reflexivity.
Qed.

Lemma bind_run {A B} (m : M T A) (f : A -> M T B) b a b1 o1 r b2 o2 :
  m b = (Returns a, b1, o1) ->
  f a b1 = (r, b2, o2) ->
  bind m f b = (r, b2, o1 ++ o2).
Proof. intros E1 E2. unfold bind. rewrite E1, E2. reflexivity. Qed.

Lemma write_block_run a d b :
  exists (ok : bool) w,
    write_block T a d b =
    (Returns (if ok then 0 else -1),
     mkBus w (log b ++ [TxWrite a d ok]), []).
Proof.
  unfold write_block. destruct (i2c_write T (dev b) a d) as [w ok].
  exists ok, w. reflexivity.
Qed.

Lemma read_block_run a reg n b :
  0 <= reg <= 255 ->
  exists r w,
    read_block T a reg n b =
    (Returns (match r with Some d => (0, d) | None => (-1, []) end),
     mkBus w (log b ++ [TxRead a reg n r]), []).
Proof.
  intros H. unfold read_block, bytes_ok, is_byte. simpl.
  replace (0 <=? reg) with true by (symmetry; apply Z.leb_le; lia).
  replace (reg <? 256) with true by (symmetry; apply Z.ltb_lt; lia).
  simpl. destruct (i2c_write_read T (dev b) a reg n) as [w r].
  exists r, w. reflexivity.
Qed.

(** The page-select step of one pass, when there is a page. *)
Lemma select_run a page (k : M T Z) b :
  0 <= page <= 255 ->
  exists (ok : bool) w,
    (if 0 <=? page
     then bind (page_select T page) (fun sel => write_block T a sel)
     else k) b =
    (Returns (if ok then 0 else -1),
     mkBus w (log b ++ [TxWrite a [0; page] ok]), []).
Proof.
  intros H.
  replace (0 <=? page) with true by (symmetry; apply Z.leb_le; lia).
  rewrite page_select_byte by assumption.
  destruct (write_block_run a [0; page] b) as (ok & w & E).
  exists ok, w. unfold bind, ret. rewrite E. reflexivity.
Qed.

Lemma banner_run (c : bool) s (b : Bus T) :
  exists o, (if c then print s else ret tt) b = (Returns tt, b, o).
Proof. destruct c; eexists; reflexivity. Qed.

(** The write loop with [left] passes to go returns 0 or -1 and logs
    exactly the transactions of its passes. *)
Lemma vrm_write_loop_retried a page payload left b :
  page <= 255 ->
  exists rc atts b' out,
    vrm_write_loop T left a page payload b = (Returns rc, b', out) /\
    log b' = log b ++ List.concat atts /\
    retried a page (write_op a payload) left rc atts.
Proof.
  intros Hpage. revert b.
  induction left as [|left IH]; intros b.
  - exists (-1), (@nil (list Event)), b, (@nil string). repeat split.
    + simpl. rewrite app_nil_r. reflexivity.
    + apply retried_exhausted.
  - destruct (banner_run (0 <? RETRY_RW - Z.of_nat (S left))
                (" try #" ++ fmt_int (RETRY_RW - Z.of_nat (S left))) b)
      as [o0 Hbanner].
    destruct (Z.leb_spec 0 page) as [Hp|Hp].
    + (* a page is selected first *)
      destruct (select_run a page (ret 0) b ltac:(lia)) as (ok1 & w1 & Hsel).
      destruct ok1.
      * (* the page-select went through *)
        destruct (write_block_run a payload
                    (mkBus w1 (log b ++ [TxWrite a [0; page] true])))
          as (ok2 & w2 & Hop).
        destruct ok2.
        -- exists 0, [[TxWrite a [0; page] true; TxWrite a payload true]].
           eexists _, _. split; [|split].
           ++ cbn [vrm_write_loop].
              eapply bind_run; [exact Hbanner|].
              eapply bind_run; [exact Hsel|]. cbn [Z.eqb].
              eapply bind_run; [exact Hop|]. reflexivity.
           ++ cbn. rewrite <- app_assoc. reflexivity.
           ++ apply retried_first_ok. exists (TxWrite a payload true).
              split; [reflexivity|]. rewrite sel_events_paged by lia.
              reflexivity.
        -- destruct (IH (mkBus w2
                      ((log b ++ [TxWrite a [0; page] true])
                       ++ [TxWrite a payload false])))
             as (rc & atts & b' & out & Hrun & Hlog & Hre).
           exists rc, ([TxWrite a [0; page] true; TxWrite a payload false]
                       :: atts), b'.
           eexists. split; [|split].
           ++ cbn [vrm_write_loop].
              eapply bind_run; [exact Hbanner|].
              eapply bind_run; [exact Hsel|]. cbn [Z.eqb].
              eapply bind_run; [exact Hop|]. exact Hrun.
           ++ rewrite Hlog. cbn. rewrite <- !app_assoc. reflexivity.
           ++ apply retried_after_failure; [|assumption].
              right. exists (TxWrite a payload false).
              split; [reflexivity|]. rewrite sel_events_paged by lia.
              reflexivity.
      * (* the page-select failed *)
        destruct (IH (mkBus w1 (log b ++ [TxWrite a [0; page] false])))
          as (rc & atts & b' & out & Hrun & Hlog & Hre).
        exists rc, ([TxWrite a [0; page] false] :: atts), b'.
        eexists. split; [|split].
        -- cbn [vrm_write_loop].
           eapply bind_run; [exact Hbanner|].
           eapply bind_run; [exact Hsel|]. cbn [Z.eqb].
           eapply bind_run; [reflexivity|]. exact Hrun.
        -- rewrite Hlog. cbn. rewrite <- !app_assoc. reflexivity.
        -- apply retried_after_failure; [|assumption].
           left. split; [lia|reflexivity].
    + (* no page *)
      assert (Hno : (0 <=? page) = false) by (apply Z.leb_gt; lia).
      destruct (write_block_run a payload b) as (ok2 & w2 & Hop).
      destruct ok2.
      * exists 0, [[TxWrite a payload true]].
        eexists _, _. split; [|split].
        -- cbn [vrm_write_loop]. rewrite Hno.
           eapply bind_run; [exact Hbanner|].
           eapply bind_run; [reflexivity|]. cbn [Z.eqb].
           eapply bind_run; [exact Hop|]. reflexivity.
        -- cbn. reflexivity.
        -- apply retried_first_ok. exists (TxWrite a payload true).
           split; [reflexivity|]. rewrite sel_events_unpaged by lia.
           reflexivity.
      * destruct (IH (mkBus w2 (log b ++ [TxWrite a payload false])))
          as (rc & atts & b' & out & Hrun & Hlog & Hre).
        exists rc, ([TxWrite a payload false] :: atts), b'.
        eexists. split; [|split].
        -- cbn [vrm_write_loop]. rewrite Hno.
           eapply bind_run; [exact Hbanner|].
           eapply bind_run; [reflexivity|]. cbn [Z.eqb].
           eapply bind_run; [exact Hop|]. exact Hrun.
        -- rewrite Hlog. cbn. rewrite <- !app_assoc. reflexivity.
        -- apply retried_after_failure; [|assumption].
           right. exists (TxWrite a payload false).
           split; [reflexivity|]. rewrite sel_events_unpaged by lia.
           reflexivity.
Qed.

(** The read loops, in the same terms. *)
Lemma vrm_read_loop_retried a page reg n left b :
  page <= 255 -> 0 <= reg <= 255 ->
  exists rc data atts b' out,
    vrm_read_loop T left a page reg n b = (Returns (rc, data), b', out) /\
    log b' = log b ++ List.concat atts /\
    retried a page (read_op a reg n) left rc atts /\
    (rc = 0 -> exists before, log b' = before ++ [TxRead a reg n (Some data)]).
Proof.
  intros Hpage Hreg. revert b.
  induction left as [|left IH]; intros b.
  - exists (-1), (@nil Z), (@nil (list Event)), b, (@nil string).
    repeat split.
    + simpl. rewrite app_nil_r. reflexivity.
    + apply retried_exhausted.
    + discriminate.
  - 
    destruct (banner_run (0 <? RETRY_RW - Z.of_nat (S left))
                (" retry#" ++ fmt_int (RETRY_RW - Z.of_nat (S left))) b)
      as [o0 Hbanner].
    destruct (Z.leb_spec 0 page) as [Hp|Hp].
    + (* a page is selected first *)
      destruct (select_run a page (ret 0) b ltac:(lia)) as (ok1 & w1 & Hsel).
      destruct ok1.
      * (* the page-select went through *)
        destruct (read_block_run a reg n
                    (mkBus w1 (log b ++ [TxWrite a [0; page] true])) Hreg)
          as (r & w2 & Hop).
        destruct r as [d|].
        -- exists 0, d,
             [[TxWrite a [0; page] true; TxRead a reg n (Some d)]].
           eexists _, _. split; [|split; [|split]].
           ++ cbn [vrm_read_loop].
              eapply bind_run; [exact Hbanner|]. eapply bind_run; [exact Hsel|]. cbn [Z.eqb].
              eapply bind_run; [exact Hop|]. reflexivity.
           ++ cbn. rewrite <- app_assoc. reflexivity.
           ++ apply retried_first_ok. exists (TxRead a reg n (Some d)).
              split; [exists d; reflexivity|].
              rewrite sel_events_paged by lia. reflexivity.
           ++ intros _. eexists. reflexivity.
        -- destruct (IH (mkBus w2
                      ((log b ++ [TxWrite a [0; page] true])
                       ++ [TxRead a reg n None])))
             as (rc & data & atts & b' & out & Hrun & Hlog & Hre & Hlast).
           exists rc, data,
             ([TxWrite a [0; page] true; TxRead a reg n None] :: atts), b'.
           eexists. split; [|split; [|split]].
           ++ cbn [vrm_read_loop].
              eapply bind_run; [exact Hbanner|]. eapply bind_run; [exact Hsel|]. cbn [Z.eqb].
              eapply bind_run; [exact Hop|]. exact Hrun.
           ++ rewrite Hlog. cbn. rewrite <- !app_assoc. reflexivity.
           ++ apply retried_after_failure; [|assumption].
              right. exists (TxRead a reg n None).
              split; [reflexivity|]. rewrite sel_events_paged by lia.
              reflexivity.
           ++ assumption.
      * (* the page-select failed *)
        destruct (IH (mkBus w1 (log b ++ [TxWrite a [0; page] false])))
          as (rc & data & atts & b' & out & Hrun & Hlog & Hre & Hlast).
        exists rc, data, ([TxWrite a [0; page] false] :: atts), b'.
        eexists. split; [|split; [|split]].
        -- cbn [vrm_read_loop].
           eapply bind_run; [exact Hbanner|]. eapply bind_run; [exact Hsel|]. cbn [Z.eqb]. exact Hrun.
        -- rewrite Hlog. cbn. rewrite <- !app_assoc. reflexivity.
        -- apply retried_after_failure; [|assumption].
           left. split; [lia|reflexivity].
        -- assumption.
    + (* no page *)
      assert (Hno : (0 <=? page) = false) by (apply Z.leb_gt; lia).
      destruct (read_block_run a reg n b Hreg) as (r & w2 & Hop).
      destruct r as [d|].
      * exists 0, d, [[TxRead a reg n (Some d)]].
        eexists _, _. split; [|split; [|split]].
        -- cbn [vrm_read_loop]. rewrite Hno.
           eapply bind_run; [exact Hbanner|]. eapply bind_run; [reflexivity|]. cbn [Z.eqb].
           eapply bind_run; [exact Hop|]. reflexivity.
        -- cbn. reflexivity.
        -- apply retried_first_ok. exists (TxRead a reg n (Some d)).
           split; [exists d; reflexivity|].
           rewrite sel_events_unpaged by lia. reflexivity.
        -- intros _. eexists. reflexivity.
      * destruct (IH (mkBus w2 (log b ++ [TxRead a reg n None])))
          as (rc & data & atts & b' & out & Hrun & Hlog & Hre & Hlast).
        exists rc, data, ([TxRead a reg n None] :: atts), b'.
        eexists. split; [|split; [|split]].
        -- cbn [vrm_read_loop]. rewrite Hno.
           eapply bind_run; [exact Hbanner|]. eapply bind_run; [reflexivity|]. cbn [Z.eqb].
           eapply bind_run; [exact Hop|]. exact Hrun.
        -- rewrite Hlog. cbn. rewrite <- !app_assoc. reflexivity.
        -- apply retried_after_failure; [|assumption].
           right. exists (TxRead a reg n None).
           split; [reflexivity|]. rewrite sel_events_unpaged by lia.
           reflexivity.
        -- assumption.
Qed.

Lemma scan_read_loop_retried a page reg n left b :
  page <= 255 -> 0 <= reg <= 255 ->
  exists rc data atts b' out,
    scan_read_loop T left a page reg n b = (Returns (rc, data), b', out) /\
    log b' = log b ++ List.concat atts /\
    retried a page (read_op a reg n) left rc atts /\
    (rc = 0 -> exists before, log b' = before ++ [TxRead a reg n (Some data)]).
Proof.
  intros Hpage Hreg. revert b.
  induction left as [|left IH]; intros b.
  - exists (-1), (@nil Z), (@nil (list Event)), b, (@nil string).
    repeat split.
    + simpl. rewrite app_nil_r. reflexivity.
    + apply retried_exhausted.
    + discriminate.
  - 
    destruct (Z.leb_spec 0 page) as [Hp|Hp].
    + (* a page is selected first *)
      destruct (select_run a page (ret 0) b ltac:(lia)) as (ok1 & w1 & Hsel).
      destruct ok1.
      * (* the page-select went through *)
        destruct (read_block_run a reg n
                    (mkBus w1 (log b ++ [TxWrite a [0; page] true])) Hreg)
          as (r & w2 & Hop).
        destruct r as [d|].
        -- exists 0, d,
             [[TxWrite a [0; page] true; TxRead a reg n (Some d)]].
           eexists _, _. split; [|split; [|split]].
           ++ cbn [scan_read_loop].
              eapply bind_run; [exact Hsel|]. cbn [Z.eqb].
              eapply bind_run; [exact Hop|]. reflexivity.
           ++ cbn. rewrite <- app_assoc. reflexivity.
           ++ apply retried_first_ok. exists (TxRead a reg n (Some d)).
              split; [exists d; reflexivity|].
              rewrite sel_events_paged by lia. reflexivity.
           ++ intros _. eexists. reflexivity.
        -- destruct (IH (mkBus w2
                      ((log b ++ [TxWrite a [0; page] true])
                       ++ [TxRead a reg n None])))
             as (rc & data & atts & b' & out & Hrun & Hlog & Hre & Hlast).
           exists rc, data,
             ([TxWrite a [0; page] true; TxRead a reg n None] :: atts), b'.
           eexists. split; [|split; [|split]].
           ++ cbn [scan_read_loop].
              eapply bind_run; [exact Hsel|]. cbn [Z.eqb].
              eapply bind_run; [exact Hop|]. exact Hrun.
           ++ rewrite Hlog. cbn. rewrite <- !app_assoc. reflexivity.
           ++ apply retried_after_failure; [|assumption].
              right. exists (TxRead a reg n None).
              split; [reflexivity|]. rewrite sel_events_paged by lia.
              reflexivity.
           ++ assumption.
      * (* the page-select failed *)
        destruct (IH (mkBus w1 (log b ++ [TxWrite a [0; page] false])))
          as (rc & data & atts & b' & out & Hrun & Hlog & Hre & Hlast).
        exists rc, data, ([TxWrite a [0; page] false] :: atts), b'.
        eexists. split; [|split; [|split]].
        -- cbn [scan_read_loop].
           eapply bind_run; [exact Hsel|]. cbn [Z.eqb]. exact Hrun.
        -- rewrite Hlog. cbn. rewrite <- !app_assoc. reflexivity.
        -- apply retried_after_failure; [|assumption].
           left. split; [lia|reflexivity].
        -- assumption.
    + (* no page *)
      assert (Hno : (0 <=? page) = false) by (apply Z.leb_gt; lia).
      destruct (read_block_run a reg n b Hreg) as (r & w2 & Hop).
      destruct r as [d|].
      * exists 0, d, [[TxRead a reg n (Some d)]].
        eexists _, _. split; [|split; [|split]].
        -- cbn [scan_read_loop]. rewrite Hno.
           eapply bind_run; [reflexivity|]. cbn [Z.eqb].
           eapply bind_run; [exact Hop|]. reflexivity.
        -- cbn. reflexivity.
        -- apply retried_first_ok. exists (TxRead a reg n (Some d)).
           split; [exists d; reflexivity|].
           rewrite sel_events_unpaged by lia. reflexivity.
        -- intros _. eexists. reflexivity.
      * destruct (IH (mkBus w2 (log b ++ [TxRead a reg n None])))
          as (rc & data & atts & b' & out & Hrun & Hlog & Hre & Hlast).
        exists rc, data, ([TxRead a reg n None] :: atts), b'.
        eexists. split; [|split; [|split]].
        -- cbn [scan_read_loop]. rewrite Hno.
           eapply bind_run; [reflexivity|]. cbn [Z.eqb].
           eapply bind_run; [exact Hop|]. exact Hrun.
        -- rewrite Hlog. cbn. rewrite <- !app_assoc. reflexivity.
        -- apply retried_after_failure; [|assumption].
           right. exists (TxRead a reg n None).
           split; [reflexivity|]. rewrite sel_events_unpaged by lia.
           reflexivity.
        -- assumption.
Qed.

Lemma attempt_failed_head a page is_op att :
  0 <= page -> attempt_failed a page is_op att ->
  exists ok rest, att = TxWrite a [0; page] ok :: rest.
Proof.
  intros Hp [[_ ->] | (e & _ & ->)].
  - eexists _, _. reflexivity.
  - rewrite sel_events_paged by assumption. eexists _, _. reflexivity.
Qed.

Lemma attempt_ok_head a page is_op att :
  0 <= page -> attempt_ok a page is_op att ->
  exists ok rest, att = TxWrite a [0; page] ok :: rest.
Proof.
  intros Hp (e & _ & ->).
  rewrite sel_events_paged by assumption. eexists _, _. reflexivity.
Qed.

Lemma retried_restarts a page is_op budget rc atts :
  0 <= page ->
  (forall e, is_op true e -> is_op false e -> False) ->
  retried a page is_op budget rc atts ->
  restarts a page is_op budget atts.
Proof.
  intros Hp Hexcl Hre. split.
  - destruct Hre as [(_ & _ & init & final & -> & Hinit & Hok)
                    | (_ & _ & Hall)].
    + apply Forall_app. split.
      * eapply Forall_impl; [|exact Hinit]. intros; left; assumption.
      * constructor; [right; assumption|constructor].
    + eapply Forall_impl; [|exact Hall]. intros; left; assumption.
  - intros k e Hk Hfail Hbudget.
    destruct Hre as [(_ & Hlen & init & final & -> & Hinit & Hok)
                    | (_ & Hlen & Hall)].
    + (* the loop succeeded: pass [k] is one of the failed ones *)
      assert (Hlt : (k < List.length init)%nat).
      { destruct (Nat.lt_ge_cases k (List.length init)) as [H|H];
          [assumption|exfalso].
        rewrite nth_error_app2 in Hk by assumption.
        destruct (k - List.length init)%nat as [|j] eqn:Ej.
        - simpl in Hk. injection Hk as Hk. destruct Hok as (e' & He' & Hfin).
          rewrite sel_events_paged in Hfin by assumption.
          rewrite Hfin in Hk. injection Hk as Hk. subst e'.
          exact (Hexcl e He' Hfail).
        - simpl in Hk. destruct j; discriminate. }
      destruct (Nat.lt_ge_cases (S k) (List.length init)) as [H|H].
      * destruct (nth_error init (S k)) as [att|] eqn:E.
        -- rewrite nth_error_app1 by assumption. rewrite E.
           rewrite Forall_forall in Hinit.
           destruct (attempt_failed_head a page is_op att Hp
                       (Hinit att (nth_error_In _ _ E)))
             as (ok & rest & ->).
           eexists _, _. reflexivity.
        -- apply nth_error_None in E. lia.
      * assert (S k = List.length init) as -> by lia.
        rewrite nth_error_app2 by lia. rewrite Nat.sub_diag. simpl.
        destruct (attempt_ok_head a page is_op final Hp Hok)
          as (ok & rest & ->).
        eexists _, _. reflexivity.
    + (* the loop failed: it used the whole budget *)
      destruct (nth_error atts (S k)) as [att|] eqn:E.
      * rewrite Forall_forall in Hall.
        destruct (attempt_failed_head a page is_op att Hp
                    (Hall att (nth_error_In _ _ E)))
          as (ok & rest & ->).
        eexists _, _. reflexivity.
      * apply nth_error_None in E. lia.
Qed.

Lemma write_op_exclusive a payload e :
  write_op a payload true e -> write_op a payload false e -> False.
Proof. unfold write_op. intros -> H. discriminate. Qed.

Lemma read_op_exclusive a reg n e :
  read_op a reg n true e -> read_op a reg n false e -> False.
Proof. unfold read_op. intros [d ->] H. discriminate. Qed.

Lemma retried_nonempty a page is_op budget rc atts :
  retried a page is_op (S budget) rc atts -> atts <> [].
Proof.
  intros [(_ & _ & init & final & -> & _) | (_ & Hlen & _)].
  - destruct init; discriminate.
  - destruct atts; [discriminate Hlen|discriminate].
Qed.

(** C6.  A paged write or read on a real page (0..255) makes at least
    one pass and logs the transactions of its passes and nothing else;
    whenever a pass got its page-select through and then lost the
    payload transaction, and the budget of four passes is not used up,
    the next pass exists and begins with the page-select again. *)
Theorem paged_retry_restarts_from_page_select a page payload reg n b :
  0 <= page <= 255 ->
  0 <= reg <= 255 ->
  (exists atts,
     atts <> [] /\
     log (bus_of (vrm_write_block T a page payload b))
     = log b ++ List.concat atts /\
     restarts a page (write_op a payload) 4 atts) /\
  (exists atts,
     atts <> [] /\
     log (bus_of (vrm_read_block T a page reg n b))
     = log b ++ List.concat atts /\
     restarts a page (read_op a reg n) 4 atts).
Proof.
  intros Hpage Hreg. split.
  - destruct (vrm_write_loop_retried a page payload 4 b ltac:(lia))
      as (rc & atts & b' & out & Hrun & Hlog & Hre).
    exists atts. unfold vrm_write_block.
    change (Z.to_nat RETRY_RW) with 4%nat. rewrite Hrun.
    split; [exact (retried_nonempty _ _ _ _ _ _ Hre)|]. split.
    + exact Hlog.
    + eapply retried_restarts; [lia| |exact Hre].
      apply write_op_exclusive.
  - destruct (vrm_read_loop_retried a page reg n 4 b ltac:(lia) Hreg)
      as (rc & data & atts & b' & out & Hrun & Hlog & Hre & _).
    exists atts. unfold vrm_read_block.
    change (Z.to_nat RETRY_RW) with 4%nat. rewrite Hrun.
    split; [exact (retried_nonempty _ _ _ _ _ _ Hre)|]. split.
    + exact Hlog.
    + eapply retried_restarts; [lia| |exact Hre].
      apply read_op_exclusive.
Qed.

(** C7.  A paged write and a paged read make at most four passes, the
    scan read at most two: they return 0 on the first pass that
    succeeds, after failed passes only, and -1 after exactly four
    (two) failed passes; the log holds the transactions of those passes
    and nothing after them. *)
Theorem retry_budget_is_exact a page payload reg n b :
  page <= 255 ->
  0 <= reg <= 255 ->
  (exists rc atts,
     result_of (vrm_write_block T a page payload b) = Returns rc /\
     log (bus_of (vrm_write_block T a page payload b))
     = log b ++ List.concat atts /\
     retried a page (write_op a payload) 4 rc atts) /\
  (exists rc data atts,
     result_of (vrm_read_block T a page reg n b) = Returns (rc, data) /\
     log (bus_of (vrm_read_block T a page reg n b))
     = log b ++ List.concat atts /\
     retried a page (read_op a reg n) 4 rc atts) /\
  (exists rc data atts,
     result_of (scan_read_block T a page reg n b) = Returns (rc, data) /\
     log (bus_of (scan_read_block T a page reg n b))
     = log b ++ List.concat atts /\
     retried a page (read_op a reg n) 2 rc atts).
Proof.
  intros Hpage Hreg. split; [|split].
  - destruct (vrm_write_loop_retried a page payload 4 b Hpage)
      as (rc & atts & b' & out & Hrun & Hlog & Hre).
    exists rc, atts. unfold vrm_write_block.
    change (Z.to_nat RETRY_RW) with 4%nat. rewrite Hrun. auto.
  - destruct (vrm_read_loop_retried a page reg n 4 b Hpage Hreg)
      as (rc & data & atts & b' & out & Hrun & Hlog & Hre & _).
    exists rc, data, atts. unfold vrm_read_block.
    change (Z.to_nat RETRY_RW) with 4%nat. rewrite Hrun. auto.
  - destruct (scan_read_loop_retried a page reg n 2 b Hpage Hreg)
      as (rc & data & atts & b' & out & Hrun & Hlog & Hre & _).
    exists rc, data, atts. unfold scan_read_block.
    change (Z.to_nat RETRY_SCAN) with 2%nat. rewrite Hrun. auto.
Qed.

(** ** Replies have the length that was asked for *)

Lemma bind_inv {A B} (m : M T A) (f : A -> M T B) b y b' o :
  bind m f b = (Returns y, b', o) ->
  exists x b1 o1 o2,
    m b = (Returns x, b1, o1) /\ f x b1 = (Returns y, b', o2) /\
    o = o1 ++ o2.
Proof.
  unfold bind. destruct (m b) as [[[x|e] b1] o1]; [|discriminate].
  destruct (f x b1) as [[r b2] o2] eqn:E. intros H. injection H as -> -> <-.
  exists x, b1, o1, o2. auto.
Qed.

Lemma read_block_length a reg n b d b' o :
  i2c_wf T ->
  read_block T a reg n b = (Returns (0, d), b', o) ->
  List.length d = n.
Proof.
  intros Hwf. unfold read_block. destruct (bytes_ok [reg]); [|discriminate].
  destruct (i2c_write_read T (dev b) a reg n) as [w [d'|]] eqn:E;
    [|discriminate].
  intros H. injection H as <- _ _. exact (proj1 (Hwf _ _ _ _ _ _ E)).
Qed.

(** On a well-formed transport a successful paged read returns
    [nbytes] bytes, so the indexing of the procedures stays in range. *)
Lemma vrm_read_block_length a page reg n b d b' o :
  i2c_wf T ->
  vrm_read_block T a page reg n b = (Returns (0, d), b', o) ->
  List.length d = n.
Proof.
  intros Hwf. unfold vrm_read_block.
  generalize (Z.to_nat RETRY_RW). intros left. revert b o.
  induction left as [|left IH]; intros b o; cbn [vrm_read_loop].
  - discriminate.
  - intros H. apply bind_inv in H.
    destruct H as (_ & b0 & o0 & o0' & _ & H & _).
    apply bind_inv in H. destruct H as (rc & b1 & o1 & o2 & _ & H & _).
    destruct (rc =? 0); [|exact (IH _ _ H)].
    apply bind_inv in H.
    destruct H as ([rc' d'] & b2 & o3 & o4 & Hread & H & _).
    destruct (rc' =? 0) eqn:Hrc; [|exact (IH _ _ H)].
    apply Z.eqb_eq in Hrc. subst rc'.
    injection H as <- _ _. exact (read_block_length _ _ _ _ _ _ _ Hwf Hread).
Qed.

Lemma scan_read_block_length a page reg n b d b' o :
  i2c_wf T ->
  scan_read_block T a page reg n b = (Returns (0, d), b', o) ->
  List.length d = n.
Proof.
  intros Hwf. unfold scan_read_block.
  generalize (Z.to_nat RETRY_SCAN). intros left. revert b o.
  induction left as [|left IH]; intros b o; cbn [scan_read_loop].
  - discriminate.
  - intros H. apply bind_inv in H.
    destruct H as (rc & b1 & o1 & o2 & _ & H & _).
    destruct (rc =? 0); [|exact (IH _ _ H)].
    apply bind_inv in H.
    destruct H as ([rc' d'] & b2 & o3 & o4 & Hread & H & _).
    destruct (rc' =? 0) eqn:Hrc; [|exact (IH _ _ H)].
    apply Z.eqb_eq in Hrc. subst rc'.
    injection H as <- _ _. exact (read_block_length _ _ _ _ _ _ _ Hwf Hread).
Qed.

(** ** What a computation adds to the log *)

Section Emits.

Variable P : list Event -> Prop.
Hypothesis P_nil : P [].
Hypothesis P_app : forall l1 l2, P l1 -> P l2 -> P (l1 ++ l2).

Lemma emits_silent {A} (m : M T A) :
  (forall b, bus_of (m b) = b) -> emits P m.
Proof.
  intros H b. exists []. rewrite H, app_nil_r. auto.
Qed.

Lemma emits_ret {A} (x : A) : emits P (ret (T := T) x).
Proof. apply emits_silent. reflexivity. Qed.

Lemma emits_raise {A} e : emits P (raise (T := T) (A := A) e).
Proof. apply emits_silent. reflexivity. Qed.

Lemma emits_print s : emits P (print (T := T) s).
Proof. apply emits_silent. reflexivity. Qed.

Lemma emits_sleep secs : P [Sleep secs] -> emits P (sleep (T := T) secs).
Proof. intros H b. exists [Sleep secs]. split; [reflexivity|assumption]. Qed.

Lemma emits_bind {A B} (m : M T A) (f : A -> M T B) :
  emits P m -> (forall x, emits P (f x)) -> emits P (bind m f).
Proof.
  intros Hm Hf b. destruct (Hm b) as (e1 & Hl1 & H1).
  unfold bind. destruct (m b) as [[[x|e] b1] o1]; cbn in Hl1.
  - destruct (Hf x b1) as (e2 & Hl2 & H2).
    destruct (f x b1) as [[r b2] o2]; cbn in Hl2 |- *.
    exists (e1 ++ e2). rewrite Hl2, Hl1, app_assoc. auto.
  - exists e1. auto.
Qed.

Lemma emits_format_02X v : emits P (format_02X T v).
Proof. destruct v; [apply emits_raise|apply emits_ret]. Qed.

End Emits.

Lemma Forall_attempts (Q : Event -> Prop) a page is_op budget rc atts :
  (forall ok, Q (TxWrite a [0; page] ok)) ->
  (forall ok e, is_op ok e -> Q e) ->
  retried a page is_op budget rc atts ->
  Forall Q (List.concat atts).
Proof.
  intros Hsel Hop Hre.
  assert (Hs : forall ok, Forall Q (sel_events a page ok)).
  { intros ok. unfold sel_events. destruct (0 <=? page); auto. }
  assert (Hf : forall att, attempt_failed a page is_op att -> Forall Q att).
  { intros att [[_ ->] | (e & He & ->)]; [auto|].
    apply Forall_app. eauto. }
  assert (Hk : forall att, attempt_ok a page is_op att -> Forall Q att).
  { intros att (e & He & ->). apply Forall_app. eauto. }
  apply Forall_concat.
  destruct Hre as [(_ & _ & init & final & -> & Hinit & Hok)
                  | (_ & _ & Hall)].
  - apply Forall_app. split.
    + eapply Forall_impl; [|exact Hinit]. exact Hf.
    + auto.
  - eapply Forall_impl; [|exact Hall]. exact Hf.
Qed.

Lemma writes_only_nil W : writes_only W [].
Proof. constructor. Qed.

Lemma writes_only_app W l1 l2 :
  writes_only W l1 -> writes_only W l2 -> writes_only W (l1 ++ l2).
Proof. intros H1 H2. apply Forall_app. auto. Qed.

Lemma vrm_write_block_writes_only (W : list Z -> Prop) a page payload :
  page <= 255 -> W [0; page] -> W payload ->
  emits (writes_only W) (vrm_write_block T a page payload).
Proof.
  intros Hpage Hsel Hpay b.
  destruct (vrm_write_loop_retried a page payload 4 b Hpage)
    as (rc & atts & b' & out & Hrun & Hlog & Hre).
  exists (List.concat atts). unfold vrm_write_block.
  change (Z.to_nat RETRY_RW) with 4%nat. rewrite Hrun.
  split; [exact Hlog|].
  eapply Forall_attempts; [| |exact Hre].
  - intros ok. exact Hsel.
  - intros ok e ->. exact Hpay.
Qed.

Lemma vrm_read_block_writes_only (W : list Z -> Prop) a page reg n :
  page <= 255 -> 0 <= reg <= 255 -> W [0; page] ->
  emits (writes_only W) (vrm_read_block T a page reg n).
Proof.
  intros Hpage Hreg Hsel b.
  destruct (vrm_read_loop_retried a page reg n 4 b Hpage Hreg)
    as (rc & data & atts & b' & out & Hrun & Hlog & Hre & _).
  exists (List.concat atts). unfold vrm_read_block.
  change (Z.to_nat RETRY_RW) with 4%nat. rewrite Hrun.
  split; [exact Hlog|].
  eapply Forall_attempts; [| |exact Hre].
  - intros ok. exact Hsel.
  - intros [|] e He; [destruct He as [d ->]|rewrite He]; exact I.
Qed.

Lemma scan_read_block_writes_only (W : list Z -> Prop) a page reg n :
  page <= 255 -> 0 <= reg <= 255 -> W [0; page] ->
  emits (writes_only W) (scan_read_block T a page reg n).
Proof.
  intros Hpage Hreg Hsel b.
  destruct (scan_read_loop_retried a page reg n 2 b Hpage Hreg)
    as (rc & data & atts & b' & out & Hrun & Hlog & Hre & _).
  exists (List.concat atts). unfold scan_read_block.
  change (Z.to_nat RETRY_SCAN) with 2%nat. rewrite Hrun.
  split; [exact Hlog|].
  eapply Forall_attempts; [| |exact Hre].
  - intros ok. exact Hsel.
  - intros [|] e He; [destruct He as [d ->]|rewrite He]; exact I.
Qed.

Lemma read_block_writes_only (W : list Z -> Prop) a reg n :
  emits (writes_only W) (read_block T a reg n).
Proof.
  intros b. unfold read_block. destruct (bytes_ok [reg]).
  - destruct (i2c_write_read T (dev b) a reg n) as [w r].
    eexists. split; [reflexivity|]. repeat constructor.
  - exists []. rewrite app_nil_r. split; [reflexivity|constructor].
Qed.

(** Logs that go through one page are closed under concatenation. *)
Lemma paged_log_app a page W l1 l2 :
  paged_log a page W l1 -> paged_log a page W l2 ->
  paged_log a page W (l1 ++ l2).
Proof.
  intros H1 H2. induction H1; cbn; try constructor; assumption.
Qed.

Lemma paged_log_concat a page W atts :
  Forall (paged_log a page W) atts -> paged_log a page W (List.concat atts).
Proof.
  induction 1; cbn; [constructor|apply paged_log_app; assumption].
Qed.

Lemma paged_attempts a page W is_op budget rc atts :
  0 <= page ->
  (forall ok e, is_op ok e ->
     paged_log a page W [TxWrite a [0; page] true; e]) ->
  retried a page is_op budget rc atts ->
  paged_log a page W (List.concat atts).
Proof.
  intros Hp Hop Hre.
  assert (Hf : forall att, attempt_failed a page is_op att ->
                           paged_log a page W att).
  { intros att [[_ ->] | (e & He & ->)].
    - repeat constructor.
    - rewrite sel_events_paged by assumption. cbn.
      eapply Hop. exact He. }
  assert (Hk : forall att, attempt_ok a page is_op att ->
                           paged_log a page W att).
  { intros att (e & He & ->).
    rewrite sel_events_paged by assumption. cbn.
    eapply Hop. exact He. }
  apply paged_log_concat.
  destruct Hre as [(_ & _ & init & final & -> & Hinit & Hok)
                  | (_ & _ & Hall)].
  - apply Forall_app. split.
    + eapply Forall_impl; [|exact Hinit]. exact Hf.
    + auto.
  - eapply Forall_impl; [|exact Hall]. exact Hf.
Qed.

Lemma vrm_write_block_paged (W : list Z -> Prop) a page payload :
  0 <= page <= 255 -> W payload ->
  emits (paged_log a page W) (vrm_write_block T a page payload).
Proof.
  intros Hpage Hpay b.
  destruct (vrm_write_loop_retried a page payload 4 b ltac:(lia))
    as (rc & atts & b' & out & Hrun & Hlog & Hre).
  exists (List.concat atts). unfold vrm_write_block.
  change (Z.to_nat RETRY_RW) with 4%nat. rewrite Hrun.
  split; [exact Hlog|].
  eapply paged_attempts; [lia| |exact Hre].
  intros ok e ->. repeat constructor. exact Hpay.
Qed.

Lemma vrm_read_block_paged (W : list Z -> Prop) a page reg n :
  0 <= page <= 255 -> 0 <= reg <= 255 ->
  emits (paged_log a page W) (vrm_read_block T a page reg n).
Proof.
  intros Hpage Hreg b.
  destruct (vrm_read_loop_retried a page reg n 4 b ltac:(lia) Hreg)
    as (rc & data & atts & b' & out & Hrun & Hlog & Hre & _).
  exists (List.concat atts). unfold vrm_read_block.
  change (Z.to_nat RETRY_RW) with 4%nat. rewrite Hrun.
  split; [exact Hlog|].
  eapply paged_attempts; [lia| |exact Hre].
  intros [|] e He; [destruct He as [d ->]|rewrite He]; repeat constructor.
Qed.

Lemma emits_impl {A} (P Q : list Event -> Prop) (m : M T A) :
  (forall l, P l -> Q l) -> emits P m -> emits Q m.
Proof.
  intros H Hm b. destruct (Hm b) as (evs & Hl & Hp). exists evs. auto.
Qed.

(** A property of the beginning of the log is decided by the first
    computation of a sequence, provided the rest only adds to the log. *)
Lemma emits_bind_first {A B} (Q : list Event -> Prop)
  (m : M T A) (f : A -> M T B) :
  (forall l l', Q l -> Q (l ++ l')) ->
  emits Q m -> (forall x, emits (fun _ => True) (f x)) ->
  emits Q (bind m f).
Proof.
  intros Hq Hm Hf b. destruct (Hm b) as (e1 & Hl1 & H1).
  unfold bind. destruct (m b) as [[[x|e] b1] o1]; cbn in Hl1.
  - destruct (Hf x b1) as (e2 & Hl2 & _).
    destruct (f x b1) as [[r b2] o2]; cbn in Hl2 |- *.
    exists (e1 ++ e2). rewrite Hl2, Hl1, app_assoc. auto.
  - exists e1. auto.
Qed.

Ltac emits_steps nil app leaf :=
  repeat first
    [ apply emits_ret; exact nil
    | apply emits_print; exact nil
    | apply emits_raise; exact nil
    | apply emits_format_02X; exact nil
    | leaf
    | apply emits_bind; [exact app| |intros]
    | match goal with
      | |- emits _ (if ?c then _ else _) => destruct c
      | |- emits _ (match ?x with _ => _ end) => destruct x
      end ].

(** ** The scanner *)

Lemma scan_addr_writes a : emits (writes_only scan_select) (scan_addr T a).
Proof.
  unfold scan_addr.
  emits_steps (writes_only_nil scan_select) (writes_only_app scan_select)
    ltac:(first
      [ apply read_block_writes_only
      | apply scan_read_block_writes_only;
        [lia|lia|eexists; split; [|reflexivity]; simpl; tauto] ]).
Qed.

Lemma scan_loop_writes left a :
  emits (writes_only scan_select) (scan_loop T left a).
Proof.
  revert a. induction left as [|left IH]; intros a; cbn [scan_loop].
  - apply emits_ret. apply writes_only_nil.
  - apply emits_bind; [apply writes_only_app|apply scan_addr_writes|].
    intros _. apply IH.
Qed.

(** C5.  Whatever the range and whatever the bus does, the write
    transactions of a scan are page-selects [0x00, page], of one of the
    pages 0x00, 0x4F, 0x50, 0x20 it reads from: no other register is
    written, and the remaining-attempts counter and ICC_MAX are obtained
    by reads. *)
Theorem scan_writes_are_page_selects start_addr end_addr b :
  exists evs,
    log (bus_of (scan_pmbus T start_addr end_addr b)) = log b ++ evs /\
    writes_only scan_select evs.
Proof.
  revert b. change (emits (writes_only scan_select)
                      (scan_pmbus T start_addr end_addr)).
  unfold scan_pmbus.
  apply emits_bind; [apply writes_only_app|apply scan_loop_writes|].
  intros _. apply emits_ret. apply writes_only_nil.
Qed.

(** ** Pages of the MP2955A and TPS5367x procedures *)

Lemma starts_with_select_app a page l l' :
  starts_with_select a page l -> starts_with_select a page (l ++ l').
Proof. intros (ok & rest & ->). eexists _, _. reflexivity. Qed.

Lemma retried_starts_with_select a page is_op budget rc atts :
  0 <= page -> (0 < budget)%nat ->
  retried a page is_op budget rc atts ->
  starts_with_select a page (List.concat atts).
Proof.
  intros Hp Hb [(_ & _ & init & final & -> & Hinit & Hok)
               | (_ & Hlen & Hall)].
  - destruct init as [|att init].
    + destruct (attempt_ok_head a page is_op final Hp Hok)
        as (ok & rest & ->).
      eexists _, _. reflexivity.
    + inversion Hinit as [|? ? Hatt _]; subst.
      destruct (attempt_failed_head a page is_op att Hp Hatt)
        as (ok & rest & ->).
      eexists _, _. reflexivity.
  - destruct atts as [|att atts]; [simpl in Hlen; lia|].
    inversion Hall as [|? ? Hatt _]; subst.
    destruct (attempt_failed_head a page is_op att Hp Hatt)
      as (ok & rest & ->).
    eexists _, _. reflexivity.
Qed.

Lemma vrm_read_block_starts_with_select a page reg n :
  0 <= page <= 255 -> 0 <= reg <= 255 ->
  emits (starts_with_select a page) (vrm_read_block T a page reg n).
Proof.
  intros Hpage Hreg b.
  destruct (vrm_read_loop_retried a page reg n 4 b ltac:(lia) Hreg)
    as (rc & data & atts & b' & out & Hrun & Hlog & Hre & _).
  exists (List.concat atts). unfold vrm_read_block.
  change (Z.to_nat RETRY_RW) with 4%nat. rewrite Hrun.
  split; [exact Hlog|].
  apply (retried_starts_with_select a page (read_op a reg n) 4%nat rc atts);
    [lia|lia|exact Hre].
Qed.

Ltac paged_steps a W :=
  emits_steps (paged_nil a 0 W) (paged_log_app a 0 W)
    ltac:(first
      [ apply vrm_read_block_paged; lia
      | apply vrm_write_block_paged; [lia|unfold W; tauto]
      | apply emits_sleep; repeat constructor ]).

Lemma mp2955a_paged a :
  emits (paged_log a 0 mp2955a_payload) (mp2955a_set_icc_max T a).
Proof. unfold mp2955a_set_icc_max. paged_steps a mp2955a_payload. Qed.

Lemma tps53679_paged a :
  emits (paged_log a 0 tps53679_payload) (tps53679_set_icc_max T a).
Proof. unfold tps53679_set_icc_max. paged_steps a tps53679_payload. Qed.

Lemma mp2955a_starts_with_select a :
  emits (starts_with_select a 0) (mp2955a_set_icc_max T a).
Proof.
  unfold mp2955a_set_icc_max. apply emits_bind_first.
  - apply starts_with_select_app.
  - apply vrm_read_block_starts_with_select; lia.
  - intros x. apply (emits_impl (paged_log a 0 mp2955a_payload)); [auto|].
    paged_steps a mp2955a_payload.
Qed.

Lemma tps53679_starts_with_select a :
  emits (starts_with_select a 0) (tps53679_set_icc_max T a).
Proof.
  unfold tps53679_set_icc_max. apply emits_bind_first.
  - apply starts_with_select_app.
  - apply vrm_read_block_starts_with_select; lia.
  - intros x. apply (emits_impl (paged_log a 0 tps53679_payload)); [auto|].
    paged_steps a tps53679_payload.
Qed.

(** C3, as the code has it.  The MP2955A and TPS53679/TPS53678
    procedures make every register access through page 0x00, not
    through the sentinel: their first transaction is the page-select
    [0x00, 0x00], every read and every payload write directly follows a
    page-select of page 0x00 that went through, and no other page is
    selected. *)
Theorem mp2955a_tps53679_use_page_zero a b :
  (exists evs,
     log (bus_of (mp2955a_set_icc_max T a b)) = log b ++ evs /\
     starts_with_select a 0 evs /\
     paged_log a 0 mp2955a_payload evs) /\
  (exists evs,
     log (bus_of (tps53679_set_icc_max T a b)) = log b ++ evs /\
     starts_with_select a 0 evs /\
     paged_log a 0 tps53679_payload evs).
Proof.
  split.
  - destruct (mp2955a_starts_with_select a b) as (e1 & Hl1 & H1).
    destruct (mp2955a_paged a b) as (e2 & Hl2 & H2).
    rewrite Hl1 in Hl2. apply app_inv_head in Hl2. subst e2.
    exists e1. auto.
  - destruct (tps53679_starts_with_select a b) as (e1 & Hl1 & H1).
    destruct (tps53679_paged a b) as (e2 & Hl2 & H2).
    rewrite Hl1 in Hl2. apply app_inv_head in Hl2. subst e2.
    exists e1. auto.
Qed.

(** ** Decoding the remaining-attempts counter *)

(** C9.  For a two-byte reply [byte0, byte1] the program computes
    ((byte1 << 2) | (byte0 >> 6)) & 0xFF. *)
Theorem remain_decodes (byte0 byte1 : Z) :
  remain [byte0; byte1]
  = Z.land (Z.lor (Z.shiftl byte1 2) (Z.shiftr byte0 6)) 0xFF.
Proof.
  unfold remain, item. cbn [nth].
  apply Z.bits_inj'. intros i Hi.
  rewrite !Z.land_spec, !Z.lor_spec, !Z.land_spec.
  destruct (Z.testbit (Z.shiftl byte1 2) i),
           (Z.testbit (Z.shiftr byte0 6) i),
           (Z.testbit 255 i); reflexivity.
Qed.

(** ** What the scanner reports *)

Lemma scan_read_loop_silent left a page reg n b :
  lines_of (scan_read_loop T left a page reg n b) = [].
Proof.
  revert b. induction left as [|left IH]; intros b; [reflexivity|].
  cbn [scan_read_loop]. unfold bind, page_select, ret, raise.
  unfold write_block, read_block.
  destruct (0 <=? page).
  - destruct (bytes_ok [0; page]); [|reflexivity].
    destruct (i2c_write T (dev b) a [0; page]) as [w1 [|]]; cbn [Z.eqb].
    + cbn [dev log]. destruct (bytes_ok [reg]).
      * destruct (i2c_write_read T w1 a reg n) as [w2 [d|]]; cbn [Z.eqb].
        -- reflexivity.
        -- match goal with
           | |- context [scan_read_loop T left a page reg n ?b1] =>
               specialize (IH b1);
               destruct (scan_read_loop T left a page reg n b1)
                 as [[r b2] o2]
           end.
           cbn in IH |- *. exact IH.
      * cbn [Z.eqb].
        match goal with
        | |- context [scan_read_loop T left a page reg n ?b1] =>
            specialize (IH b1);
            destruct (scan_read_loop T left a page reg n b1)
              as [[r b2] o2]
        end.
        cbn in IH |- *. exact IH.
    + match goal with
      | |- context [scan_read_loop T left a page reg n ?b1] =>
          specialize (IH b1);
          destruct (scan_read_loop T left a page reg n b1)
            as [[r b2] o2]
      end.
      cbn in IH |- *. exact IH.
  - cbn [Z.eqb]. destruct (bytes_ok [reg]).
    + destruct (i2c_write_read T (dev b) a reg n) as [w2 [d|]]; cbn [Z.eqb].
      * reflexivity.
      * match goal with
        | |- context [scan_read_loop T left a page reg n ?b1] =>
            specialize (IH b1);
            destruct (scan_read_loop T left a page reg n b1)
              as [[r b2] o2]
        end.
        cbn in IH |- *. exact IH.
    + cbn [Z.eqb].
      match goal with
      | |- context [scan_read_loop T left a page reg n ?b1] =>
          specialize (IH b1);
          destruct (scan_read_loop T left a page reg n b1)
            as [[r b2] o2]
      end.
      cbn in IH |- *. exact IH.
Qed.

Lemma scan_read_block_silent a page reg n b r b' o :
  scan_read_block T a page reg n b = (r, b', o) -> o = [].
Proof.
  intros E. pose proof (scan_read_loop_silent (Z.to_nat RETRY_SCAN)
                          a page reg n b) as H.
  unfold scan_read_block in E. rewrite E in H. exact H.
Qed.

Lemma reports_nil f : ~ reports [] f.
Proof. intros (line & [] & _). Qed.

Lemma reports_cons line out f :
  reports (line :: out) f <->
  family_of_line line = Some f \/ reports out f.
Proof.
  split.
  - intros (l & [<- | Hin] & Hf); [left; assumption|].
    right. exists l. auto.
  - intros [Hf | (l & Hin & Hf)].
    + exists line. split; [left; reflexivity|assumption].
    + exists l. split; [right; assumption|assumption].
Qed.

Lemma family_scanning x : family_of_line ("scanning at addr: " ++ x) = None.
Proof. reflexivity. Qed.

Lemma family_device x :
  family_of_line (" found device at addr: " ++ x) = None.
Proof. reflexivity. Qed.

Lemma family_isl x :
  family_of_line ("probably ISL69127 found at addr: " ++ x)
  = Some RepISL69127.
Proof. reflexivity. Qed.

Lemma family_tps79 x :
  family_of_line ("probably TPS53679 found at addr: " ++ x)
  = Some RepTPS5367x.
Proof. reflexivity. Qed.

Lemma family_tps78 x :
  family_of_line ("probably TPS53678 found at addr: " ++ x)
  = Some RepTPS5367x.
Proof. reflexivity. Qed.

Lemma family_mp x :
  family_of_line ("probably MP2955A found at addr: " ++ x)
  = Some RepMP2955A.
Proof. reflexivity. Qed.

Lemma family_primarion x :
  family_of_line ("Primarion family controller found at addr: " ++ x)
  = Some RepPrimarion.
Proof. reflexivity. Qed.

Lemma family_pxe x :
  family_of_line ("PXE1610C found at addr: " ++ x) = Some RepPrimarion.
Proof. reflexivity. Qed.

Lemma family_attempts x :
  family_of_line (" remaining attempts= " ++ x) = None.
Proof. reflexivity. Qed.

Lemma family_icc x : family_of_line (" ICC_MAX= " ++ x) = None.
Proof. reflexivity. Qed.

Lemma read_block_silent a reg n b r b' o :
  read_block T a reg n b = (r, b', o) -> o = [].
Proof.
  unfold read_block. destruct (bytes_ok [reg]).
  - destruct (i2c_write_read T (dev b) a reg n) as [w x].
    intros E. injection E as _ _ <-. reflexivity.
  - intros E. injection E as _ _ <-. reflexivity.
Qed.

Ltac family_rewrite :=
  rewrite ?family_scanning, ?family_device, ?family_isl, ?family_tps79,
    ?family_tps78, ?family_mp, ?family_primarion, ?family_pxe,
    ?family_attempts, ?family_icc.

Ltac report_leaf :=
  unfold reports_none, reports_only;
  first
    [ left; intros g; rewrite ?reports_cons; family_rewrite;
      pose proof (reports_nil g); intuition congruence
    | right; exists RepISL69127; intros g; rewrite ?reports_cons;
      family_rewrite; pose proof (reports_nil g); intuition congruence
    | right; exists RepTPS5367x; intros g; rewrite ?reports_cons;
      family_rewrite; pose proof (reports_nil g); intuition congruence
    | right; exists RepMP2955A; intros g; rewrite ?reports_cons;
      family_rewrite; pose proof (reports_nil g); intuition congruence
    | right; exists RepPrimarion; intros g; rewrite ?reports_cons;
      family_rewrite; pose proof (reports_nil g); intuition congruence ].

Ltac scan_step :=
  cbn [lines_of bus_of result_of fst snd app];
  match goal with
  | |- context [bind (print ?s) ?k ?b] =>
      rewrite (bind_returns (print s) k b tt b [s] eq_refl)
  | |- context [bind (ret ?x) ?k ?b] =>
      rewrite (bind_returns (ret x) k b x b [] eq_refl)
  | |- context [bind (read_block T ?a ?r ?n) ?k ?b] =>
      let E := fresh "E" in
      let o := fresh "o" in
      destruct (read_block T a r n b) as [[[[? ?]|?] ?] o] eqn:E;
      pose proof (read_block_silent _ _ _ _ _ _ _ E); subst o;
      [ rewrite (bind_returns _ k b _ _ _ E)
      | rewrite (bind_raises _ k b _ _ _ E) ]
  | |- context [bind (scan_read_block T ?a ?p ?r ?n) ?k ?b] =>
      let E := fresh "E" in
      let o := fresh "o" in
      destruct (scan_read_block T a p r n b) as [[[[? ?]|?] ?] o] eqn:E;
      pose proof (scan_read_block_silent _ _ _ _ _ _ _ _ E); subst o;
      [ rewrite (bind_returns _ k b _ _ _ E)
      | rewrite (bind_raises _ k b _ _ _ E) ]
  | |- context [if ?c then _ else _] => destruct c
  end.

(** Whatever the bus does, one address gets no family or one. *)
Lemma scan_addr_verdict a b :
  reports_none (lines_of (scan_addr T a b)) \/
  exists f, reports_only (lines_of (scan_addr T a b)) f.
Proof.
  unfold scan_addr. repeat scan_step; unfold ret, print;
    cbn [lines_of bus_of result_of fst snd app]; report_leaf.
Qed.

Ltac run_print :=
  match goal with
  | |- context [bind (print ?s) ?k ?b] =>
      rewrite (bind_returns (print s) k b tt b [s] eq_refl)
  end.

Ltac run_with E :=
  match type of E with
  | ?m ?b = (Returns ?x, ?b1, ?o) =>
      match goal with
      | |- context [bind m ?k b] => rewrite (bind_returns m k b x b1 o E)
      end
  end.

Ltac run_simpl :=
  cbn [lines_of bus_of result_of fst snd List.app Z.eqb Pos.eqb negb].

Lemma isl69127_test rc d :
  (rc =? 0) && (List.length d =? 5)%nat && (item d 4 =? 0x49)
  && (item d 3 =? 0xD2) && (item d 2 =? 0x23) && (item d 1 =? 0x00)
  = (rc =? 0) && isl69127_sig d.
Proof.
  unfold isl69127_sig.
  destruct (rc =? 0), (List.length d =? 5)%nat, (item d 4 =? 0x49),
    (item d 3 =? 0xD2), (item d 2 =? 0x23), (item d 1 =? 0x00);
    reflexivity.
Qed.

(** The two TPS tests of the scanner against the one signature. *)
Lemma tps5367x_test rc d :
  let is79 := (rc =? 0) && (item d 0 =? 0x01) && (item d 1 =? 0x79) in
  let is78 := (rc =? 0) && (item d 0 =? 0x01) && (item d 1 =? 0x78) in
  (rc =? 0) && tps5367x_sig d = is79 || is78.
Proof.
  unfold tps5367x_sig.
  destruct (rc =? 0), (item d 0 =? 0x01), (item d 1 =? 0x79),
    (item d 1 =? 0x78); reflexivity.
Qed.

Lemma mp2955a_test rc d :
  (rc =? 0) && (item d 0 =? 0x55) && (item d 1 =? 0x25)
  = (rc =? 0) && mp2955a_sig d.
Proof.
  unfold mp2955a_sig.
  destruct (rc =? 0), (item d 0 =? 0x55), (item d 1 =? 0x25); reflexivity.
Qed.

Ltac only_leaf :=
  split;
  [ unfold reports_only; intros g; rewrite ?reports_cons; family_rewrite;
    pose proof (reports_nil g); intuition congruence
  | reflexivity ].

Ltac none_leaf :=
  split;
  [ unfold reports_none; intros g; rewrite ?reports_cons; family_rewrite;
    pose proof (reports_nil g); intuition congruence
  | reflexivity ].

(** C8.  At an address whose presence probe succeeded the scanner
    tests the ISL69127 signature, then the TPS53679/78 one, then the
    MP2955A one, then the Primarion/PXE1610C ones, each on the bus the
    previous test left.  At the first of the first three signatures
    that matches it reports that family and no other and issues no
    further transaction.  When none of them matches it reads register
    0xFD of page 0x00 and, if that is 0xB3, register 0x1A of page 0x4F:
    if that is 0x00 it reports the Primarion family and no other, and
    goes on to register 0x32 of page 0x4F, announcing a PXE1610C
    exactly when that reads 0x15 0x04, and then reading the attempts
    counter and ICC_MAX; if one of the two tests fails it reports no
    family and issues no further transaction.  In no case does it
    report two families. *)
Theorem scan_reports_first_matching_family a b d0 b0 o0 :
  read_block T a 0x00 1 b = (Returns (0, d0), b0, o0) ->
  let out := lines_of (scan_addr T a b) in
  let bus := bus_of (scan_addr T a b) in
  (forall f g, reports out f -> reports out g -> f = g) /\
  forall rc1 ad5 b1 o1,
    scan_read_block T a 0x00 0xAD 5 b0 = (Returns (rc1, ad5), b1, o1) ->
    if (rc1 =? 0) && isl69127_sig ad5
    then reports_only out RepISL69127 /\ bus = b1
    else
      forall rc2 ad2 b2 o2,
        scan_read_block T a 0x00 0xAD 2 b1 = (Returns (rc2, ad2), b2, o2) ->
        if (rc2 =? 0) && tps5367x_sig ad2
        then reports_only out RepTPS5367x /\ bus = b2
        else
          forall rc3 bf b3 o3,
            scan_read_block T a 0x00 0xBF 2 b2
            = (Returns (rc3, bf), b3, o3) ->
            if (rc3 =? 0) && mp2955a_sig bf
            then reports_only out RepMP2955A /\ bus = b3
            else
              forall rc4 fd b4 o4,
                scan_read_block T a 0x00 0xFD 1 b3
                = (Returns (rc4, fd), b4, o4) ->
                if (rc4 =? 0) && (item fd 0 =? 0xB3)
                then
                  forall rc5 ia b5 o5,
                    scan_read_block T a 0x4F 0x1A 1 b4
                    = (Returns (rc5, ia), b5, o5) ->
                    if (rc5 =? 0) && (item ia 0 =? 0x00)
                    then
                      reports_only out RepPrimarion /\
                      forall rc6 x32 b6 o6,
                        scan_read_block T a 0x4F 0x32 2 b5
                        = (Returns (rc6, x32), b6, o6) ->
                        if (rc6 =? 0) && (item x32 0 =? 0x15)
                           && (item x32 1 =? 0x04)
                        then
                          In ("PXE1610C found at addr: " ++ fmt_02X a)%string out
                          /\
                          forall rc7 x82 b7 o7 rc8 icc b8 o8,
                            scan_read_block T a 0x50 0x82 2 b6
                            = (Returns (rc7, x82), b7, o7) ->
                            scan_read_block T a 0x20 0x73 2 b7
                            = (Returns (rc8, icc), b8, o8) ->
                            bus = b8
                        else
                          ~ In ("PXE1610C found at addr: " ++ fmt_02X a)%string
                               out
                          /\ bus = b6
                    else reports_none out /\ bus = b5
                else reports_none out /\ bus = b4.
Proof.
  intros Hprobe. cbv zeta. split.
  { intros f g Hf Hg.
    destruct (scan_addr_verdict a b) as [Hn | [x Hx]].
    - destruct (Hn f Hf).
    - apply Hx in Hf, Hg. congruence. }
  pose proof (read_block_silent _ _ _ _ _ _ _ Hprobe); subst o0.
  intros rc1 ad5 b1 o1 E1.
  pose proof (scan_read_block_silent _ _ _ _ _ _ _ _ E1); subst o1.
  unfold scan_addr.
  run_print. run_with Hprobe. run_simpl. run_print. run_with E1. run_simpl.
  rewrite isl69127_test.
  destruct ((rc1 =? 0) && isl69127_sig ad5).
  { unfold print. run_simpl. only_leaf. }
  intros rc2 ad2 b2 o2 E2.
  pose proof (scan_read_block_silent _ _ _ _ _ _ _ _ E2); subst o2.
  run_with E2. run_simpl.
  rewrite tps5367x_test. cbv zeta.
  destruct ((rc2 =? 0) && (item ad2 0 =? 1) && (item ad2 1 =? 121)).
  { unfold print. run_simpl. only_leaf. }
  destruct ((rc2 =? 0) && (item ad2 0 =? 1) && (item ad2 1 =? 120)).
  { unfold print. run_simpl. only_leaf. }
  cbn [orb].
  intros rc3 bf b3 o3 E3.
  pose proof (scan_read_block_silent _ _ _ _ _ _ _ _ E3); subst o3.
  run_with E3. run_simpl.
  rewrite mp2955a_test.
  destruct ((rc3 =? 0) && mp2955a_sig bf).
  { unfold print. run_simpl. only_leaf. }
  intros rc4 fd b4 o4 E4.
  pose proof (scan_read_block_silent _ _ _ _ _ _ _ _ E4); subst o4.
  run_with E4. run_simpl.
  destruct ((rc4 =? 0) && (item fd 0 =? 179)).
  2:{ unfold ret. run_simpl. none_leaf. }
  intros rc5 ia b5 o5 E5.
  pose proof (scan_read_block_silent _ _ _ _ _ _ _ _ E5); subst o5.
  run_with E5. run_simpl.
  destruct ((rc5 =? 0) && (item ia 0 =? 0)).
  2:{ unfold ret. run_simpl. none_leaf. }
  run_print. run_simpl. split.
  { repeat scan_step; unfold ret, print; run_simpl;
      unfold reports_only; intros g; rewrite ?reports_cons; family_rewrite;
      pose proof (reports_nil g); intuition congruence. }
  intros rc6 x32 b6 o6 E6.
  pose proof (scan_read_block_silent _ _ _ _ _ _ _ _ E6); subst o6.
  run_with E6. run_simpl.
  destruct ((rc6 =? 0) && (item x32 0 =? 21) && (item x32 1 =? 4)).
  2:{ unfold ret. run_simpl. split; [|reflexivity].
      cbn [In]. intros [H|[H|[H|[]]]]; discriminate H. }
  run_print. run_simpl. split.
  { do 3 right. left. reflexivity. }
  intros rc7 x82 b7 o7 rc8 icc b8 o8 E7 E8.
  run_with E7. run_simpl.
  destruct (rc7 =? 0);
    [ run_print
    | match goal with
      | |- context [bind (ret ?x) ?k ?b] =>
          rewrite (bind_returns (ret x) k b x b [] eq_refl)
      end ];
    run_with E8; run_simpl;
    destruct (rc8 =? 0); reflexivity.
Qed.

(** ** The procedures against the stage machine *)

Ltac machine_step :=
  match goal with
  | H : vrm_read_block T ?a ?p ?r ?n ?b = _
    |- context [vrm_read_block T ?a ?p ?r ?n ?b] => rewrite H
  | H : vrm_write_block T ?a ?p ?d ?b = _
    |- context [vrm_write_block T ?a ?p ?d ?b] => rewrite H
  | |- context [vrm_read_block T ?a ?p ?r ?n ?b] =>
      destruct (vrm_read_block T a p r n b) as [[[[? ?]|?] ?] ?] eqn:?
  | |- context [vrm_write_block T ?a ?p ?d ?b] =>
      destruct (vrm_write_block T a p d b) as [[[?|?] ?] ?] eqn:?
  | |- context [?x =? 0] =>
      is_var x; destruct (x =? 0)
  | |- context [if ?c then _ else _] => destruct c
  end.

Ltac machine_simpl :=
  cbn [fst snd negb andb orb judge_of st_op st_fail st_settle
       stage settled_stage format_02X];
  unfold when, at_max, ret, raise.

Lemma set_icc_max_refines fam a b :
  refines (set_icc_max T fam a b) (run_script T a (script fam) b).
Proof.
  destruct fam;
    unfold set_icc_max, pxe1610_set_icc_max, mp2955a_set_icc_max,
      tps53679_set_icc_max, script, identify, unlock, read_current, modify;
    cbn [List.app run_script perform st_op st_fail st_settle stage
         settled_stage];
    unfold refines, bind, ret, print, sleep, raise;
    repeat (machine_simpl; machine_step);
    machine_simpl; try reflexivity; try exact I.
Qed.

Lemma refines_fst (x : outcome Z * Bus T * list string) m1 m2 :
  fst m1 = fst m2 -> refines x m1 -> refines x m2.
Proof.
  destruct m1 as [[r1 b1] o1], m2 as [[r2 b2] o2]. cbn.
  intros E. injection E as -> ->. auto.
Qed.

(** After its settle delay, a stage leaves the bus [settle s b]. *)
Lemma settle_run {A} (s : Stage) (k : M T A) b :
  bind (if st_settle s then sleep 1 else ret tt) (fun _ => k) b
  = (result_of (k (settle s b)), bus_of (k (settle s b)),
     lines_of (k (settle s b))).
Proof.
  unfold settle, bind, sleep, ret. destruct (st_settle s);
    cbn; destruct (k _) as [[r b2] o2]; reflexivity.
Qed.

(** Stages that let the procedure go on can be skipped over. *)
Lemma run_script_reaches a pre rest b b1 :
  reaches T a pre b b1 ->
  fst (run_script T a (pre ++ rest) b) = fst (run_script T a rest b1).
Proof.
  revert b. induction pre as [|s pre IH]; intros b; cbn [reaches List.app].
  - intros ->. reflexivity.
  - intros (r & b' & out & E & Hgo & Hrest).
    cbn [run_script]. rewrite (bind_returns _ _ _ _ _ _ E).
    cbn [fst]. rewrite settle_run. unfold result_of, bus_of. cbn [fst snd].
    unfold proceeds in Hgo.
    destruct (fst r =? 0).
    + destruct (judge_of (st_op s) (snd r)); [|discriminate].
      rewrite <- (IH _ Hrest).
      destruct (run_script T a (pre ++ rest) (settle s b')) as [[? ?] ?].
      reflexivity.
    + destruct (st_fail s); try discriminate.
      rewrite <- (IH _ Hrest).
      destruct (run_script T a (pre ++ rest) (settle s b')) as [[? ?] ?].
      reflexivity.
Qed.

(** What the stage machine does when a stage fails. *)
Lemma run_script_failure a s post b1 r b2 out :
  perform T a (st_op s) b1 = (Returns r, b2, out) ->
  fst r <> 0 ->
  fst (run_script T a (s :: post) b1)
  = match st_fail s with
    | Fatal => (Returns (Some (-1)), settle s b2)
    | BestEffort => fst (run_script T a post (settle s b2))
    | Unspecified => (Returns None, settle s b2)
    end.
Proof.
  intros E Hrc. cbn [run_script]. rewrite (bind_returns _ _ _ _ _ _ E).
  cbn [fst]. rewrite settle_run. unfold result_of, bus_of. cbn [fst snd].
  replace (fst r =? 0) with false by (symmetry; apply Z.eqb_neq; exact Hrc).
  destruct (st_fail s); try reflexivity.
  destruct (run_script T a post (settle s b2)) as [[? ?] ?]. reflexivity.
Qed.

Lemma set_icc_max_runs_coded_script fam a b :
  refines (set_icc_max T fam a b) (run_script T a (coded_script fam) b).
Proof.
  destruct fam;
    unfold set_icc_max, pxe1610_set_icc_max, mp2955a_set_icc_max,
      tps53679_set_icc_max, coded_script, identify, unlock, read_current,
      modify_as_coded, modify;
    cbn [List.app run_script perform st_op st_fail st_settle stage
         settled_stage];
    unfold refines, bind, ret, print, sleep, raise;
    repeat (machine_simpl; machine_step);
    machine_simpl; try reflexivity; try exact I.
Qed.

Lemma perform_returns a s b :
  ruled s -> exists r b' o, perform T a (st_op s) b = (Returns r, b', o).
Proof.
  unfold ruled. intros [_ H].
  destruct (st_op s) as [page reg n j|page payload]; cbn [perform].
  - destruct H as [Hp Hr].
    destruct (vrm_read_loop_retried a page reg n 4 b Hp Hr)
      as (rc & data & atts & b' & out & Hrun & _).
    exists (rc, data), b', out. exact Hrun.
  - destruct (vrm_write_loop_retried a page payload 4 b H)
      as (rc & atts & b' & out & Hrun & _).
    exists (rc, []), b'. eexists.
    eapply bind_run; [exact Hrun|reflexivity].
Qed.

(** A script of ruled stages always gives a result. *)
Lemma run_script_ruled a post b :
  Forall ruled post ->
  exists rc b' o, run_script T a post b = (Returns (Some rc), b', o).
Proof.
  intros H. revert b. induction H as [|s post Hs _ IH]; intros b.
  - exists 0, b, []. reflexivity.
  - destruct (perform_returns a s b Hs) as (r & b1 & o1 & E).
    cbn [run_script]. rewrite (bind_returns _ _ _ _ _ _ E).
    rewrite settle_run.
    destruct (IH (settle s b1)) as (rc & b' & o & Erun).
    destruct (fst r =? 0).
    + destruct (judge_of (st_op s) (snd r)) as [|rc'].
      * rewrite Erun. eexists _, _, _. reflexivity.
      * eexists _, _, _. reflexivity.
    + destruct Hs as [Hs _]. destruct (st_fail s).
      * eexists _, _, _. reflexivity.
      * rewrite Erun. eexists _, _, _. reflexivity.
      * destruct (Hs eq_refl).
Qed.

(** Every stage but the first falls under one of the two rules. *)
Lemma coded_script_tail_ruled fam : Forall ruled (tl (coded_script fam)).
Proof.
  destruct fam;
    cbn [coded_script identify unlock read_current modify_as_coded modify
         List.app tl];
    repeat (apply Forall_cons;
            [ unfold ruled; cbn; split; [discriminate|lia] |]);
    apply Forall_nil.
Qed.

Lemma split_tail {A} (P : A -> Prop) l pre s post :
  l = pre ++ s :: post ->
  Forall P (tl l) ->
  Forall P post /\ (pre <> [] -> P s).
Proof.
  intros -> H. destruct pre as [|x pre]; cbn [List.app tl] in H.
  - split; [exact H|]. intros Hne. destruct (Hne eq_refl).
  - apply Forall_app in H. destruct H as [_ H].
    inversion H; subst. auto.
Qed.

(** C2, as the code has it.  Take any stage of a procedure that the
    procedure reaches, through stages that succeeded or whose failure
    did not stop it, and that fails (its paged operation returns a
    non-zero code).  If the stage is fatal -- an identification read
    (for the PXE1610C the second or the third), the ICC_MAX read, an
    unlock, value or password-clear write, the MP2955A/TPS5367x store
    trigger, the last PXE1610C remaining-attempts read -- the procedure
    returns -1 and leaves the bus as the failed stage (and its settle
    delay, if it has one) left it: no further stage is attempted.  If
    it is best-effort -- the PXE1610C remaining-attempts read before
    the modification, the MP2955A/TPS5367x read-back, the PXE1610C
    upload trigger -- the procedure goes on with the remaining stages
    from the bus the failed stage left, and its result and final bus
    are those of these remaining stages.  The one stage under neither
    rule is the first PXE1610C identification read: when it fails the
    procedure raises ValueError on the bus that read left. *)
Theorem stage_failure_semantics fam a pre s post b b1 r b2 out :
  coded_script fam = pre ++ s :: post ->
  reaches T a pre b b1 ->
  perform T a (st_op s) b1 = (Returns r, b2, out) ->
  fst r <> 0 ->
  match st_fail s with
  | Fatal => fst (set_icc_max T fam a b) = (Returns (-1), settle s b2)
  | BestEffort =>
      exists rc b',
        fst (run_script T a post (settle s b2)) = (Returns (Some rc), b') /\
        fst (set_icc_max T fam a b) = (Returns rc, b')
  | Unspecified => fst (set_icc_max T fam a b) = (Raises ValueError, b2)
  end.
Proof.
  intros Hscript Hreach E Hrc.
  pose proof (set_icc_max_runs_coded_script fam a b) as Href.
  destruct (split_tail ruled _ _ _ _ Hscript (coded_script_tail_ruled fam))
    as [Hpost Hs].
  rewrite Hscript in Href.
  pose proof (run_script_reaches a pre (s :: post) b b1 Hreach) as Hskip.
  pose proof (run_script_failure a s post b1 r b2 out E Hrc) as Hfail.
  destruct (st_fail s) eqn:Hf.
  - rewrite Hfail in Hskip.
    destruct (run_script T a (pre ++ s :: post) b) as [[r' b'] o'].
    cbn in Hskip. injection Hskip as -> ->. exact Href.
  - destruct (run_script_ruled a post (settle s b2) Hpost)
      as (rc & b' & o & Erun).
    exists rc, b'. rewrite Erun. split; [reflexivity|].
    rewrite Hfail, Erun in Hskip.
    destruct (run_script T a (pre ++ s :: post) b) as [[r' b''] o''].
    cbn in Hskip. injection Hskip as -> ->. exact Href.
  - destruct pre as [|s0 pre].
    2:{ destruct Hs as [Hs _]; [discriminate|]. destruct (Hs Hf). }
    cbn [reaches] in Hreach. subst b1. cbn [List.app] in Hscript.
    destruct fam; cbn in Hscript; injection Hscript as <- _;
      try discriminate Hf.
    cbn [st_op stage perform] in E. destruct r as [rc d]. cbn [fst] in Hrc.
    unfold set_icc_max, pxe1610_set_icc_max.
    rewrite (bind_returns _ _ _ _ _ _ E).
    replace (rc =? 0) with false by (symmetry; apply Z.eqb_neq; exact Hrc).
    reflexivity.
Qed.

(** ** Skipping a chip that is already at the maximum *)

Lemma perform_write_inv a page payload b r b1 out :
  perform T a (OpWrite page payload) b = (Returns r, b1, out) ->
  vrm_write_block T a page payload b = (Returns (fst r), b1, out) /\
  snd r = [].
Proof.
  cbn [perform]. unfold bind, ret.
  destruct (vrm_write_block T a page payload b) as [[[rc|e] b'] o].
  - intros H. injection H as <- <- <-. rewrite app_nil_r. auto.
  - discriminate.
Qed.

Lemma perform_within W a s :
  stage_within W s -> emits (writes_only W) (perform T a (st_op s)).
Proof.
  unfold stage_within. destruct (st_op s) as [page reg n j|page payload];
    cbn [perform].
  - intros (Hp & Hr & Hw). apply vrm_read_block_writes_only; assumption.
  - intros (Hp & Hw & Hd).
    apply emits_bind; [apply writes_only_app| |].
    + apply vrm_write_block_writes_only; assumption.
    + intros rc. apply emits_ret. apply writes_only_nil.
Qed.

Lemma settle_within W (s : Stage) (b : Bus T) :
  exists evs, log (settle s b) = log b ++ evs /\ writes_only W evs.
Proof.
  unfold settle. destruct (st_settle s).
  - exists [Sleep 1]. split; [reflexivity|repeat constructor].
  - exists []. rewrite app_nil_r. split; [reflexivity|constructor].
Qed.

Lemma reaches_within W a pre b b1 :
  Forall (stage_within W) pre ->
  reaches T a pre b b1 ->
  exists evs, log b1 = log b ++ evs /\ writes_only W evs.
Proof.
  intros Hall. revert b. induction Hall as [|s pre Hs _ IH]; intros b;
    cbn [reaches].
  - intros ->. exists []. rewrite app_nil_r. split; [reflexivity|constructor].
  - intros (r & b' & out & E & _ & Hrest).
    destruct (perform_within W a s Hs b) as (e1 & Hl1 & H1).
    rewrite E in Hl1. cbn in Hl1.
    destruct (settle_within W s b') as (e2 & Hl2 & H2).
    destruct (IH _ Hrest) as (e3 & Hl3 & H3).
    exists (e1 ++ e2 ++ e3). split.
    + rewrite Hl3, Hl2, Hl1, <- !app_assoc. reflexivity.
    + repeat apply writes_only_app; assumption.
Qed.

Lemma before_icc_read_within fam :
  Forall (stage_within (before_icc_read fam))
    (identify fam ++ unlock fam ++ [read_current fam]).
Proof.
  destruct fam; cbn [identify unlock read_current List.app];
    repeat (apply Forall_cons;
            [ unfold stage_within; cbn; repeat split; try lia;
              unfold before_icc_read, is_page_select; eauto |]);
    apply Forall_nil.
Qed.

Lemma last_app_cons {A} (o : list A) x l d :
  last (o ++ x :: l) d = last (x :: l) d.
Proof.
  induction o as [|y o IH]; [reflexivity|].
  cbn [List.app]. rewrite <- IH.
  destruct (o ++ x :: l) eqn:E; [destruct o; discriminate|reflexivity].
Qed.

Lemma last_cons_app {A} (y : A) o x l d :
  last (y :: o ++ x :: l) d = last (x :: l) d.
Proof. apply (last_app_cons (y :: o)). Qed.

Lemma last_cons_cons {A} (x y : A) l d :
  last (x :: y :: l) d = last (y :: l) d.
Proof. reflexivity. Qed.

(** A stage the procedure went through returned 0 with a reply that
    passes the stage's test. *)
Ltac stage_passed H :=
  unfold proceeds in H;
  cbn [fst snd st_op st_fail stage judge_of when] in H;
  repeat match type of H with
         | (if ?c then _ else _) = true =>
             let C := fresh "C" in
             destruct c eqn:C; [|discriminate H]
         | match when ?c with _ => _ end = true =>
             let C := fresh "C" in
             unfold when in H; destruct c eqn:C; [|discriminate H]
         end;
  clear H;
  repeat match goal with
         | C : when ?c = Proceed |- _ =>
             unfold when in C; destruct c eqn:?; [clear C|discriminate C]
         | C : (?x =? 0) = true |- _ =>
             is_var x; apply Z.eqb_eq in C; subst x
         | C : (_ && _) = true |- _ =>
             apply andb_prop in C; destruct C
         end.

Ltac run_known :=
  match goal with
  | E : ?m ?b = (Returns ?x, ?b1, ?o) |- context [bind ?m ?k ?b] =>
      rewrite (bind_returns m k b x b1 o E)
  | H : ?c = true |- context [?c] => rewrite H
  | |- context [bind (print ?s) ?k ?b] =>
      rewrite (bind_returns (print s) k b tt b [s] eq_refl)
  | |- context [bind (ret ?x) ?k ?b] =>
      rewrite (bind_returns (ret x) k b x b [] eq_refl)
  end.

Ltac run_all :=
  repeat (cbn [lines_of bus_of result_of fst snd List.app Z.eqb Pos.eqb
               negb andb orb format_02X];
          run_known);
  cbn [lines_of bus_of result_of fst snd List.app Z.eqb Pos.eqb
       negb andb orb format_02X].

(** C1, as the code has it.  When a procedure has identified its chip
    (and, for the PXE1610C, written the SMB password) and its ICC_MAX
    read returns 0xFF in byte 0, it returns 0, the last line it prints
    is the skip message, and it leaves the bus as that read left it: no
    transaction follows the read.  The write transactions issued up to
    then are page-selects and, for the PXE1610C, the SMB password. *)
Theorem already_at_max_is_skipped fam a b b1 icc b2 out :
  reaches T a (identify fam ++ unlock fam) b b1 ->
  perform T a (st_op (read_current fam)) b1 = (Returns (0, icc), b2, out) ->
  item icc 0 = 0xFF ->
  result_of (set_icc_max T fam a b) = Returns 0 /\
  last (lines_of (set_icc_max T fam a b)) "" = skip_line fam /\
  bus_of (set_icc_max T fam a b) = b2 /\
  exists evs,
    log b2 = log b ++ evs /\ writes_only (before_icc_read fam) evs.
Proof.
  intros Hreach E Hmax.
  assert (Hlog : exists evs,
             log b2 = log b ++ evs /\ writes_only (before_icc_read fam) evs).
  { pose proof (before_icc_read_within fam) as Hw.
    rewrite app_assoc in Hw. apply Forall_app in Hw. destruct Hw as [Hw Hr].
    inversion Hr as [|? ? Hr' _]; subst.
    destruct (reaches_within _ a _ b b1 Hw Hreach) as (e1 & Hl1 & H1).
    destruct (perform_within _ a _ Hr' b1) as (e2 & Hl2 & H2).
    rewrite E in Hl2. cbn in Hl2.
    exists (e1 ++ e2). split.
    - rewrite Hl2, Hl1, app_assoc. reflexivity.
    - apply writes_only_app; assumption. }
  assert (Hff : (item icc 0 =? 255) = true) by (apply Z.eqb_eq; exact Hmax).
  destruct fam; cbn [identify unlock read_current List.app reaches st_op
                       stage perform settle st_settle] in Hreach, E.
  - (* PXE1610C *)
    destruct Hreach as ([rc1 d1] & s1 & o1 & E1 & G1 &
                        [rc2 d2] & s2 & o2 & E2 & G2 &
                        [rc3 d3] & s3 & o3 & E3 & G3 &
                        r4 & s4 & o4 & E4 & G4 & ->).
    apply perform_write_inv in E4. destruct E4 as [E4 _].
    destruct r4 as [rc4 d4]. cbn [fst] in E4.
    stage_passed G1. stage_passed G2. stage_passed G3. stage_passed G4.
    unfold set_icc_max, pxe1610_set_icc_max. run_all.
    unfold ret. run_all.
    repeat split; try assumption.
    repeat (rewrite last_app_cons || rewrite last_cons_app
            || rewrite last_cons_cons).
    reflexivity.
  - (* MP2955A *)
    destruct Hreach as ([rc1 d1] & s1 & o1 & E1 & G1 & ->).
    stage_passed G1.
    unfold set_icc_max, mp2955a_set_icc_max. run_all.
    unfold ret. run_all.
    repeat split; try assumption.
    repeat (rewrite last_app_cons || rewrite last_cons_app
            || rewrite last_cons_cons).
    reflexivity.
  - (* TPS53679 / TPS53678 *)
    destruct Hreach as ([rc1 d1] & s1 & o1 & E1 & G1 & ->).
    stage_passed G1.
    unfold set_icc_max, tps53679_set_icc_max. run_all.
    unfold ret. run_all.
    repeat split; try assumption.
    repeat (rewrite last_app_cons || rewrite last_cons_app
            || rewrite last_cons_cons).
    reflexivity.
Qed.

(** ** The first identification read of the PXE1610C procedure *)

(** When the read of page 0x00 register 0xFD fails, the line that
    reports it cannot be formatted: ['??'] meets the format code [02X],
    and the procedure ends in a [ValueError] instead of returning -1. *)
Lemma pxe1610_first_read_failure_raises a b rc d b1 o1 :
  vrm_read_block T a 0x00 0xFD 1 b = (Returns (rc, d), b1, o1) ->
  rc <> 0 ->
  fst (pxe1610_set_icc_max T a b) = (Raises ValueError, b1).
Proof.
  intros E Hrc. unfold pxe1610_set_icc_max.
  rewrite (bind_returns _ _ _ _ _ _ E).
  replace (rc =? 0) with false by (symmetry; apply Z.eqb_neq; exact Hrc).
  reflexivity.
Qed.

(** ** Two addresses on the command line *)

(** X14.  When the procedure on the first address returns, whatever
    its result, [main] runs the procedure on the second address on the
    bus the first one left. *)
Lemma main_two_addresses int16 cmd fam s1 s2 a1 a2 b rc1 b1 o1 :
  command_family cmd = Some fam ->
  int16 s1 = Some a1 -> 0 <= a1 <= 0x7F ->
  int16 s2 = Some a2 -> 0 <= a2 <= 0x7F ->
  set_icc_max T fam a1 b = (Returns rc1, b1, o1) ->
  bus_of (main T int16 [cmd; s1; s2] b) = bus_of (set_icc_max T fam a2 b1).
Proof.
  intros Hcmd H1 Hr1 H2 Hr2 E.
  assert (Hlt : forall v, 0 <= v <= 127 -> (127 <? v) || (v <? 0) = false).
  { intros v Hv. apply orb_false_iff. split.
    - apply Z.ltb_ge. lia.
    - apply Z.ltb_ge. lia. }
  assert (Hneg : forall v, 0 <= v <= 127 -> (v <? 0) = false).
  { intros v Hv. apply Z.ltb_ge. lia. }
  unfold main, _parse_hex7, _parse_hex7_second, arg.
  cbn [List.length Nat.eqb Nat.ltb Nat.leb nth].
  rewrite H1, H2, (Hlt a1 Hr1), (Hlt a2 Hr2).
  unfold command_family in Hcmd.
  destruct (cmd =? "-scan")%string eqn:Hscan.
  { apply String.eqb_eq in Hscan. subst cmd. discriminate Hcmd. }
  destruct (cmd =? "-PXE1610C")%string;
    [|destruct (cmd =? "-MP2955A")%string;
      [|destruct (cmd =? "-TPS53679")%string,
                 (cmd =? "-TPS53678")%string]];
    cbn [orb] in Hcmd |- *; try discriminate Hcmd;
    injection Hcmd as <-;
    unfold bind at 1; unfold ret at 1; rewrite (Hneg a1 Hr1);
    unfold bind at 1; unfold bind at 1; unfold ret at 1; unfold ret at 1;
    cbn [List.app]; rewrite (Hneg a2 Hr2);
    cbn [set_icc_max] in E |- *; unfold bind at 1; rewrite E;
    unfold bind, ret;
    match goal with
    | |- context [?proc T a2 b1] =>
        destruct (proc T a2 b1) as [[[?|?] ?] ?]
    end; reflexivity.
Qed.

End Facts.

(** * Runs on the simulated transports *)

(** C1, as stated, fails.  A PXE1610C and a MP2955A whose ICC_MAX
    already reads 0xFF are skipped, and yet the log of each run holds
    write transactions: page-selects and, for the PXE1610C, the SMB
    password. *)
Lemma skipped_run_has_written :
  let pxe := pxe1610_set_icc_max (pxe_chip 0xFF) 0x58
               (fresh (pxe_chip 0xFF) power_up) in
  let mp := mp2955a_set_icc_max (mp_chip 0xFF) 0x60
              (fresh (mp_chip 0xFF) power_up) in
  (In (TxRead 0x58 0x73 2 (Some [0xFF; 0x00])) (log (bus_of pxe)) /\
   result_of pxe = Returns 0 /\
   last (lines_of pxe) "" = skip_line PXE1610C /\
   In (TxWrite 0x58 [0x00; 0x3F] true) (log (bus_of pxe)) /\
   In (TxWrite 0x58 [0x27; 0x7C; 0xB3] true) (log (bus_of pxe))) /\
  (In (TxRead 0x60 0xEF 1 (Some [0xFF])) (log (bus_of mp)) /\
   result_of mp = Returns 0 /\
   last (lines_of mp) "" = skip_line MP2955A /\
   In (TxWrite 0x60 [0x00; 0x00] true) (log (bus_of mp))).
Proof.
  vm_compute. repeat split; tauto.
Qed.

(** C1, for a PXE1610C at 0x58 whose ICC_MAX reads 0xFF. *)
Lemma already_at_max_is_skipped_witness :
  exists b2,
    result_of (set_icc_max (pxe_chip 0xFF) PXE1610C 0x58
                 (fresh (pxe_chip 0xFF) power_up)) = Returns 0 /\
    last (lines_of (set_icc_max (pxe_chip 0xFF) PXE1610C 0x58
                      (fresh (pxe_chip 0xFF) power_up))) ""
    = skip_line PXE1610C /\
    bus_of (set_icc_max (pxe_chip 0xFF) PXE1610C 0x58
              (fresh (pxe_chip 0xFF) power_up)) = b2 /\
    exists evs,
      log b2 = log (fresh (pxe_chip 0xFF) power_up) ++ evs /\
      writes_only (before_icc_read PXE1610C) evs.
Proof.
  eexists.
  eapply (already_at_max_is_skipped (pxe_chip 0xFF) PXE1610C 0x58).
  - cbn [reaches identify unlock List.app].
    repeat (do 3 eexists;
            split; [vm_compute; reflexivity|];
            split; [vm_compute; reflexivity|]).
    reflexivity.
  - vm_compute. reflexivity.
  - reflexivity.
Defined.


(** C2, as stated, fails.  A MP2955A whose read-back fails is still
    reported modified; a PXE1610C that does not acknowledge the upload
    trigger still gets its NVM password cleared and is reported
    modified; a PXE1610C whose attempts counter cannot be read after
    the modification is reported in error, while the same run with a
    readable counter succeeds; and a failed first identification read
    ends in an exception, not in a result. *)
Lemma stage_failures_not_all_fatal :
  let readback := mp2955a_set_icc_max mp_chip_no_readback 0x60
                    (fresh mp_chip_no_readback power_up) in
  let trigger := pxe1610_set_icc_max pxe_chip_no_trigger 0x58
                   (fresh pxe_chip_no_trigger power_up) in
  let counter := pxe1610_set_icc_max pxe_chip_counter_once 0x58
                   (fresh pxe_chip_counter_once power_up) in
  let healthy := pxe1610_set_icc_max (pxe_chip 0x64) 0x58
                   (fresh (pxe_chip 0x64) power_up) in
  (In (TxRead 0x60 0xEF 1 None) (log (bus_of readback)) /\
   In ("ReadBlock( Page00,cmdEF,1) Error" ++ LF)%string
      (lines_of readback) /\
   result_of readback = Returns 0) /\
  (In (TxWrite 0x58 [0x34] false) (log (bus_of trigger)) /\
   In "upload_cfg_send_byte=Error" (lines_of trigger) /\
   In (TxWrite 0x58 [0x29; 0x00; 0x00] true) (log (bus_of trigger)) /\
   result_of trigger = Returns 0) /\
  (In (TxRead 0x58 0x82 2 None) (log (bus_of counter)) /\
   result_of counter = Returns (-1) /\
   result_of healthy = Returns 0) /\
  result_of (pxe1610_set_icc_max dead_bus 0x58 dead) = Raises ValueError.
Proof.
  vm_compute. repeat split; tauto.
Qed.

(** C2, for a PXE1610C at 0x58 that acknowledges neither the upload
    trigger nor the clearing of the NVM password: the failed trigger
    does not stop the procedure, the failed clearing does, and the
    procedure ends with -1 on the bus that write left. *)
Lemma stage_failure_semantics_witness :
  exists b2,
    fst (set_icc_max pxe_chip_no_trigger_no_clear PXE1610C 0x58
           (fresh pxe_chip_no_trigger_no_clear power_up))
    = (Returns (-1), b2) /\
    In (TxWrite 0x58 [0x34] false) (log b2) /\
    last (log b2) (Sleep 0) = TxWrite 0x58 [0x29; 0x00; 0x00] false.
Proof.
  eexists. split.
  - refine (stage_failure_semantics pxe_chip_no_trigger_no_clear PXE1610C
              0x58
              (identify PXE1610C ++ unlock PXE1610C
               ++ read_current PXE1610C
               :: firstn 4 (modify_as_coded PXE1610C))
              (stage (OpWrite 0x3F [0x29; 0x00; 0x00]) Fatal)
              (skipn 5 (modify_as_coded PXE1610C))
              (fresh pxe_chip_no_trigger_no_clear power_up)
              _ _ _ _ eq_refl _ _ _).
    + cbn [reaches identify unlock read_current modify_as_coded firstn
           List.app].
      repeat (do 3 eexists;
              split; [vm_compute; reflexivity|];
              split; [vm_compute; reflexivity|]).
      reflexivity.
    + vm_compute. reflexivity.
    + intros H. vm_compute in H. discriminate H.
  - vm_compute. split; [tauto|reflexivity].
Defined.

(** C3, as stated, fails.  The MP2955A and the TPS53679 procedures
    emit the page-select [0x00, 0x00]. *)
Lemma mp2955a_tps53679_emit_page_select :
  In (TxWrite 0x60 [0x00; 0x00] true)
     (log (bus_of (mp2955a_set_icc_max (mp_chip 0x64) 0x60
                     (fresh (mp_chip 0x64) power_up)))) /\
  In (TxWrite 0x70 [0x00; 0x00] true)
     (log (bus_of (tps53679_set_icc_max (tps_chip 0x64) 0x70
                     (fresh (tps_chip 0x64) power_up)))).
Proof.
  vm_compute. split; left; reflexivity.
Qed.

(** C4 at its failing input.  Nothing answers at 0x58: the four
    attempts of the first identification read fail on their
    page-select, and the procedure raises instead of returning -1. *)
Lemma pxe1610_detect_failure_raises :
  result_of (pxe1610_set_icc_max dead_bus 0x58 dead) = Raises ValueError /\
  log (bus_of (pxe1610_set_icc_max dead_bus 0x58 dead))
  = [TxWrite 0x58 [0x00; 0x00] false; TxWrite 0x58 [0x00; 0x00] false;
     TxWrite 0x58 [0x00; 0x00] false; TxWrite 0x58 [0x00; 0x00] false].
Proof.
  vm_compute. split; reflexivity.
Qed.

(** C6, for the upload trigger and a register read on page 0x3F of a
    PXE1610C that loses the first payload transaction: the first pass
    gets its page-select through and loses the payload, and the second
    pass begins with the page-select again. *)
Lemma paged_retry_restarts_from_page_select_witness :
  (0 <= 0x3F <= 255 /\ 0 <= 0x82 <= 255) /\
  (log (bus_of (vrm_write_block pxe_chip_first_payload_lost 0x58 0x3F [0x34]
                  (fresh pxe_chip_first_payload_lost power_up)))
   = [ TxWrite 0x58 [0x00; 0x3F] true; TxWrite 0x58 [0x34] false;
       TxWrite 0x58 [0x00; 0x3F] true; TxWrite 0x58 [0x34] true ] /\
   log (bus_of (vrm_read_block pxe_chip_first_payload_lost 0x58 0x3F 0x82 2
                  (fresh pxe_chip_first_payload_lost power_up)))
   = [ TxWrite 0x58 [0x00; 0x3F] true; TxRead 0x58 0x82 2 None;
       TxWrite 0x58 [0x00; 0x3F] true;
       TxRead 0x58 0x82 2 (Some [0x00; 0x00]) ]) /\
  (exists atts,
     atts <> [] /\
     log (bus_of (vrm_write_block pxe_chip_first_payload_lost 0x58 0x3F [0x34]
                    (fresh pxe_chip_first_payload_lost power_up)))
     = log (fresh pxe_chip_first_payload_lost power_up) ++ List.concat atts /\
     restarts 0x58 0x3F (write_op 0x58 [0x34]) 4 atts) /\
  (exists atts,
     atts <> [] /\
     log (bus_of (vrm_read_block pxe_chip_first_payload_lost 0x58 0x3F 0x82 2
                    (fresh pxe_chip_first_payload_lost power_up)))
     = log (fresh pxe_chip_first_payload_lost power_up) ++ List.concat atts /\
     restarts 0x58 0x3F (read_op 0x58 0x82 2) 4 atts).
Proof.
  split; [lia|]. split; [vm_compute; split; reflexivity|].
  apply (paged_retry_restarts_from_page_select pxe_chip_first_payload_lost
           0x58 0x3F [0x34] 0x82 2
           (fresh pxe_chip_first_payload_lost power_up)); lia.
Defined.

(** C7, on the same inputs. *)
Lemma retry_budget_is_exact_witness :
  (0x3F <= 255 /\ 0 <= 0x82 <= 255) /\
  (exists rc atts,
     result_of (vrm_write_block dead_bus 0x58 0x3F [0x34] dead)
     = Returns rc /\
     log (bus_of (vrm_write_block dead_bus 0x58 0x3F [0x34] dead))
     = log dead ++ List.concat atts /\
     retried 0x58 0x3F (write_op 0x58 [0x34]) 4 rc atts) /\
  (exists rc data atts,
     result_of (vrm_read_block dead_bus 0x58 0x3F 0x82 2 dead)
     = Returns (rc, data) /\
     log (bus_of (vrm_read_block dead_bus 0x58 0x3F 0x82 2 dead))
     = log dead ++ List.concat atts /\
     retried 0x58 0x3F (read_op 0x58 0x82 2) 4 rc atts) /\
  (exists rc data atts,
     result_of (scan_read_block dead_bus 0x58 0x3F 0x82 2 dead)
     = Returns (rc, data) /\
     log (bus_of (scan_read_block dead_bus 0x58 0x3F 0x82 2 dead))
     = log dead ++ List.concat atts /\
     retried 0x58 0x3F (read_op 0x58 0x82 2) 2 rc atts).
Proof.
  split; [lia|].
  apply (retry_budget_is_exact dead_bus 0x58 0x3F [0x34] 0x82 2 dead); lia.
Defined.

(** Decides the test of a conditional statement on concrete replies. *)
Ltac decide_test H :=
  match type of H with
  | if ?c then _ else _ =>
      let v := eval vm_compute in c in
      change c with v in H; cbv iota in H
  end.

(** C8, for a PXE1610C at 0x58: the ISL69127, TPS5367x and MP2955A
    tests fail on the replies of the chip, registers 0xFD and 0x1A
    match, the scanner reports the Primarion family alone, finds
    0x15 0x04 in register 0x32, announces the PXE1610C, and its last
    transaction is the ICC_MAX read. *)
Lemma scan_reports_first_matching_family_witness :
  read_block (pxe_chip 0x64) 0x58 0x00 1 (fresh (pxe_chip 0x64) power_up)
  = (Returns (0, [0x00]),
     @mkBus (pxe_chip 0x64) (0, 1%nat) [TxRead 0x58 0x00 1 (Some [0x00])],
     []) /\
  reports_only
    (lines_of (scan_addr (pxe_chip 0x64) 0x58
                 (fresh (pxe_chip 0x64) power_up)))
    RepPrimarion /\
  In "PXE1610C found at addr: 58"
    (lines_of (scan_addr (pxe_chip 0x64) 0x58
                 (fresh (pxe_chip 0x64) power_up))) /\
  last (log (bus_of (scan_addr (pxe_chip 0x64) 0x58
                       (fresh (pxe_chip 0x64) power_up)))) (Sleep 0)
  = TxRead 0x58 0x73 2 (Some [0x64; 0x00]).
Proof.
  split; [vm_compute; reflexivity|].
  edestruct (scan_reports_first_matching_family (pxe_chip 0x64) 0x58
               (fresh (pxe_chip 0x64) power_up)) as [_ H].
  { vm_compute. reflexivity. }
  cbv zeta in H.
  specialize (H _ _ _ _ ltac:(vm_compute; reflexivity)). decide_test H.
  specialize (H _ _ _ _ ltac:(vm_compute; reflexivity)). decide_test H.
  specialize (H _ _ _ _ ltac:(vm_compute; reflexivity)). decide_test H.
  specialize (H _ _ _ _ ltac:(vm_compute; reflexivity)). decide_test H.
  specialize (H _ _ _ _ ltac:(vm_compute; reflexivity)). decide_test H.
  destruct H as [Hrep H].
  specialize (H _ _ _ _ ltac:(vm_compute; reflexivity)). decide_test H.
  destruct H as [Hin H].
  specialize (H _ _ _ _ _ _ _ _ ltac:(vm_compute; reflexivity)
                ltac:(vm_compute; reflexivity)).
  split; [exact Hrep|]. split; [exact Hin|].
  rewrite H. reflexivity.
Defined.

(** C10 at its failing input.  [-PXE1610C 58 5C] on a bus whose only
    chip is a PXE1610C at 0x5C: the procedure on 0x58 raises, [main]
    ends there, and no transaction is ever addressed to 0x5C. *)
Lemma main_second_address_not_run :
  let run := main pxe_chip_at_5C int16_demo ["-PXE1610C"; "58"; "5C"]
               (fresh pxe_chip_at_5C power_up) in
  result_of run = Raises ValueError /\
  log (bus_of run)
  = [TxWrite 0x58 [0x00; 0x00] false; TxWrite 0x58 [0x00; 0x00] false;
     TxWrite 0x58 [0x00; 0x00] false; TxWrite 0x58 [0x00; 0x00] false].
Proof.
  vm_compute. split; reflexivity.
Qed.


(** * Further facts *)

Section Further.

Context (T : I2C).

(** ** Procedures that always return *)

Lemma returns_ret {A} (S : A -> Prop) (x : A) :
  S x -> always_returns S (ret (T := T) x).
Proof. intros H b. exists x. split; [reflexivity|assumption]. Qed.

Lemma returns_print (S : unit -> Prop) s :
  S tt -> always_returns S (print (T := T) s).
Proof. intros H b. exists tt. split; [reflexivity|assumption]. Qed.

Lemma returns_sleep (S : unit -> Prop) secs :
  S tt -> always_returns S (sleep (T := T) secs).
Proof. intros H b. exists tt. split; [reflexivity|assumption]. Qed.

Lemma returns_bind {A B} (Q : A -> Prop) (S : B -> Prop)
  (m : M T A) (f : A -> M T B) :
  always_returns Q m ->
  (forall x, Q x -> always_returns S (f x)) ->
  always_returns S (bind m f).
Proof.
  intros Hm Hf b. destruct (Hm b) as (x & Hx & Hq).
  unfold bind. destruct (m b) as [[r b1] o1]. cbn in Hx. subst r.
  destruct (Hf x Hq b1) as (y & Hy & Hs).
  destruct (f x b1) as [[r b2] o2]. cbn in Hy. subst r.
  exists y. split; [reflexivity|assumption].
Qed.

Lemma retried_is_rc a page is_op budget rc atts :
  retried a page is_op budget rc atts -> is_rc rc.
Proof. intros [(-> & _) | (-> & _)]; [left|right]; reflexivity. Qed.

Lemma vrm_read_block_returns a page reg n :
  page <= 255 -> 0 <= reg <= 255 ->
  always_returns (fun r => is_rc (fst r)) (vrm_read_block T a page reg n).
Proof.
  intros Hp Hr b.
  destruct (vrm_read_loop_retried T a page reg n 4 b Hp Hr)
    as (rc & data & atts & b' & out & Hrun & _ & Hre & _).
  exists (rc, data). unfold vrm_read_block.
  change (Z.to_nat RETRY_RW) with 4%nat. rewrite Hrun.
  split; [reflexivity|]. exact (retried_is_rc _ _ _ _ _ _ Hre).
Qed.

Lemma vrm_write_block_returns a page payload :
  page <= 255 ->
  always_returns is_rc (vrm_write_block T a page payload).
Proof.
  intros Hp b.
  destruct (vrm_write_loop_retried T a page payload 4 b Hp)
    as (rc & atts & b' & out & Hrun & _ & Hre).
  exists rc. unfold vrm_write_block.
  change (Z.to_nat RETRY_RW) with 4%nat. rewrite Hrun.
  split; [reflexivity|]. exact (retried_is_rc _ _ _ _ _ _ Hre).
Qed.

Lemma scan_read_block_returns a page reg n :
  page <= 255 -> 0 <= reg <= 255 ->
  always_returns (fun r => is_rc (fst r)) (scan_read_block T a page reg n).
Proof.
  intros Hp Hr b.
  destruct (scan_read_loop_retried T a page reg n 2 b Hp Hr)
    as (rc & data & atts & b' & out & Hrun & _ & Hre & _).
  exists (rc, data). unfold scan_read_block.
  change (Z.to_nat RETRY_SCAN) with 2%nat. rewrite Hrun.
  split; [reflexivity|]. exact (retried_is_rc _ _ _ _ _ _ Hre).
Qed.

Lemma read_block_returns a reg n :
  always_returns (fun _ => True) (read_block T a reg n).
Proof.
  intros b. unfold read_block. destruct (bytes_ok [reg]).
  - destruct (i2c_write_read T (dev b) a reg n) as [w r].
    eexists. split; [reflexivity|exact I].
  - eexists. split; [reflexivity|exact I].
Qed.

Lemma returns_impl {A} (Q S : A -> Prop) (m : M T A) :
  (forall x, Q x -> S x) -> always_returns Q m -> always_returns S m.
Proof.
  intros H Hm b. destruct (Hm b) as (x & Hx & Hq). exists x. auto.
Qed.

Lemma vrm_read_block_total a page reg n :
  page <= 255 -> 0 <= reg <= 255 ->
  always_returns (fun _ => True) (vrm_read_block T a page reg n).
Proof.
  intros Hp Hr. eapply returns_impl; [|apply vrm_read_block_returns; auto].
  auto.
Qed.

Lemma vrm_write_block_total a page payload :
  page <= 255 ->
  always_returns (fun _ => True) (vrm_write_block T a page payload).
Proof.
  intros Hp. eapply returns_impl; [|apply vrm_write_block_returns; auto].
  auto.
Qed.

Lemma scan_read_block_total a page reg n :
  page <= 255 -> 0 <= reg <= 255 ->
  always_returns (fun _ => True) (scan_read_block T a page reg n).
Proof.
  intros Hp Hr. eapply returns_impl; [|apply scan_read_block_returns; auto].
  auto.
Qed.

Ltac returns_steps :=
  repeat first
    [ apply returns_ret; first [exact I | left; reflexivity
                               | right; reflexivity]
    | apply returns_print; exact I
    | apply returns_sleep; exact I
    | apply vrm_read_block_total; lia
    | apply vrm_write_block_total; lia
    | apply scan_read_block_total; lia
    | apply read_block_returns
    | match goal with
      | |- always_returns _ (bind _ _) =>
          apply (returns_bind (fun _ => True)); [|intros ? _]
      | |- always_returns _ (if ?c then _ else _) => destruct c
      | |- always_returns _ (match ?x with _ => _ end) => destruct x
      end ].

(** X1.  The MP2955A and TPS53679/TPS53678 procedures never raise:
    whatever the bus does they return 0 or -1. *)
Theorem mp2955a_tps53679_always_return a :
  always_returns is_rc (mp2955a_set_icc_max T a) /\
  always_returns is_rc (tps53679_set_icc_max T a).
Proof.
  split; [unfold mp2955a_set_icc_max|unfold tps53679_set_icc_max];
    unfold is_rc; returns_steps.
Qed.

Lemma scan_addr_returns a : always_returns (fun _ => True) (scan_addr T a).
Proof. unfold scan_addr. returns_steps. Qed.

Lemma scan_loop_returns left a :
  always_returns (fun _ => True) (scan_loop T left a).
Proof.
  revert a. induction left as [|left IH]; intros a; cbn [scan_loop].
  - apply returns_ret. exact I.
  - apply (returns_bind (fun _ => True)); [apply scan_addr_returns|].
    intros _ _. apply IH.
Qed.

(** X2.  A scan never raises and returns 0, whatever the range and
    whatever the bus does. *)
Theorem scan_pmbus_returns_zero start_addr end_addr b :
  result_of (scan_pmbus T start_addr end_addr b) = Returns 0.
Proof.
  assert (H : always_returns (fun rc => rc = 0)
                (scan_pmbus T start_addr end_addr)).
  { unfold scan_pmbus.
    apply (returns_bind (fun _ => True)); [apply scan_loop_returns|].
    intros _ _. apply returns_ret. reflexivity. }
  destruct (H b) as (rc & Hrc & ->). exact Hrc.
Qed.

(** X3.  The PXE1610C procedure raises exactly when its first
    identification read fails, and then it stops on the bus that read
    left; when that read goes through, it returns 0 or -1 whatever
    happens afterwards. *)
Theorem pxe1610_raises_iff_first_read_fails a b :
  exists rc d b1 o1,
    vrm_read_block T a 0x00 0xFD 1 b = (Returns (rc, d), b1, o1) /\
    (rc = 0 ->
     exists r, result_of (pxe1610_set_icc_max T a b) = Returns r /\ is_rc r) /\
    (rc <> 0 ->
     result_of (pxe1610_set_icc_max T a b) = Raises ValueError /\
     bus_of (pxe1610_set_icc_max T a b) = b1).
Proof.
  destruct (vrm_read_loop_retried T a 0x00 0xFD 1 4 b ltac:(lia) ltac:(lia))
    as (rc & d & atts & b1 & o1 & Hrun & _).
  change (vrm_read_loop T 4 a 0 253 1 b)
    with (vrm_read_block T a 0x00 0xFD 1 b) in Hrun.
  exists rc, d, b1, o1. split; [exact Hrun|]. split.
  - intros ->. unfold pxe1610_set_icc_max.
    match goal with
    | |- context [bind (vrm_read_block T a 0 253 1) ?k] =>
        assert (Hk : always_returns is_rc (k (0, d)))
    end.
    { cbn [Z.eqb negb format_02X]. unfold is_rc. returns_steps. }
    rewrite (bind_returns _ _ _ _ _ _ _ Hrun).
    destruct (Hk b1) as (r & Hr & Hrc). exists r. split; [|exact Hrc].
    cbn [result_of fst]. exact Hr.
  - intros Hrc.
    pose proof (pxe1610_first_read_failure_raises T a b rc d b1 o1 Hrun Hrc)
      as H.
    destruct (pxe1610_set_icc_max T a b) as [[r b'] o]. cbn in H |- *.
    injection H as -> ->. auto.
Qed.

(** ** Which addresses are spoken to *)

Lemma addressed_nil P : addressed P [].
Proof. constructor. Qed.

Lemma addressed_app P l1 l2 :
  addressed P l1 -> addressed P l2 -> addressed P (l1 ++ l2).
Proof. intros H1 H2. apply Forall_app. auto. Qed.

Lemma addressed_impl (P Q : Z -> Prop) evs :
  (forall x, P x -> Q x) -> addressed P evs -> addressed Q evs.
Proof.
  intros H. apply Forall_impl. intros [x d ok|x reg n r|secs]; auto.
Qed.

Lemma retried_addressed (P : Z -> Prop) a page is_op budget rc atts :
  P a ->
  (forall ok e, is_op ok e ->
     exists d, e = TxWrite a d ok \/ exists reg n r, e = TxRead a reg n r) ->
  retried a page is_op budget rc atts ->
  addressed P (List.concat atts).
Proof.
  intros Ha Hop Hre. eapply Forall_attempts; [| |exact Hre].
  - intros ok. exact Ha.
  - intros ok e He. destruct (Hop ok e He) as (d & [-> | (reg & n & r & ->)]);
      exact Ha.
Qed.

Lemma vrm_write_block_addressed (P : Z -> Prop) a page payload :
  page <= 255 -> P a ->
  emits (addressed P) (vrm_write_block T a page payload).
Proof.
  intros Hp Ha b.
  destruct (vrm_write_loop_retried T a page payload 4 b Hp)
    as (rc & atts & b' & out & Hrun & Hlog & Hre).
  exists (List.concat atts). unfold vrm_write_block.
  change (Z.to_nat RETRY_RW) with 4%nat. rewrite Hrun.
  split; [exact Hlog|].
  eapply retried_addressed; [exact Ha| |exact Hre].
  intros ok e ->. exists payload. left. reflexivity.
Qed.

Lemma read_op_shape a reg n ok e :
  read_op a reg n ok e ->
  exists d : list Z,
    e = TxWrite a d ok \/ exists reg' n' r, e = TxRead a reg' n' r.
Proof.
  intros He. exists []. right. exists reg, n.
  destruct ok; [destruct He as [d ->]|rewrite He]; eexists; reflexivity.
Qed.

Lemma vrm_read_block_addressed (P : Z -> Prop) a page reg n :
  page <= 255 -> 0 <= reg <= 255 -> P a ->
  emits (addressed P) (vrm_read_block T a page reg n).
Proof.
  intros Hp Hr Ha b.
  destruct (vrm_read_loop_retried T a page reg n 4 b Hp Hr)
    as (rc & data & atts & b' & out & Hrun & Hlog & Hre & _).
  exists (List.concat atts). unfold vrm_read_block.
  change (Z.to_nat RETRY_RW) with 4%nat. rewrite Hrun.
  split; [exact Hlog|].
  eapply retried_addressed; [exact Ha| |exact Hre].
  intros ok e. apply read_op_shape.
Qed.

Lemma scan_read_block_addressed (P : Z -> Prop) a page reg n :
  page <= 255 -> 0 <= reg <= 255 -> P a ->
  emits (addressed P) (scan_read_block T a page reg n).
Proof.
  intros Hp Hr Ha b.
  destruct (scan_read_loop_retried T a page reg n 2 b Hp Hr)
    as (rc & data & atts & b' & out & Hrun & Hlog & Hre & _).
  exists (List.concat atts). unfold scan_read_block.
  change (Z.to_nat RETRY_SCAN) with 2%nat. rewrite Hrun.
  split; [exact Hlog|].
  eapply retried_addressed; [exact Ha| |exact Hre].
  intros ok e. apply read_op_shape.
Qed.

Lemma read_block_addressed (P : Z -> Prop) a reg n :
  P a -> emits (addressed P) (read_block T a reg n).
Proof.
  intros Ha b. unfold read_block. destruct (bytes_ok [reg]).
  - destruct (i2c_write_read T (dev b) a reg n) as [w r].
    eexists. split; [reflexivity|]. repeat constructor. exact Ha.
  - exists []. rewrite app_nil_r. split; [reflexivity|constructor].
Qed.

Ltac addressed_steps P Ha :=
  repeat first
    [ apply emits_ret; apply addressed_nil
    | apply emits_print; apply addressed_nil
    | apply emits_raise; apply addressed_nil
    | apply emits_format_02X; apply addressed_nil
    | apply emits_sleep; repeat constructor
    | apply vrm_read_block_addressed; [lia|lia|exact Ha]
    | apply vrm_write_block_addressed; [lia|exact Ha]
    | apply scan_read_block_addressed; [lia|lia|exact Ha]
    | apply read_block_addressed; exact Ha
    | match goal with
      | |- emits _ (bind _ _) =>
          apply emits_bind; [apply addressed_app| |intros]
      | |- emits _ (if ?c then _ else _) => destruct c
      | |- emits _ (match ?x with _ => _ end) => destruct x
      end ].

Lemma set_icc_max_addressed (P : Z -> Prop) fam a :
  P a -> emits (addressed P) (set_icc_max T fam a).
Proof.
  intros Ha.
  destruct fam;
    unfold set_icc_max, pxe1610_set_icc_max, mp2955a_set_icc_max,
      tps53679_set_icc_max;
    addressed_steps P Ha.
Qed.

(** X4.  A modification procedure speaks to the address it was given
    and to no other: every transaction of its run carries that
    address. *)
Theorem set_icc_max_addresses_only_its_chip fam a b :
  exists evs,
    log (bus_of (set_icc_max T fam a b)) = log b ++ evs /\
    addressed (eq a) evs.
Proof. exact (set_icc_max_addressed (eq a) fam a eq_refl b). Qed.

Lemma scan_addr_addressed (P : Z -> Prop) a :
  P a -> emits (addressed P) (scan_addr T a).
Proof. intros Ha. unfold scan_addr. addressed_steps P Ha. Qed.

Lemma scan_loop_addressed left a :
  emits (addressed (fun x => a <= x < a + Z.of_nat left))
    (scan_loop T left a).
Proof.
  revert a. induction left as [|left IH]; intros a; cbn [scan_loop].
  - apply emits_ret. apply addressed_nil.
  - apply emits_bind; [apply addressed_app| |].
    + apply scan_addr_addressed. lia.
    + intros _. eapply emits_impl; [|apply (IH (a + 1))].
      intros l. apply addressed_impl. intros x. lia.
Qed.

Lemma scan_pmbus_addressed (P : Z -> Prop) start_addr end_addr :
  (forall x, start_addr <= x <= end_addr -> P x) ->
  emits (addressed P) (scan_pmbus T start_addr end_addr).
Proof.
  intros HP. unfold scan_pmbus.
  apply emits_bind; [apply addressed_app| |].
  - eapply emits_impl; [|apply scan_loop_addressed].
    intros l. apply addressed_impl. intros x Hx. apply HP. lia.
  - intros _. apply emits_ret. apply addressed_nil.
Qed.

(** X5.  A scan speaks to the addresses of its range only: every
    transaction of [scan_pmbus start_addr end_addr] carries an address
    between [start_addr] and [end_addr]. *)
Theorem scan_pmbus_addresses_within_range start_addr end_addr b :
  exists evs,
    log (bus_of (scan_pmbus T start_addr end_addr b)) = log b ++ evs /\
    addressed (fun x => start_addr <= x <= end_addr) evs.
Proof.
  exact (scan_pmbus_addressed _ start_addr end_addr (fun x H => H) b).
Qed.

(** ** The command line *)

Section CommandLine.

Context (int16 : string -> option Z).

Lemma parse_hex7_range s b x b' o :
  _parse_hex7 T int16 s b = (Returns x, b', o) ->
  b' = b /\ (x = -1 \/ (valid_addr int16 s = true /\ int16 s = Some x)).
Proof.
  unfold _parse_hex7, valid_addr, bind, print, ret.
  destruct (int16 s) as [v|].
  - destruct (Z.ltb_spec 127 v) as [Hhi|Hhi]; cbn [orb].
    + intros E. injection E as <- <- _. auto.
    + destruct (Z.ltb_spec v 0) as [Hlo|Hlo].
      * intros E. injection E as <- <- _. auto.
      * intros E. injection E as <- <- _. split; [reflexivity|]. right.
        split; [|reflexivity]. apply andb_true_intro.
        split; apply Z.leb_le; lia.
  - intros E. injection E as <- <- _. auto.
Qed.

Lemma parse_hex7_second_range s b x b' o :
  _parse_hex7_second T int16 s b = (Returns x, b', o) ->
  b' = b /\ (x = -1 \/ (valid_addr int16 s = true /\ int16 s = Some x)).
Proof.
  unfold _parse_hex7_second, valid_addr, bind, print, ret.
  destruct (int16 s) as [v|].
  - destruct (Z.ltb_spec 127 v) as [Hhi|Hhi]; cbn [orb].
    + intros E. injection E as <- <- _. auto.
    + destruct (Z.ltb_spec v 0) as [Hlo|Hlo].
      * intros E. injection E as <- <- _. auto.
      * intros E. injection E as <- <- _. split; [reflexivity|]. right.
        split; [|reflexivity]. apply andb_true_intro.
        split; apply Z.leb_le; lia.
  - intros E. injection E as <- <- _. auto.
Qed.

Lemma parse_hex7_returns s :
  always_returns (fun _ => True) (_parse_hex7 T int16 s).
Proof.
  unfold _parse_hex7. destruct (int16 s) as [v|]; [destruct (_ || _)|];
    returns_steps.
Qed.

Lemma parse_hex7_second_returns s :
  always_returns (fun _ => True) (_parse_hex7_second T int16 s).
Proof.
  unfold _parse_hex7_second.
  destruct (int16 s) as [v|]; [destruct (_ || _)|]; returns_steps.
Qed.

Lemma valid_addr_range s x :
  valid_addr int16 s = true -> int16 s = Some x -> 0 <= x <= 127.
Proof.
  unfold valid_addr. intros H E. rewrite E in H.
  apply andb_prop in H. destruct H as [H1 H2].
  apply Z.leb_le in H1, H2. lia.
Qed.

(** A computation whose value is known to satisfy [Q] can be followed
    by one that relies on [Q]. *)
Lemma emits_bind_val {A B} (P : list Event -> Prop) (Q : A -> Prop)
  (m : M T A) (f : A -> M T B) :
  (forall l1 l2, P l1 -> P l2 -> P (l1 ++ l2)) ->
  emits P m ->
  (forall b x b' o, m b = (Returns x, b', o) -> Q x) ->
  (forall x, Q x -> emits P (f x)) ->
  emits P (bind m f).
Proof.
  intros Happ Hm Hq Hf b. destruct (Hm b) as (e1 & Hl1 & H1).
  unfold bind. destruct (m b) as [[[x|e] b1] o1] eqn:E; cbn in Hl1.
  - destruct (Hf x (Hq _ _ _ _ E) b1) as (e2 & Hl2 & H2).
    destruct (f x b1) as [[r b2] o2]; cbn in Hl2 |- *.
    exists (e1 ++ e2). rewrite Hl2, Hl1, app_assoc. auto.
  - exists e1. auto.
Qed.

Lemma silent_emits {A} (P : list Event -> Prop) (m : M T A) :
  P [] -> (forall b x b' o, m b = (x, b', o) -> b' = b) -> emits P m.
Proof.
  intros Hnil H b. exists []. rewrite app_nil_r. split; [|exact Hnil].
  destruct (m b) as [[x b'] o] eqn:E. cbn. f_equal. exact (H _ _ _ _ E).
Qed.

Lemma parse_hex7_emits P s :
  P [] -> emits P (_parse_hex7 T int16 s).
Proof.
  intros Hnil. apply silent_emits; [exact Hnil|].
  unfold _parse_hex7, bind, print, ret.
  destruct (int16 s); [destruct (_ || _)|];
    intros b x b' o H; injection H as _ <- _; reflexivity.
Qed.

Lemma parse_hex7_second_emits P s :
  P [] -> emits P (_parse_hex7_second T int16 s).
Proof.
  intros Hnil. apply silent_emits; [exact Hnil|].
  unfold _parse_hex7_second, bind, print, ret.
  destruct (int16 s); [destruct (_ || _)|];
    intros b x b' o H; injection H as _ <- _; reflexivity.
Qed.

Lemma print_usage_emits P : P [] -> emits P (_print_usage T).
Proof.
  intros Hnil. apply silent_emits; [exact Hnil|].
  unfold _print_usage, bind, print.
  intros b x b' o H. injection H as _ <- _. reflexivity.
Qed.

Lemma parse_hex7_seven_bit s b x b' o :
  _parse_hex7 T int16 s b = (Returns x, b', o) -> seven_bit_or_none x.
Proof.
  intros E. destruct (parse_hex7_range _ _ _ _ _ E) as (_ & [H|[H1 H2]]).
  - left. exact H.
  - right. exact (valid_addr_range _ _ H1 H2).
Qed.

Lemma parse_hex7_second_seven_bit s b x b' o :
  _parse_hex7_second T int16 s b = (Returns x, b', o) -> seven_bit_or_none x.
Proof.
  intros E.
  destruct (parse_hex7_second_range _ _ _ _ _ E) as (_ & [H|[H1 H2]]).
  - left. exact H.
  - right. exact (valid_addr_range _ _ H1 H2).
Qed.

Lemma set_icc_max_twice_seven_bit fam a1 (a2 : option Z) :
  0 <= a1 <= 127 ->
  match a2 with Some v => 0 <= v <= 127 | None => True end ->
  emits (addressed (fun x => 0 <= x <= 127))
    (bind (set_icc_max T fam a1) (fun _ =>
     match a2 with
     | Some v => bind (set_icc_max T fam v) (fun _ => ret tt)
     | None => ret tt
     end)).
Proof.
  intros H1 H2. apply emits_bind; [apply addressed_app| |intros _].
  - apply set_icc_max_addressed. exact H1.
  - destruct a2 as [v|].
    + apply emits_bind; [apply addressed_app| |intros _].
      * apply set_icc_max_addressed. exact H2.
      * apply emits_ret. apply addressed_nil.
    + apply emits_ret. apply addressed_nil.
Qed.

(** X6.  Whatever the arguments, every transaction [main] performs is
    addressed to a 7-bit address (0..0x7F): the two address parsers
    let nothing else through to the scan or to a procedure. *)
Theorem main_addresses_are_seven_bit argv b :
  exists evs,
    log (bus_of (main T int16 argv b)) = log b ++ evs /\
    addressed (fun x => 0 <= x <= 0x7F) evs.
Proof.
  revert b. change (emits (addressed (fun x => 0 <= x <= 127))
                      (main T int16 argv)).
  pose proof (addressed_nil (fun x => 0 <= x <= 127)) as Hnil.
  pose proof (addressed_app (fun x => 0 <= x <= 127)) as Happ.
  unfold main.
  destruct (List.length argv =? 0)%nat; [apply print_usage_emits, Hnil|].
  cbv zeta.
  destruct (arg argv 0 =? "-scan")%string.
  { destruct (List.length argv <? 3)%nat; [apply print_usage_emits, Hnil|].
    apply (emits_bind_val _ seven_bit_or_none); [exact Happ| | |].
    - apply parse_hex7_emits, Hnil.
    - apply parse_hex7_seven_bit.
    - intros a1 Q1. destruct (Z.ltb_spec a1 0) as [L1|L1];
        [apply emits_ret, Hnil|].
      apply (emits_bind_val _ seven_bit_or_none); [exact Happ| | |].
      + apply parse_hex7_second_emits, Hnil.
      + apply parse_hex7_second_seven_bit.
      + intros a2 Q2. destruct (Z.ltb_spec a2 0) as [L2|L2];
          [apply emits_ret, Hnil|].
        apply emits_bind; [exact Happ| |intros _; apply emits_ret, Hnil].
        apply scan_pmbus_addressed. intros x Hx.
        destruct Q1 as [Q1|Q1], Q2 as [Q2|Q2]; lia. }
  destruct (_ || _) eqn:Hfam.
  2:{ apply emits_bind; [exact Happ| |intros _].
      - apply emits_print, Hnil.
      - apply print_usage_emits, Hnil. }
  destruct (List.length argv <? 2)%nat; [apply print_usage_emits, Hnil|].
  apply (emits_bind_val _ seven_bit_or_none); [exact Happ| | |].
  - apply parse_hex7_emits, Hnil.
  - apply parse_hex7_seven_bit.
  - intros a1 Q1. destruct (Z.ltb_spec a1 0) as [L1|L1];
      [apply emits_ret, Hnil|].
    assert (R1 : 0 <= a1 <= 127) by (destruct Q1; lia).
    apply (emits_bind_val _
             (fun o => match o with
                       | Some v => seven_bit_or_none v
                       | None => True
                       end)); [exact Happ| | |].
    + destruct (3 <=? List.length argv)%nat.
      * apply emits_bind; [exact Happ| |intros v; apply emits_ret, Hnil].
        apply parse_hex7_second_emits, Hnil.
      * apply emits_ret, Hnil.
    + intros b0 x b' o. destruct (3 <=? List.length argv)%nat.
      * unfold bind, ret.
        destruct (_parse_hex7_second T int16 (arg argv 2) b0)
          as [[[v|e] b2] o2] eqn:E; intros H; [|discriminate H].
        injection H as <- _ _.
        exact (parse_hex7_second_seven_bit _ _ _ _ _ E).
      * unfold ret. intros H. injection H as <- _ _. exact I.
    + intros a2 Q2.
      assert (R2 : (match a2 with Some v => v <? 0 | None => false end)
                   = false ->
                   match a2 with Some v => 0 <= v <= 127 | None => True end).
      { destruct a2 as [v|]; [|auto]. intros L.
        apply Z.ltb_ge in L. destruct Q2; lia. }
      destruct (match a2 with Some v => v <? 0 | None => false end);
        [apply emits_ret, Hnil|].
      specialize (R2 eq_refl).
      destruct (arg argv 0 =? "-PXE1610C")%string;
        [exact (set_icc_max_twice_seven_bit PXE1610C a1 a2 R1 R2)|].
      destruct (arg argv 0 =? "-MP2955A")%string;
        [exact (set_icc_max_twice_seven_bit MP2955A a1 a2 R1 R2)|].
      destruct (_ || _);
        [exact (set_icc_max_twice_seven_bit TPS5367x a1 a2 R1 R2)|].
      apply emits_ret, Hnil.
Qed.

Lemma parse_hex7_total s b :
  exists x o,
    _parse_hex7 T int16 s b = (Returns x, b, o) /\
    (valid_addr int16 s = false -> x = -1).
Proof.
  unfold _parse_hex7, valid_addr, bind, print, ret.
  destruct (int16 s) as [v|].
  - destruct (Z.ltb_spec 127 v) as [Hhi|Hhi]; cbn [orb].
    + eexists _, _. split; [reflexivity|auto].
    + destruct (Z.ltb_spec v 0) as [Hlo|Hlo].
      * eexists _, _. split; [reflexivity|auto].
      * eexists _, _. split; [reflexivity|]. intros H.
        apply andb_false_iff in H. destruct H as [H|H];
          apply Z.leb_gt in H; lia.
  - eexists _, _. split; [reflexivity|auto].
Qed.

Lemma parse_hex7_second_total s b :
  exists x o,
    _parse_hex7_second T int16 s b = (Returns x, b, o) /\
    (valid_addr int16 s = false -> x = -1).
Proof.
  unfold _parse_hex7_second, valid_addr, bind, print, ret.
  destruct (int16 s) as [v|].
  - destruct (Z.ltb_spec 127 v) as [Hhi|Hhi]; cbn [orb].
    + eexists _, _. split; [reflexivity|auto].
    + destruct (Z.ltb_spec v 0) as [Hlo|Hlo].
      * eexists _, _. split; [reflexivity|auto].
      * eexists _, _. split; [reflexivity|]. intros H.
        apply andb_false_iff in H. destruct H as [H|H];
          apply Z.leb_gt in H; lia.
  - eexists _, _. split; [reflexivity|auto].
Qed.

(** X7.  An argument list that is not well formed (no arguments, an
    unknown command, too few arguments, an address that does not parse
    as hexadecimal or lies outside 0..0x7F, the optional second address
    included) makes [main] return without a single transaction or
    delay: the bus is left exactly as it was. *)
Theorem main_rejects_ill_formed argv b :
  well_formed_invocation int16 argv = false ->
  result_of (main T int16 argv b) = Returns tt /\
  bus_of (main T int16 argv b) = b.
Proof.
  intros Hwf.
  assert (H : exists o, main T int16 argv b = (Returns tt, b, o));
    [|destruct H as (o & ->); split; reflexivity].
  destruct argv as [|cmd [|s1 rest]].
  - eexists. reflexivity.
  - unfold main, arg. cbv zeta.
    cbn [List.length Nat.eqb Nat.ltb Nat.leb nth].
    destruct (cmd =? "-scan")%string; [eexists; reflexivity|].
    destruct (_ || _); eexists; reflexivity.
  - unfold well_formed_invocation, command_family in Hwf.
    unfold main, arg. cbv zeta.
    cbn [List.length Nat.eqb Nat.ltb Nat.leb nth].
    destruct (parse_hex7_total s1 b) as (x1 & o1 & E1 & V1).
    destruct (cmd =? "-scan")%string.
    + destruct rest as [|s2 rest];
        cbn [List.length Nat.eqb Nat.ltb Nat.leb nth];
        [eexists; reflexivity|].
      unfold bind at 1. rewrite E1.
      destruct (Z.ltb_spec x1 0) as [L1|L1]; [eexists; reflexivity|].
      destruct (parse_hex7_second_total s2 b) as (x2 & o2 & E2 & V2).
      unfold bind at 1. rewrite E2.
      destruct (valid_addr int16 s1); [|specialize (V1 eq_refl); lia].
      cbn [andb] in Hwf. rewrite (V2 Hwf). eexists; reflexivity.
    + destruct (cmd =? "-PXE1610C")%string;
        [|destruct (cmd =? "-MP2955A")%string;
          [|destruct (cmd =? "-TPS53679")%string,
                     (cmd =? "-TPS53678")%string]];
        cbn [orb] in Hwf |- *; try (eexists; reflexivity);
        (unfold bind at 1; rewrite E1;
         destruct (Z.ltb_spec x1 0) as [L1|L1]; [eexists; reflexivity|];
         destruct (valid_addr int16 s1); [|specialize (V1 eq_refl); lia];
         cbn [andb] in Hwf;
         destruct rest as [|s2 rest]; [discriminate Hwf|];
         destruct (parse_hex7_second_total s2 b) as (x2 & o2 & E2 & V2);
         cbn [List.length Nat.eqb Nat.ltb Nat.leb nth];
         unfold bind at 1; unfold bind at 1; rewrite E2;
         rewrite (V2 Hwf); eexists; reflexivity).
Qed.

End CommandLine.

(** ** What a run has done when it ends *)

Lemma post_ret {A} (Q : outcome A -> list Event -> list string -> Prop) x :
  Q (Returns x) [] [] -> post Q (ret (T := T) x).
Proof. intros H b. exists []. rewrite app_nil_r. split; [reflexivity|exact H]. Qed.

Lemma post_raise {A} (Q : outcome A -> list Event -> list string -> Prop) e :
  Q (Raises e) [] [] -> post Q (raise (T := T) (A := A) e).
Proof. intros H b. exists []. rewrite app_nil_r. split; [reflexivity|exact H]. Qed.

Lemma post_print (Q : outcome unit -> list Event -> list string -> Prop) s :
  Q (Returns tt) [] [s] -> post Q (print (T := T) s).
Proof. intros H b. exists []. rewrite app_nil_r. split; [reflexivity|exact H]. Qed.

Lemma post_bind {A B} (Q1 : A -> list Event -> list string -> Prop)
  (Q : outcome B -> list Event -> list string -> Prop)
  (m : M T A) (f : A -> M T B) :
  yields Q1 m ->
  (forall x e1 o1, Q1 x e1 o1 ->
     post (fun r e2 o2 => Q r (e1 ++ e2) (o1 ++ o2)) (f x)) ->
  post Q (bind m f).
Proof.
  intros Hm Hf b. destruct (Hm b) as (x & e1 & Hr & Hl & H1).
  destruct (m b) as [[r1 b1] o1] eqn:E. cbn in Hr, Hl, H1. subst r1.
  destruct (Hf x e1 o1 H1 b1) as (e2 & Hl2 & H2).
  rewrite (bind_returns T m f b x b1 o1 E).
  exists (e1 ++ e2). cbn [bus_of result_of lines_of fst snd].
  rewrite Hl2, Hl, app_assoc. split; [reflexivity|exact H2].
Qed.

Lemma post_print_then {B}
  (Q : outcome B -> list Event -> list string -> Prop) s (f : unit -> M T B) :
  post (fun r e o => Q r e (s :: o)) (f tt) -> post Q (bind (print s) f).
Proof.
  intros H b. destruct (H b) as (e & Hl & Hq). exists e.
  rewrite (bind_returns T (print s) f b tt b [s] eq_refl).
  cbn [bus_of result_of lines_of fst snd List.app]. auto.
Qed.

Lemma post_ret_then {A B}
  (Q : outcome B -> list Event -> list string -> Prop) x (f : A -> M T B) :
  post Q (f x) -> post Q (bind (ret x) f).
Proof.
  intros H b. destruct (H b) as (e & Hl & Hq). exists e.
  rewrite (bind_returns T (ret x) f b x b [] eq_refl).
  cbn [bus_of result_of lines_of fst snd List.app]. auto.
Qed.

Lemma post_raise_then {A B}
  (Q : outcome B -> list Event -> list string -> Prop) e (f : A -> M T B) :
  Q (Raises e) [] [] -> post Q (bind (raise e) f).
Proof.
  intros H b. exists []. rewrite app_nil_r.
  rewrite (bind_raises T (raise e) f b e b [] eq_refl).
  split; [reflexivity|exact H].
Qed.

Lemma post_sleep_then {B}
  (Q : outcome B -> list Event -> list string -> Prop) secs
  (f : unit -> M T B) :
  post (fun r e o => Q r (Sleep secs :: e) o) (f tt) ->
  post Q (bind (sleep secs) f).
Proof.
  intros H b.
  destruct (H (mkBus (dev b) (log b ++ [Sleep secs]))) as (e & Hl & Hq).
  exists (Sleep secs :: e).
  rewrite (bind_returns T (sleep secs) f b tt
             (mkBus (dev b) (log b ++ [Sleep secs])) [] eq_refl).
  cbn [bus_of result_of lines_of fst snd List.app log] in Hl |- *.
  rewrite Hl, <- app_assoc. split; [reflexivity|exact Hq].
Qed.

Lemma retried_ok_last a page is_op budget atts :
  retried a page is_op budget 0 atts ->
  exists before e, List.concat atts = before ++ [e] /\ is_op true e.
Proof.
  intros [(_ & _ & init & final & -> & _ & (e & He & ->)) | (H & _)];
    [|discriminate H].
  exists (List.concat init ++ sel_events a page true), e.
  rewrite concat_app. cbn [List.concat]. rewrite app_nil_r, app_assoc.
  auto.
Qed.

Lemma retried_page_selects a page is_op budget rc atts :
  (forall ok e, is_op ok e ->
     match e with TxWrite _ d _ => is_page_select d | _ => True end) ->
  retried a page is_op budget rc atts ->
  writes_only is_page_select (List.concat atts).
Proof.
  intros Hop Hre. eapply Forall_attempts; [| |exact Hre].
  - intros ok. exists page. reflexivity.
  - exact Hop.
Qed.

(** A paged read returns; its only writes are page-selects; and when
    it reports success the reply it returns is the one the log
    shows. *)
Lemma vrm_read_block_yields a page reg n :
  page <= 255 -> 0 <= reg <= 255 ->
  yields (fun x evs _ =>
            writes_only is_page_select evs /\
            (fst x = 0 -> In (TxRead a reg n (Some (snd x))) evs))
    (vrm_read_block T a page reg n).
Proof.
  intros Hp Hr b.
  destruct (vrm_read_loop_retried T a page reg n 4 b Hp Hr)
    as (rc & data & atts & b' & out & Hrun & Hlog & Hre & Hlast).
  exists (rc, data), (List.concat atts). unfold vrm_read_block.
  change (Z.to_nat RETRY_RW) with 4%nat. rewrite Hrun.
  cbn [bus_of result_of lines_of fst snd].
  split; [reflexivity|]. split; [exact Hlog|]. split.
  - eapply retried_page_selects; [|exact Hre].
    intros ok e He. destruct ok; [destruct He as [d ->]|rewrite He]; exact I.
  - intros ->. destruct (Hlast eq_refl) as (before & Hb).
    destruct (retried_ok_last _ _ _ _ _ Hre) as (pre & e & Hc & He).
    rewrite Hc. rewrite Hlog, Hc, app_assoc in Hb.
    apply app_inj_tail in Hb. destruct Hb as [_ ->].
    apply in_or_app. right. left. reflexivity.
Qed.

(** A paged write returns, and when it reports success the log shows
    the payload write that went through. *)
Lemma vrm_write_block_yields a page payload :
  page <= 255 ->
  yields (fun rc evs _ => rc = 0 -> In (TxWrite a payload true) evs)
    (vrm_write_block T a page payload).
Proof.
  intros Hp b.
  destruct (vrm_write_loop_retried T a page payload 4 b Hp)
    as (rc & atts & b' & out & Hrun & Hlog & Hre).
  exists rc, (List.concat atts). unfold vrm_write_block.
  change (Z.to_nat RETRY_RW) with 4%nat. rewrite Hrun.
  cbn [bus_of result_of lines_of fst snd].
  split; [reflexivity|]. split; [exact Hlog|].
  intros ->. destruct (retried_ok_last _ _ _ _ _ Hre) as (pre & e & Hc & He).
  rewrite Hc. unfold write_op in He. subst e.
  apply in_or_app. right. left. reflexivity.
Qed.




(** Steps through a procedure, keeping what each paged operation has
    yielded and what each test has found. *)
Ltac post_step :=
  match goal with
  | |- post _ (bind (vrm_read_block _ _ _ _ _) _) =>
      eapply post_bind; [apply vrm_read_block_yields; lia|];
      let x := fresh "x" in
      let e := fresh "e" in
      let o := fresh "o" in
      let H := fresh "Hrd" in
      let W := fresh "Wrd" in
      intros [? ?] e o [W H]; cbn [fst snd] in H
  | |- post _ (bind (vrm_write_block _ _ _ _) _) =>
      eapply post_bind; [apply vrm_write_block_yields; lia|];
      let e := fresh "e" in
      let o := fresh "o" in
      let H := fresh "Hwr" in
      intros ? e o H
  | |- post _ (bind (print _) _) => apply post_print_then
  | |- post _ (bind (sleep _) _) => apply post_sleep_then
  | |- post _ (bind (ret _) _) => apply post_ret_then
  | |- post _ (bind (raise _) _) => apply post_raise_then
  | |- post _ (bind (format_02X _ (if negb (?rc =? 0) then _ else _)) _) =>
      let C := fresh "C" in
      destruct (rc =? 0) eqn:C; cbn [negb format_02X]
  | |- post _ (bind (if ?c then _ else _) _) =>
      let C := fresh "C" in destruct c eqn:C
  | |- post _ (if negb (?rc =? 0) then _ else _) =>
      let C := fresh "C" in
      destruct (rc =? 0) eqn:C; cbn [negb]
  | |- post _ (if ?c then _ else _) =>
      let C := fresh "C" in destruct c eqn:C
  | |- post _ (ret _) => apply post_ret
  | |- post _ (print _) => apply post_print
  | |- post _ (raise _) => apply post_raise
  end.

(** Brings the tests that were passed to the form [x = 0] for result
    codes and [c = true] for the rest, and uses them. *)
Ltac tests_passed :=
  repeat match goal with
  | H : _ && _ = true |- _ => apply andb_prop in H; destruct H
  | H : (?rc =? 0) = true |- _ => is_var rc; apply Z.eqb_eq in H; subst rc
  | H : 0 = 0 -> _ |- _ => specialize (H eq_refl)
  end.

Ltac in_log :=
  repeat first [rewrite in_app_iff | progress cbn [In]]; tauto.





Ltac written_leaf :=
  cbv beta; intros Hzero;
  first
    [ discriminate Hzero
    | left; unfold skip_line; in_log
    | right; tests_passed; unfold required_writes;
      repeat (apply Forall_cons; [in_log|]); apply Forall_nil ].

Lemma set_icc_max_written fam a :
  post (fun r evs out =>
          r = Returns 0 ->
          In (skip_line fam) out \/
          Forall (fun d => In (TxWrite a d true) evs) (required_writes fam))
    (set_icc_max T fam a).
Proof.
  destruct fam;
    unfold set_icc_max, pxe1610_set_icc_max, mp2955a_set_icc_max,
      tps53679_set_icc_max;
    repeat post_step; written_leaf.
Qed.

(** X9.  What the result 0 stands for.  A modification procedure that
    returns 0 has either printed its skip message, or every payload
    write it checks went through on the bus: the new ICC_MAX value and
    the store trigger for the MP2955A and the TPS53679/TPS53678; the SMB
    password, the new ICC_MAX value, the NVM password and its clearing
    for the PXE1610C. *)
Theorem zero_means_skipped_or_written fam a b :
  result_of (set_icc_max T fam a b) = Returns 0 ->
  In (skip_line fam) (lines_of (set_icc_max T fam a b)) \/
  exists evs,
    log (bus_of (set_icc_max T fam a b)) = log b ++ evs /\
    Forall (fun d => In (TxWrite a d true) evs) (required_writes fam).
Proof.
  intros Hzero. destruct (set_icc_max_written fam a b) as (evs & Hlog & H).
  destruct (H Hzero) as [Hs|Hw]; [left; exact Hs|].
  right. exists evs. auto.
Qed.

(** ** The presence probes of a scan *)

Lemma In_addresses_from x a count :
  In x (addresses_from a count) <-> a <= x < a + Z.of_nat count.
Proof.
  revert a. induction count as [|k IH]; intros a; cbn [addresses_from In].
  - split; [tauto|lia].
  - rewrite IH. lia.
Qed.

Lemma In_addresses x start_addr end_addr :
  In x (addresses start_addr end_addr) <-> start_addr <= x <= end_addr.
Proof. unfold addresses. rewrite In_addresses_from. lia. Qed.

Lemma probed_app l1 l2 : probed (l1 ++ l2) = probed l1 ++ probed l2.
Proof. apply flat_map_app. Qed.

Lemma yields_of_post {A} (S : A -> Prop)
  (Q : outcome A -> list Event -> list string -> Prop) (m : M T A) :
  always_returns S m -> post Q m ->
  yields (fun x e o => Q (Returns x) e o) m.
Proof.
  intros Hr Hp b. destruct (Hr b) as (x & Hx & _).
  destruct (Hp b) as (e & Hl & Hq). exists x, e.
  rewrite Hx in Hq. auto.
Qed.

Lemma read_block_yields a reg n :
  0 <= reg <= 255 ->
  yields (fun _ evs _ => exists r, evs = [TxRead a reg n r])
    (read_block T a reg n).
Proof.
  intros Hr b. destruct (read_block_run T a reg n b Hr) as (r & w & E).
  rewrite E. eexists _, _. cbn [result_of bus_of lines_of fst snd log].
  split; [reflexivity|]. split; [reflexivity|]. exists r. reflexivity.
Qed.

Lemma probed_none l : Forall (fun e => probed [e] = []) l -> probed l = [].
Proof.
  induction 1 as [|e l He _ IH]; [reflexivity|].
  change (e :: l) with ([e] ++ l). rewrite probed_app, He, IH. reflexivity.
Qed.

Lemma scan_read_block_yields a page reg n :
  page <= 255 -> 0 < reg <= 255 ->
  yields (fun _ evs _ => probed evs = []) (scan_read_block T a page reg n).
Proof.
  intros Hp Hr b.
  assert (Hr' : 0 <= reg <= 255) by lia.
  destruct (scan_read_loop_retried T a page reg n 2 b Hp Hr')
    as (rc & data & atts & b' & out & Hrun & Hlog & Hre & _).
  exists (rc, data), (List.concat atts). unfold scan_read_block.
  change (Z.to_nat RETRY_SCAN) with 2%nat. rewrite Hrun.
  cbn [bus_of result_of lines_of fst snd].
  split; [reflexivity|]. split; [exact Hlog|].
  apply probed_none.
  eapply Forall_attempts; [| |exact Hre].
  - intros ok. reflexivity.
  - intros ok e He.
    assert (Hz : (reg =? 0) = false) by (apply Z.eqb_neq; lia).
    destruct ok; [destruct He as [d ->]|rewrite He];
      cbn [probed flat_map]; rewrite Hz; reflexivity.
Qed.

Ltac scan_post_step :=
  match goal with
  | |- post _ (bind (read_block _ _ _ _) _) =>
      eapply post_bind; [apply read_block_yields; lia|];
      let e := fresh "e" in
      let o := fresh "o" in
      let H := fresh "Hpr" in
      intros [? ?] e o [? H]
  | |- post _ (bind (scan_read_block _ _ _ _ _) _) =>
      eapply post_bind; [apply scan_read_block_yields; lia|];
      let e := fresh "e" in
      let o := fresh "o" in
      let H := fresh "Hsc" in
      intros [? ?] e o H
  | |- post _ (let _ := _ in _) => cbv zeta
  | _ => post_step
  end.

Lemma scan_addr_probes a :
  post (fun _ evs _ => probed evs = [a]) (scan_addr T a).
Proof.
  unfold scan_addr. repeat scan_post_step; cbv beta; subst;
    rewrite ?probed_app;
    repeat match goal with H : probed _ = [] |- _ => rewrite H end;
    reflexivity.
Qed.

Lemma scan_loop_probes left a :
  post (fun _ evs _ => probed evs = addresses_from a left)
    (scan_loop T left a).
Proof.
  revert a. induction left as [|left IH]; intros a;
    cbn [scan_loop addresses_from].
  - apply post_ret. reflexivity.
  - eapply post_bind.
    + exact (yields_of_post _ _ _ (scan_addr_returns a) (scan_addr_probes a)).
    + cbv beta. intros _ e1 o1 H1 b. destruct (IH (a + 1) b) as (e2 & Hl & H2).
      exists e2. split; [exact Hl|]. rewrite probed_app, H1, H2. reflexivity.
Qed.

(** X10.  A scan probes every address of its range exactly once and in
    ascending order: the presence probes its log shows (reads of one
    byte of register 0x00) are those of [start_addr], [start_addr + 1],
    ..., [end_addr], whatever the devices answer. *)
Theorem scan_probes_each_address_once start_addr end_addr b :
  exists evs,
    log (bus_of (scan_pmbus T start_addr end_addr b)) = log b ++ evs /\
    probed evs = addresses start_addr end_addr.
Proof.
  assert (H : post (fun _ evs _ => probed evs = addresses start_addr end_addr)
                (scan_pmbus T start_addr end_addr)).
  { unfold scan_pmbus. eapply post_bind.
    - exact (yields_of_post _ _ _ (scan_loop_returns _ _)
               (scan_loop_probes _ _)).
    - cbv beta. intros _ e1 o1 H1. apply post_ret.
      rewrite app_nil_r. exact H1. }
  exact (H b).
Qed.

(** X11.  A scan whose end address lies below its start address does
    nothing: no transaction, no line of output, result 0. *)
Theorem scan_empty_range start_addr end_addr b :
  end_addr < start_addr ->
  scan_pmbus T start_addr end_addr b = (Returns 0, b, []).
Proof.
  intros H. unfold scan_pmbus.
  replace (Z.to_nat (end_addr + 1 - start_addr)) with 0%nat by lia.
  reflexivity.
Qed.

(** ** Arguments outside the range of a byte *)

(** X12.  A page above 255 makes each paged operation raise ValueError
    before it has performed a transaction or printed a line:
    [bytes([0x00, page])] is evaluated outside the [try] of
    [write_block]. *)
Theorem page_above_byte_raises a page payload reg n b :
  255 < page ->
  vrm_write_block T a page payload b = (Raises ValueError, b, []) /\
  vrm_read_block T a page reg n b = (Raises ValueError, b, []) /\
  scan_read_block T a page reg n b = (Raises ValueError, b, []).
Proof.
  intros H.
  assert (Hsel : page_select T page = raise ValueError).
  { unfold page_select, bytes_ok, is_byte. cbn [forallb].
    replace (page <? 256) with false by (symmetry; apply Z.ltb_ge; lia).
    rewrite andb_false_r. reflexivity. }
  assert (Hpos : (0 <=? page) = true) by (apply Z.leb_le; lia).
  unfold vrm_write_block, vrm_read_block, scan_read_block.
  change (Z.to_nat RETRY_RW) with 4%nat.
  change (Z.to_nat RETRY_SCAN) with 2%nat.
  cbn [vrm_write_loop vrm_read_loop scan_read_loop].
  rewrite Hpos, Hsel. repeat split; reflexivity.
Qed.

Lemma read_block_bad_reg a reg n b :
  bytes_ok [reg] = false ->
  read_block T a reg n b = (Returns (-1, []), b, []).
Proof. intros H. unfold read_block. rewrite H. reflexivity. Qed.

Lemma paging_run a page b :
  page <= 255 ->
  exists rc b' evs,
    (if 0 <=? page
     then bind (page_select T page) (fun sel => write_block T a sel)
     else ret 0) b = (Returns rc, b', []) /\
    log b' = log b ++ evs /\ selects_only a page evs /\
    List.length evs = (if 0 <=? page then 1%nat else 0%nat).
Proof.
  intros Hp. destruct (Z.leb_spec 0 page) as [H0|H0].
  - destruct (select_run T a page (ret 0) b ltac:(lia)) as (ok & w & E).
    replace (0 <=? page) with true in E by (symmetry; apply Z.leb_le; lia).
    eexists _, _, _. split; [exact E|]. split; [reflexivity|].
    split; [|reflexivity].
    constructor; [exists ok; reflexivity|constructor].
  - exists 0, b, []. split; [reflexivity|].
    rewrite app_nil_r. split; [reflexivity|].
    split; [constructor|reflexivity].
Qed.

Lemma vrm_read_loop_bad_reg a page reg n left b :
  page <= 255 -> bytes_ok [reg] = false ->
  exists evs b' out,
    vrm_read_loop T left a page reg n b = (Returns (-1, []), b', out) /\
    log b' = log b ++ evs /\ selects_only a page evs /\
    List.length evs = (if 0 <=? page then left else 0%nat).
Proof.
  intros Hp Hr. revert b. induction left as [|left IH]; intros b.
  - exists [], b, []. rewrite app_nil_r.
    split; [reflexivity|]. split; [reflexivity|].
    split; [constructor|]. destruct (0 <=? page); reflexivity.
  - destruct (banner_run T (0 <? RETRY_RW - Z.of_nat (S left))
                (" retry#" ++ fmt_int (RETRY_RW - Z.of_nat (S left))) b)
      as [o0 Hbanner].
    destruct (paging_run a page b Hp)
      as (rc & b1 & e1 & Hsel & Hl1 & Hs1 & Hn1).
    destruct (IH b1) as (e2 & b2 & o2 & Hloop & Hl2 & Hs2 & Hn2).
    exists (e1 ++ e2), b2. eexists. split; [|split; [|split]].
    + cbn [vrm_read_loop].
      eapply bind_run; [exact Hbanner|]. eapply bind_run; [exact Hsel|].
      destruct (rc =? 0);
        [ eapply bind_run; [exact (read_block_bad_reg a reg n b1 Hr)|];
          exact Hloop
        | exact Hloop ].
    + rewrite Hl2, Hl1, app_assoc. reflexivity.
    + apply Forall_app. auto.
    + rewrite length_app, Hn1, Hn2. destruct (0 <=? page); reflexivity.
Qed.

Lemma scan_read_loop_bad_reg a page reg n left b :
  page <= 255 -> bytes_ok [reg] = false ->
  exists evs b' out,
    scan_read_loop T left a page reg n b = (Returns (-1, []), b', out) /\
    log b' = log b ++ evs /\ selects_only a page evs /\
    List.length evs = (if 0 <=? page then left else 0%nat).
Proof.
  intros Hp Hr. revert b. induction left as [|left IH]; intros b.
  - exists [], b, []. rewrite app_nil_r.
    split; [reflexivity|]. split; [reflexivity|].
    split; [constructor|]. destruct (0 <=? page); reflexivity.
  - destruct (paging_run a page b Hp)
      as (rc & b1 & e1 & Hsel & Hl1 & Hs1 & Hn1).
    destruct (IH b1) as (e2 & b2 & o2 & Hloop & Hl2 & Hs2 & Hn2).
    exists (e1 ++ e2), b2. eexists. split; [|split; [|split]].
    + cbn [scan_read_loop].
      eapply bind_run; [exact Hsel|].
      destruct (rc =? 0);
        [ eapply bind_run; [exact (read_block_bad_reg a reg n b1 Hr)|];
          exact Hloop
        | exact Hloop ].
    + rewrite Hl2, Hl1, app_assoc. reflexivity.
    + apply Forall_app. auto.
    + rewrite length_app, Hn1, Hn2. destruct (0 <=? page); reflexivity.
Qed.

(** X13.  A register number outside 0..255 is never put on the bus: the
    paged reads use up their passes -- four for [vrm_read_block], two
    for [scan_read_block] -- and report failure, result [(-1, b'')];
    the transactions of the run are the page-selects of those passes,
    one per pass (none when the page is the sentinel), and nothing
    else.  [bytes([reg])] raises inside the [try] of [read_block]. *)
Theorem register_outside_byte_is_not_read a page reg n b :
  page <= 255 -> ~ 0 <= reg <= 255 ->
  (exists evs,
     result_of (vrm_read_block T a page reg n b) = Returns (-1, []) /\
     log (bus_of (vrm_read_block T a page reg n b)) = log b ++ evs /\
     selects_only a page evs /\
     List.length evs = (if 0 <=? page then 4%nat else 0%nat)) /\
  (exists evs,
     result_of (scan_read_block T a page reg n b) = Returns (-1, []) /\
     log (bus_of (scan_read_block T a page reg n b)) = log b ++ evs /\
     selects_only a page evs /\
     List.length evs = (if 0 <=? page then 2%nat else 0%nat)).
Proof.
  intros Hp Hr.
  assert (Hbad : bytes_ok [reg] = false).
  { unfold bytes_ok, is_byte. cbn [forallb]. rewrite andb_true_r.
    apply andb_false_iff.
    destruct (Z.leb_spec 0 reg); [right; apply Z.ltb_ge; lia|left; reflexivity]. }
  split.
  - destruct (vrm_read_loop_bad_reg a page reg n 4 b Hp Hbad)
      as (evs & b' & out & E & Hl & Hs & Hn).
    exists evs. unfold vrm_read_block.
    change (Z.to_nat RETRY_RW) with 4%nat. rewrite E. auto.
  - destruct (scan_read_loop_bad_reg a page reg n 2 b Hp Hbad)
      as (evs & b' & out & E & Hl & Hs & Hn).
    exists evs. unfold scan_read_block.
    change (Z.to_nat RETRY_SCAN) with 2%nat. rewrite E. auto.
Qed.

End Further.

(** * Further runs on the simulated transports *)

(** X7, for [-PXE1610C 58 ZZ]: the second address does not parse, and
    nothing is sent to the PXE1610C at 0x58 either. *)
Lemma main_rejects_ill_formed_witness :
  well_formed_invocation int16_demo ["-PXE1610C"; "58"; "ZZ"] = false /\
  result_of (main (pxe_chip 0x64) int16_demo ["-PXE1610C"; "58"; "ZZ"]
               (fresh (pxe_chip 0x64) power_up)) = Returns tt /\
  bus_of (main (pxe_chip 0x64) int16_demo ["-PXE1610C"; "58"; "ZZ"]
            (fresh (pxe_chip 0x64) power_up))
  = fresh (pxe_chip 0x64) power_up.
Proof.
  split; [reflexivity|].
  apply (main_rejects_ill_formed (pxe_chip 0x64) int16_demo).
  reflexivity.
Defined.

(** X9, for a MP2955A at 0x60 whose ICC_MAX reads 0x64: the run
    returns 0. *)
Lemma zero_means_skipped_or_written_witness :
  result_of (set_icc_max (mp_chip 0x64) MP2955A 0x60
               (fresh (mp_chip 0x64) power_up)) = Returns 0 /\
  (In (skip_line MP2955A)
      (lines_of (set_icc_max (mp_chip 0x64) MP2955A 0x60
                   (fresh (mp_chip 0x64) power_up))) \/
   exists evs,
     log (bus_of (set_icc_max (mp_chip 0x64) MP2955A 0x60
                    (fresh (mp_chip 0x64) power_up)))
     = log (fresh (mp_chip 0x64) power_up) ++ evs /\
     Forall (fun d => In (TxWrite 0x60 d true) evs)
       (required_writes MP2955A)).
Proof.
  split; [vm_compute; reflexivity|].
  apply (zero_means_skipped_or_written (mp_chip 0x64) MP2955A 0x60).
  vm_compute. reflexivity.
Defined.

(** X11, for [-scan 77 10]. *)
Lemma scan_empty_range_witness :
  0x10 < 0x77 /\
  scan_pmbus dead_bus 0x77 0x10 dead = (Returns 0, dead, []).
Proof.
  split; [lia|]. apply (scan_empty_range dead_bus 0x77 0x10 dead). lia.
Defined.

(** X12, for page 0x100. *)
Lemma page_above_byte_raises_witness :
  255 < 0x100 /\
  vrm_write_block dead_bus 0x58 0x100 [0x34] dead
  = (Raises ValueError, dead, []) /\
  vrm_read_block dead_bus 0x58 0x100 0x82 2 dead
  = (Raises ValueError, dead, []) /\
  scan_read_block dead_bus 0x58 0x100 0x82 2 dead
  = (Raises ValueError, dead, []).
Proof.
  split; [lia|].
  apply (page_above_byte_raises dead_bus 0x58 0x100 [0x34] 0x82 2 dead). lia.
Defined.

(** X13, for register 0x100 on page 0x3F of a PXE1610C that
    acknowledges every page-select: four (two) page-selects go through
    and no read follows any of them. *)
Lemma register_outside_byte_is_not_read_witness :
  (0x3F <= 255 /\ ~ 0 <= 0x100 <= 255) /\
  (log (bus_of (vrm_read_block (pxe_chip 0x64) 0x58 0x3F 0x100 2
                  (fresh (pxe_chip 0x64) power_up)))
   = [ TxWrite 0x58 [0x00; 0x3F] true; TxWrite 0x58 [0x00; 0x3F] true;
       TxWrite 0x58 [0x00; 0x3F] true; TxWrite 0x58 [0x00; 0x3F] true ] /\
   log (bus_of (scan_read_block (pxe_chip 0x64) 0x58 0x3F 0x100 2
                  (fresh (pxe_chip 0x64) power_up)))
   = [ TxWrite 0x58 [0x00; 0x3F] true; TxWrite 0x58 [0x00; 0x3F] true ]) /\
  (exists evs,
     result_of (vrm_read_block (pxe_chip 0x64) 0x58 0x3F 0x100 2
                  (fresh (pxe_chip 0x64) power_up))
     = Returns (-1, []) /\
     log (bus_of (vrm_read_block (pxe_chip 0x64) 0x58 0x3F 0x100 2
                    (fresh (pxe_chip 0x64) power_up)))
     = log (fresh (pxe_chip 0x64) power_up) ++ evs /\
     selects_only 0x58 0x3F evs /\
     List.length evs = (if 0 <=? 0x3F then 4%nat else 0%nat)) /\
  (exists evs,
     result_of (scan_read_block (pxe_chip 0x64) 0x58 0x3F 0x100 2
                  (fresh (pxe_chip 0x64) power_up))
     = Returns (-1, []) /\
     log (bus_of (scan_read_block (pxe_chip 0x64) 0x58 0x3F 0x100 2
                    (fresh (pxe_chip 0x64) power_up)))
     = log (fresh (pxe_chip 0x64) power_up) ++ evs /\
     selects_only 0x58 0x3F evs /\
     List.length evs = (if 0 <=? 0x3F then 2%nat else 0%nat)).
Proof.
  split; [lia|]. split; [vm_compute; split; reflexivity|].
  apply (register_outside_byte_is_not_read (pxe_chip 0x64) 0x58 0x3F 0x100 2
           (fresh (pxe_chip 0x64) power_up));
    lia.
Defined.

(** X14, for [-MP2955A 60 61] on a bus with a MP2955A at 0x60: the
    procedure on 0x60 returns, and the one on 0x61 runs on the bus it
    left. *)
Lemma main_two_addresses_witness :
  exists rc1 b1 o1,
    set_icc_max (mp_chip 0x64) MP2955A 0x60 (fresh (mp_chip 0x64) power_up)
    = (Returns rc1, b1, o1) /\
    bus_of (main (mp_chip 0x64) int16_demo ["-MP2955A"; "60"; "61"]
              (fresh (mp_chip 0x64) power_up))
    = bus_of (set_icc_max (mp_chip 0x64) MP2955A 0x61 b1).
Proof.
  eexists _, _, _. split; [vm_compute; reflexivity|].
  eapply (main_two_addresses (mp_chip 0x64) int16_demo "-MP2955A" MP2955A
            "60" "61" 0x60 0x61);
    [reflexivity|reflexivity|lia|reflexivity|lia|].
  vm_compute. reflexivity.
Defined.
